(** * Food expiry tracker: the OCR date-extraction engine (src/ocr_engine.py)

    A shallow embedding of [DateExtractor] and [FoodExpiryDetector] and the
    properties of the specification that concern them.

    Conventions of the model.
    - Text is a [string]; a character is a code point below 256, classified as
      Python classifies it ([str.isspace], [str.isdigit], the [re] classes).
    - Python exceptions are values of [exn]; a computation that may raise has
      type [result A].
    - Confidences are Python floats in the source.  [select_best_expiry],
      whose choice can turn on how a product is rounded, is modelled on
      binary64 in [Binary64].  Elsewhere confidences are exact rationals
      ([Q]) and the constants 0.85, 1.4, 0.9, 0.3 and 1.0 are read as the
      decimal fractions they denote: on the candidates of the extractor,
      all of confidence 0.85, the rational selector selects as the binary64
      one does ([rational_selector_agrees]).
    - The system clock and the OCR engine are the only ambient effects; they
      are threaded through a [World]. *)

From Stdlib Require Import ZArith QArith Qround Floats List String Ascii Bool Arith
  Lia Lqa.
Import ListNotations.

(* ================================================================== *)
(** * Python values, exceptions and strings *)
(* ================================================================== *)

Module Py.

(** The exceptions the engine can meet.  [BaseExceptionOnly] stands for the
    classes that derive from [BaseException] but not from [Exception]
    (KeyboardInterrupt, SystemExit): [except Exception] lets them through. *)
Inductive exn : Type :=
| FileNotFoundError (msg : string)
| ValueError (msg : string)
| TypeError (msg : string)
| OtherException (msg : string)
| BaseExceptionOnly (msg : string).

(** [isinstance(e, Exception)] *)
Definition is_Exception (e : exn) : bool :=
  match e with
  | BaseExceptionOnly _ => false
  | _ => true
  end.

(** [isinstance(e, ValueError)] *)
Definition is_ValueError (e : exn) : bool :=
  match e with
  | ValueError _ => true
  | _ => false
  end.

(** [str(e)] *)
Definition str_of_exn (e : exn) : string :=
  match e with
  | FileNotFoundError m | ValueError m | TypeError m
  | OtherException m | BaseExceptionOnly m => m
  end.

Inductive result (A : Type) : Type :=
| Ok (a : A)
| Raise (e : exn).
Arguments Ok {A} a.
Arguments Raise {A} e.

Definition bind {A B : Type} (r : result A) (f : A -> result B) : result B :=
  match r with
  | Ok a => f a
  | Raise e => Raise e
  end.

(** Monadic left fold: a [for] loop whose body may raise. *)
Fixpoint foldM {A B : Type} (f : B -> A -> result B) (l : list A) (acc : B)
  : result B :=
  match l with
  | [] => Ok acc
  | x :: l' => bind (f acc x) (foldM f l')
  end.

(** Monadic map: [[f(x) for x in l]] when [f] may raise. *)
Fixpoint mapM {A B : Type} (f : A -> result B) (l : list A) : result (list B) :=
  match l with
  | [] => Ok []
  | x :: l' => bind (f x) (fun y => bind (mapM f l') (fun ys => Ok (y :: ys)))
  end.

(** ** Characters *)

Definition code (c : ascii) : N := N_of_ascii c.

Definition between (lo hi : N) (c : ascii) : bool :=
  (lo <=? code c)%N && (code c <=? hi)%N.

(** ASCII decimal digits: what [\d] matches and what [int()] accepts. *)
Definition is_decimal (c : ascii) : bool := between 48 57 c.

(** [str.isdigit] on one character: the decimal digits and the superscript
    digits U+00B2, U+00B3, U+00B9. *)
Definition char_isdigit (c : ascii) : bool :=
  is_decimal c || (code c =? 178)%N || (code c =? 179)%N || (code c =? 185)%N.

(** [str.isspace] on one character; also the class [\s]. *)
Definition char_isspace (c : ascii) : bool :=
  between 9 13 c || between 28 32 c || (code c =? 133)%N || (code c =? 160)%N.

Definition is_upper_ascii (c : ascii) : bool := between 65 90 c.
Definition is_lower_ascii (c : ascii) : bool := between 97 122 c.

(** Word characters of [\w] (hence of [\b]): alphanumerics and underscore. *)
Definition char_isword (c : ascii) : bool :=
  is_decimal c || is_upper_ascii c || is_lower_ascii c || (code c =? 95)%N
  || (code c =? 170)%N || (code c =? 178)%N || (code c =? 179)%N
  || (code c =? 181)%N || (code c =? 185)%N || (code c =? 186)%N
  || between 188 190 c || between 192 214 c || between 216 246 c
  || between 248 255 c.

(** Case mapping of the ASCII letters; the letters of the patterns are ASCII,
    and no other character below 256 folds onto an ASCII letter. *)
Definition lower_char (c : ascii) : ascii :=
  if is_upper_ascii c then ascii_of_N (code c + 32) else c.

Definition upper_char (c : ascii) : ascii :=
  if is_lower_ascii c then ascii_of_N (code c - 32) else c.

(** ** Strings *)

Fixpoint string_forallb (p : ascii -> bool) (s : string) : bool :=
  match s with
  | EmptyString => true
  | String c s' => p c && string_forallb p s'
  end.

Fixpoint string_map (f : ascii -> ascii) (s : string) : string :=
  match s with
  | EmptyString => EmptyString
  | String c s' => String (f c) (string_map f s')
  end.

(** [s.isdigit()]: non-empty and made of digits. *)
Definition isdigit (s : string) : bool :=
  match s with
  | EmptyString => false
  | _ => string_forallb char_isdigit s
  end.

(** [s.lower()] on the ASCII letters (see [lower_char]). *)
Definition lower (s : string) : string := string_map lower_char s.

(** [s[:n]] *)
Definition prefix (n : nat) (s : string) : string := substring 0 n s.

(** [bool(s.strip())]: some character is not whitespace. *)
Definition strip_nonempty (s : string) : bool :=
  negb (string_forallb char_isspace s).

(** [sep.join(l)] *)
Fixpoint join (sep : string) (l : list string) : string :=
  match l with
  | [] => EmptyString
  | [s] => s
  | s :: l' => (s ++ sep ++ join sep l')%string
  end.

(** [int(s)] as the code applies it, to strings that passed [isdigit]: the
    number a string of ASCII decimal digits denotes, [ValueError] for a
    string with one of the superscript digits. *)
Fixpoint int_digits (acc : Z) (s : string) : Z :=
  match s with
  | EmptyString => acc
  | String c s' => int_digits (10 * acc + Z.of_N (code c - 48))%Z s'
  end.

Definition int (s : string) : result Z :=
  match s with
  | EmptyString => Raise (ValueError "invalid literal for int() with base 10")
  | _ =>
    if string_forallb is_decimal s then Ok (int_digits 0%Z s)
    else Raise (ValueError "invalid literal for int() with base 10")
  end.

(** Day and year are [int] on one branch of [parse_date] and [str] on the
    other: the dynamically typed values that reach the shared code. *)
Inductive pyval : Type :=
| PInt (z : Z)
| PStr (s : string).

(** [v < n] and [lo <= v <= hi] against integer literals: defined between
    ints, [TypeError] for a [str] operand. *)
Definition lt_int (v : pyval) (n : Z) : result bool :=
  match v with
  | PInt z => Ok (z <? n)%Z
  | PStr _ =>
    Raise (TypeError "'<' not supported between instances of 'str' and 'int'")
  end.

Definition between_int (lo : Z) (v : pyval) (hi : Z) : result bool :=
  match v with
  | PInt z => Ok ((lo <=? z)%Z && (z <=? hi)%Z)
  | PStr _ =>
    Raise (TypeError "'<=' not supported between instances of 'int' and 'str'")
  end.

(** [v += n] *)
Definition add_int (v : pyval) (n : Z) : result pyval :=
  match v with
  | PInt z => Ok (PInt (z + n)%Z)
  | PStr _ => Raise (TypeError "can only concatenate str (not 'int') to str")
  end.

End Py.

(* ================================================================== *)
(** * The fragment of Python's [re] that the patterns use *)
(* ================================================================== *)

Module Re.
Import Py.

(** One item of a bracketed class such as [[,.\s]]. *)
Inductive class_item : Type :=
| CChar (c : ascii)
| CRange (lo hi : ascii)
| CSpace.

(** Patterns.  Repetition is greedy; [Rep lo None r] has no upper bound.
    Groups carry their number (counted by opening parenthesis, from 1);
    [(?:...)] is not represented, it only brackets. *)
Inductive regex : Type :=
| Eps
| Lit (c : ascii)
| Digit
| Space
| CharSet (items : list class_item)
| WordB
| Cat (r1 r2 : regex)
| Alt (r1 r2 : regex)
| Rep (lo : nat) (hi : option nat) (r : regex)
| Group (i : nat) (r : regex).

Fixpoint cat (rs : list regex) : regex :=
  match rs with
  | [] => Eps
  | [r] => r
  | r :: rs' => Cat r (cat rs')
  end.

Fixpoint alt (rs : list regex) : regex :=
  match rs with
  | [] => Eps
  | [r] => r
  | r :: rs' => Alt r (alt rs')
  end.

(** A literal word, character by character. *)
Fixpoint word (s : string) : regex :=
  match s with
  | EmptyString => Eps
  | String c EmptyString => Lit c
  | String c s' => Cat (Lit c) (word s')
  end.

Definition opt (r : regex) : regex := Rep 0 (Some 1%nat) r.
Definition star (r : regex) : regex := Rep 0 None r.

Local Open Scope char_scope.

(** ** The syntax of patterns *)

(** [{m}] and [{m,n}]: the digits of a number. *)
Fixpoint read_nat (acc : nat) (s : list ascii) : nat * list ascii :=
  match s with
  | c :: s' =>
    if is_decimal c then read_nat (10 * acc + N.to_nat (code c - 48)) s'
    else (acc, s)
  | [] => (acc, s)
  end.

(** The items of a class, up to the closing bracket. *)
Fixpoint read_class (fuel : nat) (s : list ascii)
  : option (list class_item * list ascii) :=
  match fuel with
  | O => None
  | S fuel' =>
    match s with
    | "]" :: rest => Some ([], rest)
    | "\" :: "s" :: rest =>
      option_map (fun p => (CSpace :: fst p, snd p)) (read_class fuel' rest)
    | "\" :: c :: rest =>
      option_map (fun p => (CChar c :: fst p, snd p)) (read_class fuel' rest)
    | lo :: "-" :: hi :: rest =>
      if Ascii.eqb hi "]" then
        option_map (fun p => (CChar lo :: fst p, snd p)) (read_class fuel' ("-" :: hi :: rest))
      else
        option_map (fun p => (CRange lo hi :: fst p, snd p)) (read_class fuel' rest)
    | c :: rest =>
      option_map (fun p => (CChar c :: fst p, snd p)) (read_class fuel' rest)
    | [] => None
    end
  end.

(** A quantifier after an atom, if there is one. *)
Definition read_quantifier (r : regex) (s : list ascii) : regex * list ascii :=
  match s with
  | "*" :: rest => (Rep 0 None r, rest)
  | "?" :: rest => (Rep 0 (Some 1%nat) r, rest)
  | "{" :: rest =>
    let (lo, rest) := read_nat 0 rest in
    match rest with
    | "}" :: rest => (Rep lo (Some lo) r, rest)
    | "," :: rest =>
      let (hi, rest) := read_nat 0 rest in
      match rest with
      | "}" :: rest => (Rep lo (Some hi) r, rest)
      | _ => (r, s)
      end
    | _ => (r, s)
    end
  | _ => (r, s)
  end.

(** Alternatives, sequences and atoms; [n] counts the groups opened so
    far. *)
Fixpoint read_alt (fuel : nat) (s : list ascii) (n : nat)
  : option (list regex * list ascii * nat) :=
  match fuel with
  | O => None
  | S fuel' =>
    match read_seq fuel' s n with
    | Some (rs, "|" :: rest, n) =>
      match read_alt fuel' rest n with
      | Some (alts, rest, n) => Some (cat rs :: alts, rest, n)
      | None => None
      end
    | Some (rs, rest, n) => Some ([cat rs], rest, n)
    | None => None
    end
  end
with read_seq (fuel : nat) (s : list ascii) (n : nat)
  : option (list regex * list ascii * nat) :=
  match fuel with
  | O => None
  | S fuel' =>
    match s with
    | [] | "|" :: _ | ")" :: _ => Some ([], s, n)
    | _ =>
      match read_atom fuel' s n with
      | Some (r, rest, n) =>
        let (r, rest) := read_quantifier r rest in
        match read_seq fuel' rest n with
        | Some (rs, rest, n) => Some (r :: rs, rest, n)
        | None => None
        end
      | None => None
      end
    end
  end
with read_atom (fuel : nat) (s : list ascii) (n : nat)
  : option (regex * list ascii * nat) :=
  match fuel with
  | O => None
  | S fuel' =>
    match s with
    | "(" :: "?" :: ":" :: rest =>
      match read_alt fuel' rest n with
      | Some (alts, ")" :: rest, n) => Some (alt alts, rest, n)
      | _ => None
      end
    | "(" :: rest =>
      match read_alt fuel' rest (S n) with
      | Some (alts, ")" :: rest, n') => Some (Group (S n) (alt alts), rest, n')
      | _ => None
      end
    | "[" :: rest =>
      match read_class fuel' rest with
      | Some (items, rest) => Some (CharSet items, rest, n)
      | None => None
      end
    | "\" :: "b" :: rest => Some (WordB, rest, n)
    | "\" :: "d" :: rest => Some (Digit, rest, n)
    | "\" :: "s" :: rest => Some (Space, rest, n)
    | "\" :: c :: rest => Some (Lit c, rest, n)
    | "." :: _ | "*" :: _ | "?" :: _ | "{" :: _ | "]" :: _ | "^" :: _
    | "$" :: _ | "+" :: _ => None
    | c :: rest => Some (Lit c, rest, n)
    | [] => None
    end
  end.

(** [re.compile(pattern)] for the syntax above. *)
Definition compile (pattern : string) : option regex :=
  match read_alt (3 * String.length pattern + 3) (list_ascii_of_string pattern) 0 with
  | Some (alts, [], _) => Some (alt alts)
  | _ => None
  end.

Local Close Scope char_scope.

(** Number of capturing groups: the length of [match.groups()]. *)
Fixpoint ngroups (r : regex) : nat :=
  match r with
  | Cat r1 r2 | Alt r1 r2 => Nat.max (ngroups r1) (ngroups r2)
  | Rep _ _ r' => ngroups r'
  | Group i r' => Nat.max i (ngroups r')
  | _ => 0%nat
  end.

(** Character tests under [re.IGNORECASE]: a literal matches a character of
    the same lower case; a class item matches a character if it, its lower
    case or its upper case belongs to the item. *)
Definition lit_matches (c x : ascii) : bool :=
  Ascii.eqb (lower_char x) (lower_char c).

Definition item_has (it : class_item) (x : ascii) : bool :=
  match it with
  | CChar c => Ascii.eqb x c
  | CRange lo hi => between (code lo) (code hi) x
  | CSpace => char_isspace x
  end.

Definition item_matches (it : class_item) (x : ascii) : bool :=
  item_has it x || item_has it (lower_char x) || item_has it (upper_char x).

Definition set_matches (items : list class_item) (x : ascii) : bool :=
  existsb (fun it => item_matches it x) items.

(** The position of the matcher in the subject: the characters already
    passed (nearest first), the characters to come, the groups closed so
    far (latest first). *)
Record cursor : Type := {
  before : list ascii;
  after : list ascii;
  captured : list (nat * string)
}.

Definition advance (s : cursor) : cursor :=
  match after s with
  | [] => s
  | c :: t => {| before := c :: before s; after := t; captured := captured s |}
  end.

Definition head_isword (l : list ascii) : bool :=
  match l with
  | [] => false
  | c :: _ => char_isword c
  end.

(** [\b]: exactly one side of the position is a word character. *)
Definition at_boundary (s : cursor) : bool :=
  xorb (head_isword (before s)) (head_isword (after s)).

(** The text passed between cursor [s] and the later cursor [s']. *)
Definition passed (s s' : cursor) : string :=
  string_of_list_ascii
    (rev (firstn (List.length (before s') - List.length (before s)) (before s'))).

Definition close_group (i : nat) (s s' : cursor) : cursor :=
  {| before := before s'; after := after s';
     captured := (i, passed s s') :: captured s' |}.

Definition one_char (p : ascii -> bool) (k : cursor -> option cursor)
  (s : cursor) : option cursor :=
  match after s with
  | [] => None
  | c :: _ => if p c then k (advance s) else None
  end.

Definition below (hi : option nat) (n : nat) : bool :=
  match hi with
  | None => true
  | Some h => (n <? h)%nat
  end.

(** Leaving a repetition after [n] rounds: allowed once [lo] are done. *)
Definition enough (lo n : nat) (k : cursor -> option cursor) (s : cursor)
  : option cursor :=
  if (lo <=? n)%nat then k s else None.

(** Greedy repetition of [body] between [lo] and [hi] times, [n] rounds
    being done: one more round if allowed and possible, else leave. *)
Fixpoint rep_loop (body : (cursor -> option cursor) -> cursor -> option cursor)
  (lo : nat) (hi : option nat) (k : cursor -> option cursor)
  (fuel n : nat) (s : cursor) {struct fuel} : option cursor :=
  match fuel with
  | O => enough lo n k s
  | S fuel' =>
    if below hi n then
      match body (rep_loop body lo hi k fuel' (S n)) s with
      | Some s' => Some s'
      | None => enough lo n k s
      end
    else enough lo n k s
  end.

(** Backtracking matcher: [rmatch r k s] tries the ways of matching [r] at
    [s] in Python's order of preference (left alternative first, longest
    repetition first) and returns the first that the continuation [k]
    accepts.  A repetition is given one round more than there are characters
    left, which is enough for every repetition whose rounds consume text. *)
Fixpoint rmatch (r : regex) (k : cursor -> option cursor) (s : cursor)
  : option cursor :=
  match r with
  | Eps => k s
  | Lit c => one_char (lit_matches c) k s
  | Digit => one_char is_decimal k s
  | Space => one_char char_isspace k s
  | CharSet items => one_char (set_matches items) k s
  | WordB => if at_boundary s then k s else None
  | Cat r1 r2 => rmatch r1 (rmatch r2 k) s
  | Alt r1 r2 =>
    match rmatch r1 k s with
    | Some s' => Some s'
    | None => rmatch r2 k s
    end
  | Rep lo hi r' => rep_loop (rmatch r') lo hi k (S (List.length (after s))) 0 s
  | Group i r' => rmatch r' (fun s' => k (close_group i s s')) s
  end.

(** A match object: where it starts and ends, [group(0)] and [groups()]. *)
Record rematch : Type := {
  m_start : nat;
  m_end : nat;
  group0 : string;
  groups : list string
}.

Definition lookup_group (caps : list (nat * string)) (i : nat) : string :=
  match find (fun p => Nat.eqb (fst p) i) caps with
  | Some p => snd p
  | None => EmptyString
  end.

(** The match of [r] that starts exactly at cursor [s], if there is one. *)
Definition match_here (r : regex) (s : cursor) : option rematch :=
  match rmatch r (fun s' => Some s') {| before := before s; after := after s; captured := [] |} with
  | None => None
  | Some s' =>
    Some {| m_start := List.length (before s);
            m_end := List.length (before s');
            group0 := passed s s';
            groups := map (lookup_group (captured s')) (seq 1 (ngroups r)) |}
  end.

(** Leftmost match at or after cursor [s]. *)
Fixpoint scan (fuel : nat) (r : regex) (s : cursor) : option rematch :=
  match match_here r s with
  | Some m => Some m
  | None =>
    match fuel, after s with
    | S fuel', _ :: _ => scan fuel' r (advance s)
    | _, _ => None
    end
  end.

Definition start_of (text : string) : cursor :=
  {| before := []; after := list_ascii_of_string text; captured := [] |}.

(** The cursor of [text] at offset [n]. *)
Fixpoint seek (n : nat) (s : cursor) : cursor :=
  match n with
  | O => s
  | S n' => seek n' (advance s)
  end.

(** [re.search(pattern, text, re.IGNORECASE)] *)
Definition search (r : regex) (text : string) : option rematch :=
  scan (String.length text) r (start_of text).

(** [re.finditer(pattern, text, re.IGNORECASE)]: the leftmost match, then
    the leftmost match after its end, and so on.  After an empty match the
    scan resumes one character further. *)
Fixpoint finditer_from (fuel : nat) (r : regex) (s : cursor) : list rematch :=
  match fuel with
  | O => []
  | S fuel' =>
    match scan (List.length (after s)) r s with
    | None => []
    | Some m =>
      let next := if (m_end m =? m_start m)%nat then S (m_end m) else m_end m in
      m :: (if (next <=? List.length (before s) + List.length (after s))%nat
            then finditer_from fuel' r
                   (seek (next - List.length (before s)) s)
            else [])
    end
  end.

Definition finditer (r : regex) (text : string) : list rematch :=
  finditer_from (S (String.length text)) r (start_of text).

End Re.

(* ================================================================== *)
(** * [datetime]: calendar dates, instants and their differences *)
(* ================================================================== *)

Module Datetime.
Import Py.
Local Open Scope Z_scope.

(** A UTC [datetime] value. *)
Record datetime : Type := {
  year : Z; month : Z; day : Z;
  hour : Z; minute : Z; second : Z; microsecond : Z
}.

Definition is_leap (y : Z) : bool :=
  (y mod 4 =? 0) && (negb (y mod 100 =? 0) || (y mod 400 =? 0)).

Definition days_in_month (y m : Z) : Z :=
  if m =? 2 then (if is_leap y then 29 else 28)
  else if (m =? 4) || (m =? 6) || (m =? 9) || (m =? 11) then 30
  else 31.

(** The checks of the [datetime] constructor on year, month and day. *)
Definition valid_date (y m d : Z) : bool :=
  (1 <=? y) && (y <=? 9999) && (1 <=? m) && (m <=? 12)
  && (1 <=? d) && (d <=? days_in_month y m).

(** [datetime(year, month, day, tzinfo=UTC)]: midnight of that day, or
    [ValueError] when the fields do not make a date. *)
Definition make (y m d : pyval) : result datetime :=
  match y, m, d with
  | PInt y, PInt m, PInt d =>
    if negb ((1 <=? y) && (y <=? 9999)) then
      Raise (ValueError "year is out of range")
    else if negb ((1 <=? m) && (m <=? 12)) then
      Raise (ValueError "month must be in 1..12")
    else if negb ((1 <=? d) && (d <=? days_in_month y m)) then
      Raise (ValueError "day is out of range for month")
    else
      Ok {| year := y; month := m; day := d;
            hour := 0; minute := 0; second := 0; microsecond := 0 |}
  | _, _, _ =>
    Raise (TypeError "'str' object cannot be interpreted as an integer")
  end.

(** Days before January 1st of year [y], and before the first of month [m]. *)
Definition days_before_year (y : Z) : Z :=
  (y - 1) * 365 + (y - 1) / 4 - (y - 1) / 100 + (y - 1) / 400.

Fixpoint days_before_month_aux (y : Z) (n : nat) : Z :=
  match n with
  | O => 0
  | S n' => days_before_month_aux y n' + days_in_month y (Z.of_nat n)
  end.

Definition days_before_month (y m : Z) : Z :=
  days_before_month_aux y (Z.to_nat (m - 1)).

(** [date.toordinal()]: 1 for 0001-01-01. *)
Definition toordinal (dt : datetime) : Z :=
  days_before_year (year dt) + days_before_month (year dt) (month dt) + day dt.

Definition us_per_day : Z := 86400000000.

(** Microseconds since the start of day 0 of the ordinal count. *)
Definition instant (dt : datetime) : Z :=
  toordinal dt * us_per_day
  + ((hour dt * 60 + minute dt) * 60 + second dt) * 1000000 + microsecond dt.

(** [(a - b).days]: a [timedelta] is normalised with non-negative seconds and
    microseconds, so its [days] is the floor of the difference in days. *)
Definition days_between (a b : datetime) : Z :=
  (instant a - instant b) / us_per_day.

Definition digit_char (z : Z) : ascii := ascii_of_N (48 + Z.to_N (z mod 10)).

Definition pad2 (z : Z) : string :=
  String (digit_char (z / 10)) (String (digit_char z) EmptyString).

Definition pad4 (z : Z) : string :=
  String (digit_char (z / 1000)) (String (digit_char (z / 100)) (pad2 z)).

(** [dt.strftime('%Y-%m-%d')] for a four-digit year. *)
Definition strftime_ymd (dt : datetime) : string :=
  (pad4 (year dt) ++ "-" ++ pad2 (month dt) ++ "-" ++ pad2 (day dt))%string.

End Datetime.

(* ================================================================== *)
(** * The ambient world: system clock and OCR engine *)
(* ================================================================== *)

Module Sys.
Import Py Datetime.

(** Which of the two pytesseract entry points a call went to. *)
Inductive ocr_call : Type :=
| ImageToString (psm : Z)
| ImageToData (psm : Z).

(** The state the engine reads or changes besides its arguments: the value
    each successive reading of the clock returns, how many readings were
    made, and the OCR calls issued so far (latest first). *)
Record World : Type := {
  clock : nat -> datetime;
  reads : nat;
  ocr_log : list ocr_call
}.

(** [datetime.now(UTC)] *)
Definition now (w : World) : datetime * World :=
  (clock w (reads w),
   {| clock := clock w; reads := S (reads w); ocr_log := ocr_log w |}).

Definition log_call (c : ocr_call) (w : World) : World :=
  {| clock := clock w; reads := reads w; ocr_log := c :: ocr_log w |}.

End Sys.

(* ================================================================== *)
(** * class DateExtractor *)
(* ================================================================== *)

Module DateExtractor.
Import Py Re Datetime Sys.
Local Open Scope string_scope.

Definition digits (lo hi : nat) : regex := Rep lo (Some hi) Digit.

(** [[-/.]] *)
Definition date_sep : regex := CharSet [CChar "-"; CChar "/"; CChar "."].

(** [(?:st|nd|rd|th)?] *)
Definition ordinal : regex := opt (alt [word "st"; word "nd"; word "rd"; word "th"]).

(** [(Jan|Feb|Mar|Apr|May|Jun|Jul|Aug|Sep|Oct|Nov|Dec)] as group [i]. *)
Definition month_name (i : nat) : regex :=
  Group i (alt (map word ["Jan"; "Feb"; "Mar"; "Apr"; "May"; "Jun";
                          "Jul"; "Aug"; "Sep"; "Oct"; "Nov"; "Dec"])).

(** [[a-z]*\.?] *)
Definition month_tail : list regex :=
  [star (CharSet [CRange "a" "z"]); opt (Lit ".")].

(** [\b(\d{1,2})[-/.](\d{1,2})[-/.](\d{2,4})\b] *)
Definition pattern1 : regex :=
  cat [WordB; Group 1 (digits 1 2); date_sep; Group 2 (digits 1 2); date_sep;
       Group 3 (digits 2 4); WordB].

(** [\b(\d{4})[-/.](\d{1,2})[-/.](\d{1,2})\b] *)
Definition pattern2 : regex :=
  cat [WordB; Group 1 (digits 4 4); date_sep; Group 2 (digits 1 2); date_sep;
       Group 3 (digits 1 2); WordB].

(** [\b(\d{1,2})\.(\d{1,2})\.(\d{2,4})\b] *)
Definition pattern3 : regex :=
  cat [WordB; Group 1 (digits 1 2); Lit "."; Group 2 (digits 1 2); Lit ".";
       Group 3 (digits 2 4); WordB].

(** [\b(\d{1,2})\s*(?:st|nd|rd|th)?\s*(Jan|...|Dec)[a-z]*\.?\s*(\d{4})\b] *)
Definition pattern4 : regex :=
  cat ([WordB; Group 1 (digits 1 2); star Space; ordinal; star Space;
        month_name 2] ++ month_tail ++ [star Space; Group 3 (digits 4 4); WordB]).

(** [\b(Jan|...|Dec)[a-z]*\.?\s*(\d{1,2})(?:st|nd|rd|th)?[,.\s]*(\d{4})\b] *)
Definition pattern5 : regex :=
  cat ([WordB; month_name 1] ++ month_tail
       ++ [star Space; Group 2 (digits 1 2); ordinal;
           star (CharSet [CChar ","; CChar "."; CSpace]);
           Group 3 (digits 4 4); WordB]).

(** [\s*[:=]?\s*] *)
Definition label_sep : list regex :=
  [star Space; opt (CharSet [CChar ":"; CChar "="]); star Space].

(** [(?:EXP|Exp|Expiry|Best Before|Use By|BB|USE BY|Sell By|MFG|Manufactured)
     \s*[:=]?\s*(\d{1,2}[-/.]\d{1,2}[-/.]\d{2,4})] *)
Definition pattern6 : regex :=
  cat ([alt (map word ["EXP"; "Exp"; "Expiry"; "Best Before"; "Use By"; "BB";
                       "USE BY"; "Sell By"; "MFG"; "Manufactured"])]
       ++ label_sep
       ++ [Group 1 (cat [digits 1 2; date_sep; digits 1 2; date_sep; digits 2 4])]).

(** [(?:EXP|Exp|Expiry|Best Before|Use By)\s*[:=]?\s*
     (\d{4}[-/.]\d{1,2}[-/.]\d{1,2})] *)
Definition pattern7 : regex :=
  cat ([alt (map word ["EXP"; "Exp"; "Expiry"; "Best Before"; "Use By"])]
       ++ label_sep
       ++ [Group 1 (cat [digits 4 4; date_sep; digits 1 2; date_sep; digits 1 2])]).

Definition DATE_PATTERNS : list regex :=
  [pattern1; pattern2; pattern3; pattern4; pattern5; pattern6; pattern7].

(** The seven raw strings of the source, character for character. *)
Definition DATE_PATTERN_SOURCES : list string := [
  "\b(\d{1,2})[-/.](\d{1,2})[-/.](\d{2,4})\b";
  "\b(\d{4})[-/.](\d{1,2})[-/.](\d{1,2})\b";
  "\b(\d{1,2})\.(\d{1,2})\.(\d{2,4})\b";
  "\b(\d{1,2})\s*(?:st|nd|rd|th)?\s*(Jan|Feb|Mar|Apr|May|Jun|Jul|Aug|Sep|Oct|Nov|Dec)[a-z]*\.?\s*(\d{4})\b";
  "\b(Jan|Feb|Mar|Apr|May|Jun|Jul|Aug|Sep|Oct|Nov|Dec)[a-z]*\.?\s*(\d{1,2})(?:st|nd|rd|th)?[,.\s]*(\d{4})\b";
  "(?:EXP|Exp|Expiry|Best Before|Use By|BB|USE BY|Sell By|MFG|Manufactured)\s*[:=]?\s*(\d{1,2}[-/.]\d{1,2}[-/.]\d{2,4})";
  "(?:EXP|Exp|Expiry|Best Before|Use By)\s*[:=]?\s*(\d{4}[-/.]\d{1,2}[-/.]\d{1,2})"
].

Definition MONTH_MAP : list (string * Z) :=
  [("jan", 1); ("feb", 2); ("mar", 3); ("apr", 4); ("may", 5); ("jun", 6);
   ("jul", 7); ("aug", 8); ("sep", 9); ("oct", 10); ("nov", 11); ("dec", 12)]%Z.

(** [MONTH_MAP.get(key)] *)
Definition MONTH_MAP_get (key : string) : option Z :=
  match find (fun p => String.eqb (fst p) key) MONTH_MAP with
  | Some p => Some (snd p)
  | None => None
  end.

(** How one turn of the pattern loop of [parse_date] ends. *)
Inductive flow (A : Type) : Type :=
| Continue
| Return (a : A).
Arguments Continue {A}.
Arguments Return {A} a.

(** [a, b, c = map(int, [g for g in groups if g.isdigit()])] *)
Definition unpack3 (groups : list string) : result (Z * Z * Z) :=
  bind (mapM int (filter isdigit groups)) (fun ints =>
  match ints with
  | [a; b; c] => Ok (a, b, c)
  | [] => Raise (ValueError "not enough values to unpack (expected 3, got 0)")
  | [_] => Raise (ValueError "not enough values to unpack (expected 3, got 1)")
  | [_; _] => Raise (ValueError "not enough values to unpack (expected 3, got 2)")
  | _ => Raise (ValueError "too many values to unpack (expected 3)")
  end).

(** Lines 114-125: the day, month and year read off the three groups, or
    [None] where the source says [continue]. *)
Definition fields (groups : list string) : result (option (pyval * pyval * pyval)) :=
  if negb (isdigit (nth 1 groups "")) then
    let month_str := prefix 3 (lower (nth 1 groups "")) in
    match MONTH_MAP_get month_str with
    | None => Ok None
    | Some month =>
      if (month =? 0)%Z then Ok None
      else Ok (Some (PStr (nth 0 groups ""), PInt month, PStr (nth 2 groups "")))
    end
  else
    bind (unpack3 groups) (fun abc =>
    let '(a, b, c) := abc in
    if ((1 <=? a) && (a <=? 31) && (1 <=? b) && (b <=? 12))%Z
    then Ok (Some (PInt a, PInt b, PInt c))
    else Ok (Some (PInt b, PInt a, PInt c))).

(** Lines 127-128: two-digit years. *)
Definition expand_year (year : pyval) : result pyval :=
  bind (lt_int year 100) (fun small =>
  if small then
    bind (lt_int year 50) (fun recent =>
    add_int year (if recent then 2000 else 1900)%Z)
  else Ok year).

(** Lines 130-135: build the date; keep it only inside 2020..2035. *)
Definition build (day month year : pyval) : result (flow datetime) :=
  match Datetime.make year month day with
  | Ok dt =>
    bind (between_int 2020 year 2035) (fun plausible =>
    Ok (if plausible then Return dt else Continue))
  | Raise e => if is_ValueError e then Ok Continue else Raise e
  end.

(** Lines 110-135: what the loop of [parse_date] does with the groups of
    a match. *)
Definition resolve_groups (groups : list string) : result (flow datetime) :=
  if negb (List.length groups =? 3)%nat then Ok Continue
  else
    bind (fields groups) (fun f =>
    match f with
    | None => Ok Continue
    | Some (day, month, year) =>
      bind (expand_year year) (fun year => build day month year)
    end).

(** The body of the loop of [parse_date] for one pattern. *)
Definition parse_with (pattern : regex) (text : string) : result (flow datetime) :=
  match Re.search pattern text with
  | None => Ok Continue
  | Some m => resolve_groups (Re.groups m)
  end.

Fixpoint parse_loop (patterns : list regex) (text : string)
  : result (option datetime) :=
  match patterns with
  | [] => Ok None
  | pattern :: rest =>
    bind (parse_with pattern text) (fun f =>
    match f with
    | Return dt => Ok (Some dt)
    | Continue => parse_loop rest text
    end)
  end.

Definition parse_date (text : string) : result (option datetime) :=
  parse_loop DATE_PATTERNS text.

(** A candidate: the dict with keys ['date'], ['raw'], ['confidence']. *)
Record candidate : Type := {
  date : datetime;
  raw : string;
  confidence : Q
}.

(** The inner loop body of [extract_potential_dates] (lines 144-151). *)
Definition consider (candidates : list candidate) (m : rematch)
  : result (list candidate) :=
  let raw := group0 m in
  bind (parse_date raw) (fun dt =>
  match dt with
  | Some dt => Ok (candidates ++ [{| date := dt; raw := raw; confidence := 0.85%Q |}])%list
  | None => Ok candidates
  end).

Definition extract_potential_dates (text : string) : result (list candidate) :=
  foldM (fun candidates pattern =>
           foldM consider (Re.finditer pattern text) candidates)
        DATE_PATTERNS [].

(** A scored candidate: the candidate's keys with ['confidence'] replaced and
    ['days_until'] added. *)
Record scored : Type := {
  s_date : datetime;
  s_raw : string;
  s_confidence : Q;
  days_until : Z
}.

(** [min(a, b)] and [x > y] on confidences, read as rationals.  The same
    selector on binary64 confidences is in [Binary64]; the two select alike
    on candidates of confidence 0.85 ([rational_selector_agrees]). *)
Definition py_min (a b : Q) : Q :=
  match Qcompare b a with
  | Lt => b
  | _ => a
  end.

Definition gt (x y : Q) : bool :=
  match Qcompare x y with
  | Gt => true
  | _ => false
  end.

(** [max(l, key=key)]: the first item whose key no other item exceeds. *)
Fixpoint max_from {A : Type} (key : A -> Q) (best : A) (l : list A) : A :=
  match l with
  | [] => best
  | x :: l' => max_from key (if gt (key x) (key best) then x else best) l'
  end.

Definition py_max {A : Type} (key : A -> Q) (l : list A) : option A :=
  match l with
  | [] => None
  | x :: l' => Some (max_from key x l')
  end.

(** The body of the scoring loop (lines 163-173) for the clock reading [now]. *)
Definition score (now : datetime) (cand : candidate) : scored :=
  let days := days_between (date cand) now in
  let conf := confidence cand in
  let conf :=
    if ((1 <=? days) && (days <=? 540))%Z then (conf * 1.4)%Q
    else if ((1 <=? days) && (days <=? 1825))%Z then (conf * 0.9)%Q
    else (conf * 0.3)%Q in
  {| s_date := date cand; s_raw := raw cand;
     s_confidence := py_min conf 1.0%Q; days_until := days |}.

(** [select_best_expiry(candidates)]: it takes the candidates only and reads
    the clock itself, once, when the list is not empty. *)
Definition select_best_expiry (candidates : list candidate) (w : World)
  : option scored * World :=
  match candidates with
  | [] => (None, w)
  | _ =>
    let (now, w) := Sys.now w in
    let scored := map (score now) candidates in
    (py_max s_confidence scored, w)
  end.

End DateExtractor.

(* ================================================================== *)
(** * class ImagePreprocessor and class FoodExpiryDetector *)
(* ================================================================== *)

Module FoodExpiryDetector.
Import Py Re Datetime Sys DateExtractor.
Local Open Scope string_scope.

(** What the engine is given from outside: the file system and OpenCV
    ([is_file], [imread], the [preprocess] pipeline of OpenCV calls) and
    pytesseract run with [--oem 3 -l lang] and the page segmentation mode
    passed ([image_to_string]; the ['conf'] column of [image_to_data], its
    entries already converted by [int]). *)
Record Env (Image : Type) : Type := {
  is_file : string -> bool;
  imread : string -> option Image;
  preprocess : Image -> result Image;
  image_to_string : Image -> Z -> result string;
  image_to_data_conf : Image -> Z -> result (list Z)
}.

(** The four shapes of dict that [extract_expiry_date] returns, in the
    order of its [return] statements. *)
Inductive ExtractionResult : Type :=
| NoPattern (error raw_text : string) (ocr_confidence : Q)
| NoneValid (error : string) (candidates : list string) (ocr_confidence : Q)
| Success (date raw_text : string) (confidence : Q) (days_until_expiry : Z)
          (ocr_confidence : Q) (note : string)
| Crashed (error : string) (ocr_confidence : Q).

(** [np.mean(l)] *)
Definition mean (l : list Q) : Q :=
  (fold_right Qplus 0 l / inject_Z (Z.of_nat (List.length l)))%Q.

(** [round(q, 3)] of the exact rational, ties to even.  Python rounds the
    binary64 value by its decimal expansion; the two agree on 1.0, 0.765
    and 0.255, the confidences a success can carry. *)
Definition round3 (q : Q) : Q :=
  let t := (q * 1000)%Q in
  let f := Qfloor t in
  let up :=
    match Qcompare (t - inject_Z f) (1 # 2) with
    | Lt => false
    | Gt => true
    | Eq => Z.odd f
    end in
  ((if up then f + 1 else f)%Z # 1000)%Q.

Arguments is_file {Image} e _.
Arguments imread {Image} e _.
Arguments preprocess {Image} e _.
Arguments image_to_string {Image} e _ _.
Arguments image_to_data_conf {Image} e _ _.

Section Detector.
Variable Image : Type.
Variable env : Env Image.

(** [ImagePreprocessor.load_image(image_path)] *)
Definition load_image (image_path : string) : result Image :=
  if negb (is_file env image_path) then
    Raise (FileNotFoundError ("Image not found: " ++ image_path))
  else
    match imread env image_path with
    | None => Raise (ValueError ("Failed to load image: " ++ image_path))
    | Some img => Ok img
    end.

(** The [try] body of the loop of [_extract_text] for one mode: the text and
    mean confidence to append, or [None] when the text is blank. *)
Definition recognise (image : Image) (psm : Z) (w : World)
  : result (option (string * Q)) * World :=
  let w := log_call (ImageToString psm) w in
  match image_to_string env image psm with
  | Raise e => (Raise e, w)
  | Ok text =>
    let w := log_call (ImageToData psm) w in
    match image_to_data_conf env image psm with
    | Raise e => (Raise e, w)
    | Ok conf =>
      let valid_confs := filter (fun c => 0 <=? c)%Z conf in
      let avg :=
        match valid_confs with
        | [] => 0.0%Q
        | _ => (mean (map inject_Z valid_confs) / 100.0)%Q
        end in
      (Ok (if strip_nonempty text then Some (text, avg) else None), w)
    end
  end.

(** The loop of [_extract_text]: [except Exception: continue]. *)
Fixpoint passes (image : Image) (psms : list Z) (texts : list string)
  (confs : list Q) (w : World) : result (list string * list Q) * World :=
  match psms with
  | [] => (Ok (texts, confs), w)
  | psm :: rest =>
    match recognise image psm w with
    | (Ok (Some (text, avg)), w) =>
      passes image rest (texts ++ [text])%list (confs ++ [avg])%list w
    | (Ok None, w) => passes image rest texts confs w
    | (Raise e, w) =>
      if is_Exception e then passes image rest texts confs w
      else (Raise e, w)
    end
  end.

Definition _extract_text (image : Image) (w : World)
  : result (string * Q) * World :=
  match passes image [6; 7; 11; 3]%Z [] [] w with
  | (Raise e, w) => (Raise e, w)
  | (Ok (texts, confs), w) =>
    match texts with
    | [] => (Ok ("", 0.0%Q), w)
    | _ => (Ok (join " " texts, mean confs), w)
    end
  end.

(** [text[:200] + "..." if len(text) > 200 else text] *)
Definition excerpt (text : string) : string :=
  if (200 <? String.length text)%nat then prefix 200 text ++ "..." else text.

(** The [try] body of [extract_expiry_date]. *)
Definition detect (image_path : string) (w : World)
  : result ExtractionResult * World :=
  match load_image image_path with
  | Raise e => (Raise e, w)
  | Ok raw_img =>
  match preprocess env raw_img with
  | Raise e => (Raise e, w)
  | Ok processed =>
  match _extract_text processed w with
  | (Raise e, w) => (Raise e, w)
  | (Ok (text, ocr_conf), w) =>
  match extract_potential_dates text with
  | Raise e => (Raise e, w)
  | Ok [] =>
    (Ok (NoPattern "No date pattern matched in text" (excerpt text) ocr_conf), w)
  | Ok candidates =>
    match select_best_expiry candidates w with
    | (None, w) =>
      (Ok (NoneValid "Found dates but none valid as future expiry"
             (map raw candidates) ocr_conf), w)
    | (Some best, w) =>
      let (now, w) := Sys.now w in
      let days_left := days_between (s_date best) now in
      (Ok (Success (strftime_ymd (s_date best)) (s_raw best)
             (round3 (s_confidence best)) days_left (round3 ocr_conf)
             "Extracted successfully"), w)
    end
  end end end end.

(** [extract_expiry_date(image_path)]: the body under [except Exception]. *)
Definition extract_expiry_date (image_path : string) (w : World)
  : result ExtractionResult * World :=
  match detect image_path w with
  | (Raise e, w) =>
    if is_Exception e then (Ok (Crashed (str_of_exn e) 0.0%Q), w)
    else (Raise e, w)
  | ok => ok
  end.

End Detector.

Arguments load_image {Image} env image_path.
Arguments recognise {Image} env image psm w.
Arguments passes {Image} env image psms texts confs w.
Arguments _extract_text {Image} env image w.
Arguments detect {Image} env image_path w.
Arguments extract_expiry_date {Image} env image_path w.

End FoodExpiryDetector.

(* ================================================================== *)
(** * Renderings of dates, and texts that differ only in their digits *)
(* ================================================================== *)

Module Shapes.
Import Py Re Datetime Sys DateExtractor.
Local Open Scope string_scope.

(** ** Texts of the numeric shapes *)

(** The separators of [[-/.]], the label keywords of the sixth pattern as
    the source spells them, and what may stand between a keyword and the
    date. *)
Definition separators : list string := ["-"; "/"; "."].

Definition keywords : list string :=
  ["EXP"; "Exp"; "Expiry"; "Best Before"; "Use By"; "BB"; "USE BY";
   "Sell By"; "MFG"; "Manufactured"].

Definition label_marks : list string := [":"; "="; " "; ": "].

(** What may stand before the date: nothing, or a keyword and a mark. *)
Definition prefixes : list string :=
  "" :: flat_map (fun kw => map (append kw) label_marks) keywords.

(** Three numbers written with a separator, after a prefix. *)
Definition numeric_text (pre sep s1 s2 s3 : string) : string :=
  pre ++ s1 ++ sep ++ s2 ++ sep ++ s3.

(** The lengths allowed to the three numbers: day or month first with a
    year of two to four digits, or a four-digit year first. *)
Definition day_first_widths : list (nat * nat * nat) :=
  [(1, 1, 2); (1, 1, 3); (1, 1, 4); (1, 2, 2); (1, 2, 3); (1, 2, 4);
   (2, 1, 2); (2, 1, 3); (2, 1, 4); (2, 2, 2); (2, 2, 3); (2, 2, 4)]%nat.

Definition year_first_widths : list (nat * nat * nat) :=
  [(4, 1, 1); (4, 1, 2); (4, 2, 1); (4, 2, 2)]%nat.

Definition lengths (s1 s2 s3 : string) : nat * nat * nat :=
  (String.length s1, String.length s2, String.length s3).

(** [text] yields a candidate dated [y]-[m]-[d]. *)
Definition yields (text : string) (y m d : Z) : Prop :=
  exists cands c,
    extract_potential_dates text = Ok cands /\ In c cands /\
    year (date c) = y /\ month (date c) = m /\ day (date c) = d.

(** The date at midnight. *)
Definition midnight (y m d : Z) : datetime :=
  {| year := y; month := m; day := d;
     hour := 0; minute := 0; second := 0; microsecond := 0 |}.

(** The year as lines 127-128 resolve it. *)
Definition resolved_year (c : Z) : Z :=
  if (c <? 100)%Z then (if (c <? 50)%Z then c + 2000 else c + 1900)%Z else c.

(** What lines 121-135 of [parse_date] make of three integers: the date
    returned, or [None] when the loop goes on to the next pattern. *)
Definition numeric (a b c : Z) : option datetime :=
  let '(day, month) :=
    if ((1 <=? a) && (a <=? 31) && (1 <=? b) && (b <=? 12))%Z
    then (a, b) else (b, a) in
  let year := resolved_year c in
  if valid_date year month day && (2020 <=? year)%Z && (year <=? 2035)%Z
  then Some (midnight year month day) else None.

(** A date the constructor accepts, at midnight, in the plausible years. *)
Definition plausible_date (dt : datetime) : Prop :=
  valid_date (year dt) (month dt) (day dt) = true /\
  (2020 <= year dt <= 2035)%Z /\
  dt = midnight (year dt) (month dt) (day dt).

(** ** The list of candidates, match by match *)

(** Every match of every pattern in [text], in the order in which
    [extract_potential_dates] meets them. *)
Definition all_matches (text : string) : list rematch :=
  flat_map (fun pattern => Re.finditer pattern text) DATE_PATTERNS.

(** The candidate, if any, that one match adds to the list. *)
Definition candidate_of (m : rematch) : list candidate :=
  match parse_date (group0 m) with
  | Ok (Some dt) => [{| date := dt; raw := group0 m; confidence := 0.85%Q |}]
  | _ => []
  end.

(** Whether [parse_date] finds a date in a matched substring. *)
Definition parses (raw : string) : bool :=
  match parse_date raw with
  | Ok (Some _) => true
  | _ => false
  end.

(** The candidates [extract_potential_dates] makes of the matches [ms] when
    each of them parses to [dt]. *)
Definition candidates_of (dt : option datetime) (ms : list rematch)
  : list candidate :=
  match dt with
  | Some dt =>
    map (fun m => {| date := dt; raw := group0 m; confidence := 0.85%Q |}) ms
  | None => []
  end.

(** The groups each pattern finds in [raw], as [parse_date] will see them. *)
Definition searches (raw : string) : list (option (list string)) :=
  map (fun pattern => option_map groups (Re.search pattern raw)) DATE_PATTERNS.

(** The loop of [parse_date] seen from the groups each pattern found. *)
Fixpoint parse_groups (found : list (option (list string)))
  : result (option datetime) :=
  match found with
  | [] => Ok None
  | None :: rest => parse_groups rest
  | Some g :: rest =>
    bind (resolve_groups g) (fun f =>
    match f with
    | Return dt => Ok (Some dt)
    | Continue => parse_groups rest
    end)
  end.

(** ** Replacing digits by digits *)

(** A substitution of characters that sends digits to digits and leaves
    every other character alone. *)
Definition digit_subst (f : ascii -> ascii) : Prop :=
  forall c, if is_decimal c then is_decimal (f c) = true else f c = c.

(** The substitution that writes [ds] for the digits 1, 2, 3, ... of a
    template. *)
Definition assign (ds : list ascii) (c : ascii) : ascii :=
  if between 49 57 c then nth (N.to_nat (code c - 49)) ds c else c.

(** The substitution that writes the digits of three numbers, in turn. *)
Definition spell (s1 s2 s3 : string) : ascii -> ascii :=
  assign (list_ascii_of_string (s1 ++ s2 ++ s3)).

Definition subst_cursor (f : ascii -> ascii) (s : cursor) : cursor :=
  {| before := map f (before s); after := map f (after s);
     captured := map (fun p => (fst p, string_map f (snd p))) (captured s) |}.

Definition subst_match (f : ascii -> ascii) (m : rematch) : rematch :=
  {| m_start := m_start m; m_end := m_end m;
     group0 := string_map f (group0 m);
     groups := map (string_map f) (groups m) |}.

(** A continuation [k'] does on substituted cursors what [k] does on the
    cursors themselves. *)
Definition follows (f : ascii -> ascii) (k' k : cursor -> option cursor) : Prop :=
  forall s, k' (subst_cursor f s) = option_map (subst_cursor f) (k s).

(** Patterns none of whose literals or class items is or covers a digit. *)
Definition item_digit_free (it : class_item) : bool :=
  match it with
  | CChar c => negb (is_decimal c)
  | CRange lo hi => (code hi <? 48)%N || (57 <? code lo)%N
  | CSpace => true
  end.

Fixpoint digit_free (r : regex) : bool :=
  match r with
  | Lit c => negb (is_decimal c)
  | CharSet items => forallb item_digit_free items
  | Cat r1 r2 | Alt r1 r2 => digit_free r1 && digit_free r2
  | Rep _ _ r' | Group _ r' => digit_free r'
  | _ => true
  end.

Definition no_digit (s : string) : bool :=
  string_forallb (fun c => negb (is_decimal c)) s.

(** ** Templates *)

(** The template of three numbers of the given lengths: their digits are
    numbered 1, 2, 3, ... in the order of writing. *)
Definition numbered (k n : nat) : string := substring k n "12345678".

Definition groups3 (w : nat * nat * nat) : list string :=
  let '(w1, w2, w3) := w in
  [numbered 0 w1; numbered w1 w2; numbered (w1 + w2) w3].

Definition template3 (pre sep : string) (w : nat * nat * nat) : string :=
  let '(w1, w2, w3) := w in
  numeric_text pre sep (numbered 0 w1) (numbered w1 w2) (numbered (w1 + w2) w3).

Definition groups_eqb (g g' : list string) : bool :=
  (List.length g =? List.length g')%nat
  && forallb (fun p => String.eqb (fst p) (snd p)) (combine g g').

(** In [raw], some pattern finds the three groups [g] and every pattern
    that finds three groups finds [g]. *)
Definition reads_as (g : list string) (raw : string) : bool :=
  let found := searches raw in
  existsb (fun o => match o with Some g' => groups_eqb g g' | None => false end)
          found
  && forallb (fun o => match o with
                       | Some g' => negb (List.length g' =? 3)%nat || groups_eqb g g'
                       | None => true
                       end) found.

(** A template: a text with at least one match, all of whose matches read
    as the same three groups. *)
Definition numeric_template (g : list string) (text : string) : bool :=
  match all_matches text with
  | [] => false
  | ms => forallb (fun m => reads_as g (group0 m)) ms
  end.

End Shapes.

(* ================================================================== *)
(** * The scoring bands, as the specification words them *)
(* ================================================================== *)

Module Bands.
Import Py Datetime Sys DateExtractor FoodExpiryDetector.

(** At most 1.0 *)
Definition clamp (q : Q) : Q := if Qle_bool q 1 then q else 1%Q.

(** The adjusted confidence of a candidate [days] days away: times 1.4 and
    clamped within 1 to 540 days, times 0.9 up to 1825 days, times 0.3
    otherwise. *)
Definition adjusted (days : Z) (conf : Q) : Q :=
  if ((1 <=? days) && (days <=? 540))%Z then clamp (conf * 1.4)
  else if ((1 <=? days) && (days <=? 1825))%Z then (conf * 0.9)%Q
  else (conf * 0.3)%Q.

(** The reading of the clock that the next call of [datetime.now] returns. *)
Definition reading (w : World) : datetime := clock w (reads w).

(** A world whose clock always shows [dt]. *)
Definition frozen (dt : datetime) : World :=
  {| clock := fun _ => dt; reads := 0; ocr_log := [] |}.

Definition at_time (y m d hh mm ss us : Z) : datetime :=
  {| year := y; month := m; day := d;
     hour := hh; minute := mm; second := ss; microsecond := us |}.

(** Three candidates that on 1 January 2026 are 10, 400 and 2000 days
    ahead. *)
Definition in_days_10 : candidate :=
  {| date := Shapes.midnight 2026 1 11; raw := "11-01-2026"; confidence := 0.85 |}.

Definition in_days_400 : candidate :=
  {| date := Shapes.midnight 2027 2 5; raw := "05-02-2027"; confidence := 0.85 |}.

Definition in_days_2000 : candidate :=
  {| date := Shapes.midnight 2031 6 24; raw := "24-06-2031"; confidence := 0.85 |}.

End Bands.

(* ================================================================== *)
(** * The selector on binary64 confidences *)
(* ================================================================== *)

(** [select_best_expiry] multiplies and compares Python floats, and which
    candidate it returns can depend on how a product is rounded.  Here is
    the selector again with the confidences as binary64 values: [float] is
    IEEE 754 binary64 with its operations rounded to nearest, ties to even,
    which is the arithmetic of a Python float, and a decimal literal denotes
    the binary64 value nearest to it in both. *)
Module Binary64.
Import Py Datetime Sys.
#[local] Set Warnings "-inexact-float".

(** A candidate: the dict with keys ['date'], ['raw'], ['confidence']. *)
Record candidate : Type := {
  date : datetime;
  raw : string;
  confidence : float
}.

(** A scored candidate: ['confidence'] replaced and ['days_until'] added. *)
Record scored : Type := {
  s_date : datetime;
  s_raw : string;
  s_confidence : float;
  days_until : Z
}.

(** [min(a, b)]: [b] when [b < a], else [a]. *)
Definition py_min (a b : float) : float :=
  if (b <? a)%float then b else a.

(** [x > y] *)
Definition gt (x y : float) : bool := (y <? x)%float.

(** [max(l, key=key)]: an item replaces the best so far when its key is
    greater. *)
Fixpoint max_from {A : Type} (key : A -> float) (best : A) (l : list A) : A :=
  match l with
  | [] => best
  | x :: l' => max_from key (if gt (key x) (key best) then x else best) l'
  end.

Definition py_max {A : Type} (key : A -> float) (l : list A) : option A :=
  match l with
  | [] => None
  | x :: l' => Some (max_from key x l')
  end.

(** The body of the scoring loop (lines 163-173) for the clock reading [now]. *)
Definition score (now : datetime) (cand : candidate) : scored :=
  let days := days_between (date cand) now in
  let conf := confidence cand in
  let conf :=
    if ((1 <=? days) && (days <=? 540))%Z then (conf * 1.4)%float
    else if ((1 <=? days) && (days <=? 1825))%Z then (conf * 0.9)%float
    else (conf * 0.3)%float in
  {| s_date := date cand; s_raw := raw cand;
     s_confidence := py_min conf 1.0%float; days_until := days |}.

(** [select_best_expiry(candidates)] (lines 154-175). *)
Definition select_best_expiry (candidates : list candidate) (w : World)
  : option scored * World :=
  match candidates with
  | [] => (None, w)
  | _ =>
    let (now, w) := Sys.now w in
    let scored := map (score now) candidates in
    (py_max s_confidence scored, w)
  end.

(** ** The bands, as the specification words them *)

(** At most 1.0 *)
Definition clamp (x : float) : float :=
  if (x <=? 1)%float then x else 1%float.

(** The adjusted confidence of a candidate [days] days away: times 1.4 and
    clamped within 1 to 540 days, times 0.9 up to 1825 days, times 0.3
    otherwise. *)
Definition adjusted (days : Z) (conf : float) : float :=
  if ((1 <=? days) && (days <=? 540))%Z then clamp (conf * 1.4)%float
  else if ((1 <=? days) && (days <=? 1825))%Z then (conf * 0.9)%float
  else (conf * 0.3)%float.

(** A base confidence of the data model: a number from 0 to 1. *)
Definition unit_confidence (x : float) : Prop :=
  (0 <=? x)%float = true /\ (x <=? 1)%float = true.

(** ** The order of binary64 values *)

(** Every value but NaN. *)
Definition number (x : spec_float) : bool :=
  match x with
  | S754_nan => false
  | _ => true
  end.

(** A place on a line of integer triples: sign class first, then exponent
    and mantissa, both negated for a negative number. *)
Definition rank (x : spec_float) : Z * Z * Z :=
  match x with
  | S754_nan | S754_zero _ => (0, 0, 0)
  | S754_infinity true => (-2, 0, 0)
  | S754_infinity false => (2, 0, 0)
  | S754_finite true m e => (-1, - e, - Zpos m)
  | S754_finite false m e => (1, e, Zpos m)
  end%Z.

Definition before (a b : Z * Z * Z) : Prop :=
  let '(a1, a2, a3) := a in
  let '(b1, b2, b3) := b in
  (a1 < b1 \/ (a1 = b1 /\ (a2 < b2 \/ (a2 = b2 /\ a3 < b3))))%Z.

(** ** Two candidates whose scores differ by one rounding *)

(** On 1 January 2026: a date a month past with base confidence 0.75, and a
    date 730 days ahead with base confidence 0.25.  As real numbers
    0.75 x 0.3 and 0.25 x 0.9 are both 0.225. *)
Definition stale_075 : candidate :=
  {| date := Shapes.midnight 2025 12 1; raw := "01-12-2025"; confidence := 0.75 |}.

Definition ahead_025 : candidate :=
  {| date := Shapes.midnight 2028 1 1; raw := "01-01-2028"; confidence := 0.25 |}.

End Binary64.

(** ** The rational model beside binary64 *)

Module Rational.
Import Py Datetime Sys.
#[local] Set Warnings "-inexact-float".

(** A candidate of [extract_potential_dates], whose confidence is the
    literal 0.85, as the interpreter holds it. *)
Definition extracted (c : DateExtractor.candidate) : Binary64.candidate :=
  {| Binary64.date := DateExtractor.date c;
     Binary64.raw := DateExtractor.raw c;
     Binary64.confidence := 0.85 |}.

(** The decimal fraction and the binary64 value that the same literal
    denotes, for the three confidences a score of 0.85 can have. *)
Definition same_confidence (q : Q) (x : float) : Prop :=
  (q == 1.0 /\ x = 1.0%float) \/
  (q == 0.765 /\ x = 0.765%float) \/
  (q == 0.255 /\ x = 0.255%float).

(** A scored candidate of the rational model and one of binary64 that say
    the same. *)
Definition same_scored (s : DateExtractor.scored) (s' : Binary64.scored) : Prop :=
  DateExtractor.s_date s = Binary64.s_date s' /\
  DateExtractor.s_raw s = Binary64.s_raw s' /\
  DateExtractor.days_until s = Binary64.days_until s' /\
  same_confidence (DateExtractor.s_confidence s) (Binary64.s_confidence s').

End Rational.

(* ================================================================== *)
(** * The loop of the recognition adapter, pass by pass *)
(* ================================================================== *)

Module Adapter.
Import Py Datetime Sys DateExtractor FoodExpiryDetector.
Local Open Scope string_scope.

(** A computation that raises, if at all, an instance of [Exception]. *)
Definition benign {A : Type} (r : result A) : Prop :=
  match r with
  | Ok _ => True
  | Raise e => is_Exception e = true
  end.

(** OpenCV and pytesseract raise instances of [Exception] only. *)
Definition raises_Exceptions {Image : Type} (env : Env Image) : Prop :=
  (forall img, benign (preprocess env img)) /\
  (forall img psm, benign (image_to_string env img psm)) /\
  (forall img psm, benign (image_to_data_conf env img psm)).

(** The four page segmentation modes, in the order of invocation. *)
Definition profiles : list Z := [6; 7; 11; 3]%Z.

(** The [avg] of one pass (line 208). *)
Definition token_confidence (conf : list Z) : Q :=
  match filter (fun c => 0 <=? c)%Z conf with
  | [] => 0.0%Q
  | valid => (mean (map inject_Z valid) / 100.0)%Q
  end.

(** What one pass of the loop of [_extract_text] appends to [texts] and
    [confs], in the terms of the code. *)
Definition kept_profile {Image : Type} (env : Env Image) (image : Image)
  (psm : Z) : list (string * Q) :=
  match image_to_string env image psm, image_to_data_conf env image psm with
  | Ok text, Ok conf =>
    if strip_nonempty text then [(text, token_confidence conf)] else []
  | _, _ => []
  end.

Definition kept {Image : Type} (env : Env Image) (image : Image)
  (psms : list Z) : list (string * Q) :=
  flat_map (kept_profile env image) psms.

(** The two [return] statements of [_extract_text] (lines 215-218). *)
Definition aggregate (k : list (string * Q)) : string * Q :=
  match k with
  | [] => ("", 0.0%Q)
  | _ => (join " " (map fst k), mean (map snd k))
  end.

(** The OCR calls one profile makes: the text, then the data unless the
    first call threw. *)
Definition calls_of {Image : Type} (env : Env Image) (image : Image)
  (psm : Z) : list ocr_call :=
  match image_to_string env image psm with
  | Ok _ => [ImageToString psm; ImageToData psm]
  | Raise _ => [ImageToString psm]
  end.

Definition log_calls (cs : list ocr_call) (w : World) : World :=
  fold_left (fun w c => log_call c w) cs w.

(** ** Where each result of the body of [extract_expiry_date] comes from *)

Section Outcomes.
Variable Image : Type.
Variable env : Env Image.
Variable image_path : string.
Variable w : World.

Inductive outcome : result ExtractionResult * World -> Prop :=
| load_failed e :
    load_image env image_path = Raise e -> outcome (Raise e, w)
| preprocess_failed img e :
    load_image env image_path = Ok img -> preprocess env img = Raise e ->
    outcome (Raise e, w)
| recognition_failed img processed e w1 :
    load_image env image_path = Ok img -> preprocess env img = Ok processed ->
    _extract_text env processed w = (Raise e, w1) ->
    outcome (Raise e, w1)
| extraction_failed img processed text ocr_conf w1 e :
    load_image env image_path = Ok img -> preprocess env img = Ok processed ->
    _extract_text env processed w = (Ok (text, ocr_conf), w1) ->
    extract_potential_dates text = Raise e ->
    outcome (Raise e, w1)
| no_pattern img processed text ocr_conf w1 :
    load_image env image_path = Ok img -> preprocess env img = Ok processed ->
    _extract_text env processed w = (Ok (text, ocr_conf), w1) ->
    extract_potential_dates text = Ok [] ->
    outcome (Ok (NoPattern "No date pattern matched in text" (excerpt text)
                   ocr_conf), w1)
| selected img processed text ocr_conf w1 c cands best :
    load_image env image_path = Ok img -> preprocess env img = Ok processed ->
    _extract_text env processed w = (Ok (text, ocr_conf), w1) ->
    extract_potential_dates text = Ok (c :: cands) ->
    fst (select_best_expiry (c :: cands) w1) = Some best ->
    outcome (Ok (Success (strftime_ymd (s_date best)) (s_raw best)
                   (round3 (s_confidence best))
                   (days_between (s_date best) (clock w1 (S (reads w1))))
                   (round3 ocr_conf) "Extracted successfully"),
             snd (Sys.now (snd (Sys.now w1)))).

End Outcomes.

Arguments outcome {Image} env image_path w _.

(** ** A label photographed across midnight *)

(** An environment in which every file is an image and the engine reads
    [EXP 12-01-2026] in the first mode and nothing in the others. *)
Definition label_env : Env unit :=
  {| is_file := fun _ => true;
     imread := fun _ => Some tt;
     preprocess := fun img => Ok img;
     image_to_string := fun _ psm =>
       if (psm =? 6)%Z then Ok "EXP 12-01-2026" else Ok "";
     image_to_data_conf := fun _ _ => Ok [90; -1; 90]%Z |}.

(** A clock read first one microsecond before midnight of 1 January 2026
    and then one microsecond after it. *)
Definition across_midnight : World :=
  {| clock := fun k =>
       match k with
       | O => Bands.at_time 2026 1 1 23 59 59 999999
       | _ => Bands.at_time 2026 1 2 0 0 0 1
       end;
     reads := 0;
     ocr_log := [] |}.

End Adapter.

(* ================================================================== *)
(** * The text recognition adapter, in the words of the specification *)
(* ================================================================== *)

(** Nothing here is taken from the model of [_extract_text]: whitespace,
    the mean and the joining of texts are said again as the specification
    says them, to be compared with what the code computes. *)
Module TextRecognition.
Import Py Sys FoodExpiryDetector.
Local Open Scope string_scope.

(** The four page-segmentation profiles in their order of invocation:
    uniform block of text, single text line, sparse text, fully automatic
    layout. *)
Definition four_profiles : list Z := [6; 7; 11; 3]%Z.

(** What the invocation of the external capability under one profile gives:
    the recognized text with its per-token confidences (scale 0-100,
    negative when unknown), or what it threw. *)
Inductive pass : Type :=
| Read (text : string) (tokens : list Z)
| Threw (e : exn).

Definition invocation {Image : Type} (env : Env Image) (image : Image) (psm : Z)
  : pass :=
  match image_to_string env image psm with
  | Raise e => Threw e
  | Ok text =>
    match image_to_data_conf env image psm with
    | Raise e => Threw e
    | Ok tokens => Read text tokens
    end
  end.

(** The whitespace characters below 256: tab, line feed, vertical tab, form
    feed, carriage return, the separators FS, GS, RS and US, space, next
    line and no-break space. *)
Definition whitespace_codes : list nat :=
  [9; 10; 11; 12; 13; 28; 29; 30; 31; 32; 133; 160]%nat.

Definition whitespace (c : ascii) : bool :=
  existsb (Nat.eqb (nat_of_ascii c)) whitespace_codes.

(** Empty, or made entirely of whitespace. *)
Fixpoint blank (text : string) : bool :=
  match text with
  | EmptyString => true
  | String c rest => whitespace c && blank rest
  end.

(** The arithmetic mean: the sum over the count. *)
Definition total (l : list Q) : Q := fold_left Qplus l 0%Q.

Definition arithmetic_mean (l : list Q) : Q :=
  (total l / inject_Z (Z.of_nat (List.length l)))%Q.

(** The tokens that enter the mean: those whose confidence is not
    negative. *)
Definition counted (tokens : list Z) : list Z :=
  filter (fun t => negb (t <? 0)%Z) tokens.

(** The confidence of a profile: the mean of the counted token confidences
    brought from the scale 0-100 to [0,1]; 0.0 when no token counts. *)
Definition profile_confidence (tokens : list Z) : Q :=
  match counted tokens with
  | [] => 0%Q
  | ts => (arithmetic_mean (map inject_Z ts) / 100)%Q
  end.

(** A profile is kept, with its text and confidence, unless its invocation
    threw or its text is blank. *)
Definition kept_pass (p : pass) : list (string * Q) :=
  match p with
  | Read text tokens =>
    if blank text then [] else [(text, profile_confidence tokens)]
  | Threw _ => []
  end.

Definition kept_of {Image : Type} (env : Env Image) (image : Image)
  (psms : list Z) : list (string * Q) :=
  flat_map (fun psm => kept_pass (invocation env image psm)) psms.



(** The first thing thrown that is not an instance of [Exception], if
    any. *)
Fixpoint interruption (passes : list pass) : option exn :=
  match passes with
  | [] => None
  | Threw e :: rest => if is_Exception e then interruption rest else Some e
  | Read _ _ :: rest => interruption rest
  end.

(** The calls of the engine that the invocation of a profile makes: for the
    text, then for the token data unless the first call threw. *)
Definition calls {Image : Type} (env : Env Image) (image : Image) (psm : Z)
  : list ocr_call :=
  match image_to_string env image psm with
  | Ok _ => [ImageToString psm; ImageToData psm]
  | Raise _ => [ImageToString psm]
  end.

(** The log after the calls [cs], the latest first. *)
Definition logged (cs : list ocr_call) (w : World) : World :=
  {| clock := clock w; reads := reads w; ocr_log := rev cs ++ ocr_log w |}.

End TextRecognition.

(* ================================================================== *)
(** * Sample labels *)
(* ================================================================== *)

Module Samples.
Import Py Sys FoodExpiryDetector.
Local Open Scope string_scope.

(** The engine reads a label under the first profile, only whitespace
    under the second, fails under the third, and under the fourth reads a
    second line all of whose tokens are of unknown confidence. *)
Definition mixed_env : Env unit :=
  {| is_file := fun _ => true;
     imread := fun _ => Some tt;
     preprocess := fun img => Ok img;
     image_to_string := fun _ psm =>
       if (psm =? 6)%Z then Ok "EXP 12-01-2026"
       else if (psm =? 7)%Z then Ok (String " " (String "010" (String "009" "")))
       else if (psm =? 11)%Z then Raise (OtherException "Tesseract failed")
       else Ok "BB 01/02/27";
     image_to_data_conf := fun _ psm =>
       if (psm =? 6)%Z then Ok [90; -1; 80]%Z
       else if (psm =? 7)%Z then Ok [95]%Z
       else Ok [-1; -1]%Z |}.


(** The label is read under the first profile and the user interrupts the
    second. *)
Definition interrupted_env : Env unit :=
  {| is_file := fun _ => true;
     imread := fun _ => Some tt;
     preprocess := fun img => Ok img;
     image_to_string := fun _ psm =>
       if (psm =? 6)%Z then Ok "EXP 12-01-2026"
       else Raise (BaseExceptionOnly "KeyboardInterrupt");
     image_to_data_conf := fun _ _ => Ok [90]%Z |}.

(** No file is there. *)
Definition no_file_env : Env unit :=
  {| is_file := fun _ => false;
     imread := fun _ => Some tt;
     preprocess := fun img => Ok img;
     image_to_string := fun _ _ => Ok "EXP 12-01-2026";
     image_to_data_conf := fun _ _ => Ok [90]%Z |}.

(** A line of 60 characters without a digit, read under every profile:
    the four readings joined make 243 characters. *)
Definition storage_advice : string :=
  "Keep refrigerated after opening and consume within a week.  ".

Definition wordy_env : Env unit :=
  {| is_file := fun _ => true;
     imread := fun _ => Some tt;
     preprocess := fun img => Ok img;
     image_to_string := fun _ _ => Ok storage_advice;
     image_to_data_conf := fun _ _ => Ok [70; 90]%Z |}.

(** A date with the name of the month, read under the first profile. *)
Definition month_env : Env unit :=
  {| is_file := fun _ => true;
     imread := fun _ => Some tt;
     preprocess := fun img => Ok img;
     image_to_string := fun _ psm =>
       if (psm =? 6)%Z then Ok "BEST BEFORE 12 JAN 2026" else Ok "";
     image_to_data_conf := fun _ _ => Ok [88]%Z |}.

End Samples.

(* ================================================================== *)
(** * Where a match lies in its text *)
(* ================================================================== *)

Module Spans.
Import Py Re.

(** Cursor [s'] is cursor [s] moved forward over the characters [l]. *)
Definition ahead (l : list ascii) (s s' : cursor) : Prop :=
  after s = (l ++ after s')%list /\ before s' = (rev l ++ before s)%list.

(** The subject a cursor is in. *)
Definition content (s : cursor) : list ascii := (rev (before s) ++ after s)%list.

(** Patterns every match of which passes over a decimal digit: [\d] itself,
    a sequence with such a part, alternatives that all are such, a
    repetition of at least one round of such a pattern. *)
Fixpoint needs_digit (r : regex) : bool :=
  match r with
  | Digit => true
  | Cat r1 r2 => needs_digit r1 || needs_digit r2
  | Alt r1 r2 => needs_digit r1 && needs_digit r2
  | Rep lo _ r' => (1 <=? lo)%nat && needs_digit r'
  | Group _ r' => needs_digit r'
  | _ => false
  end.

Definition has_digit (s : string) : bool :=
  existsb is_decimal (list_ascii_of_string s).

(** [raw] occurs in [text] at offset [n]. *)
Definition occurs_at (n : nat) (raw text : string) : Prop :=
  exists pre post : string,
    text = (pre ++ raw ++ post)%string /\ String.length pre = n.

(** What a matcher in continuation-passing style owes its caller: a result
    can only come from the continuation, called further on in the text, and
    past a decimal digit when [d] holds. *)
Definition steps (d : bool)
  (m : (cursor -> option cursor) -> cursor -> option cursor) : Prop :=
  forall k s s'',
    m k s = Some s'' ->
    exists l s', ahead l s s' /\ k s' = Some s'' /\
                 (d = true -> existsb is_decimal l = true).

(** Match [m] of [r] starts at cursor [s] and passes over [l]. *)
Definition spans (r : regex) (s : cursor) (m : rematch) : Prop :=
  exists l s', ahead l s s' /\
    group0 m = string_of_list_ascii l /\
    m_start m = List.length (before s) /\
    m_end m = (List.length (before s) + List.length l)%nat /\
    (needs_digit r = true -> existsb is_decimal l = true).

(** Match [m] of [r] is a stretch of [subject]. *)
Definition lies_in (r : regex) (subject : list ascii) (m : rematch) : Prop :=
  exists pre l post,
    subject = (pre ++ l ++ post)%list /\
    List.length pre = m_start m /\
    m_end m = (m_start m + List.length l)%nat /\
    group0 m = string_of_list_ascii l /\
    (needs_digit r = true -> existsb is_decimal l = true).

End Spans.

(* ================================================================== *)
(** * The candidate the selector prefers *)
(* ================================================================== *)

Module Ranking.
Import Py Datetime Sys DateExtractor.
Local Open Scope Z_scope.

(** The band of the scoring loop a candidate falls in at [now]: 0 for 1 to
    540 days ahead, 1 for other values up to 1825 days, 2 otherwise. *)
Definition band (now : datetime) (c : candidate) : nat :=
  let days := days_between (date c) now in
  if (1 <=? days) && (days <=? 540) then 0%nat
  else if (1 <=? days) && (days <=? 1825) then 1%nat
  else 2%nat.

Definition first_in_band (now : datetime) (b : nat) (cands : list candidate)
  : option candidate :=
  find (fun c => Nat.eqb (band now c) b) cands.

(** The first candidate of the lowest band that is not empty. *)
Definition nearest (now : datetime) (cands : list candidate) : option candidate :=
  match first_in_band now 0 cands with
  | Some c => Some c
  | None =>
    match first_in_band now 1 cands with
    | Some c => Some c
    | None => first_in_band now 2 cands
    end
  end.

(** The confidence a candidate of base confidence 0.85 is given in each
    band. *)
Definition band_confidence (b : nat) : Q :=
  match b with
  | O => 1.0
  | S O => 0.765
  | _ => 0.255
  end.

End Ranking.

(* ================================================================== *)
(** * Dates written with the name of the month *)
(* ================================================================== *)

Module MonthNames.
Import Py Re Datetime Sys DateExtractor Shapes.
Local Open Scope string_scope.

(** The months as the patterns name them, and in full. *)
Definition month_names : list string :=
  ["Jan"; "Feb"; "Mar"; "Apr"; "May"; "Jun";
   "Jul"; "Aug"; "Sep"; "Oct"; "Nov"; "Dec";
   "January"; "February"; "March"; "April"; "June"; "July"; "August";
   "September"; "October"; "November"; "December"].

(** [5 Jan 2026] and [Jan 5, 2026] *)
Definition day_month_year (sd mon sy : string) : string :=
  sd ++ " " ++ mon ++ " " ++ sy.

Definition month_day_year (mon sd sy : string) : string :=
  mon ++ " " ++ sd ++ ", " ++ sy.

(** The substitution that writes the digits of a day and a year. *)
Definition spell2 (sd sy : string) : ascii -> ascii :=
  assign (list_ascii_of_string (sd ++ sy)).

(** The groups of the first pattern that finds any. *)
Fixpoint first_found (found : list (option (list string)))
  : option (list string) :=
  match found with
  | [] => None
  | None :: rest => first_found rest
  | Some g :: _ => Some g
  end.

(** Three groups whose second is the name of a month. *)
Definition month_second (g : list string) : bool :=
  match g with
  | [g1; g2; g3] =>
    negb (isdigit g2) && no_digit g2
    && match MONTH_MAP_get (prefix 3 (lower g2)) with
       | Some m => negb (m =? 0)%Z
       | None => false
       end
  | _ => false
  end.

(** Three groups of which the first is no number and the others are. *)
Definition month_first (g : list string) : bool :=
  match g with
  | [g1; g2; g3] =>
    negb (isdigit g1) && no_digit g1
    && negb (String.eqb g2 "") && string_forallb is_decimal g2
    && negb (String.eqb g3 "") && string_forallb is_decimal g3
  | _ => false
  end.

(** A text whose first match, parsed again, is read first by a pattern
    whose groups satisfy [p]. *)
Definition first_match_reads (p : list string -> bool) (text : string) : bool :=
  match all_matches text with
  | [] => false
  | m :: _ =>
    match first_found (searches (group0 m)) with
    | Some g => p g
    | None => false
    end
  end.

(** The templates of the two shapes: a day of one or two digits, a year of
    four. *)
Definition day_month_year_templates : list string :=
  flat_map (fun mon => [day_month_year "1" mon "2345";
                        day_month_year "12" mon "3456"]) month_names.

Definition month_day_year_templates : list string :=
  flat_map (fun mon => [month_day_year mon "1" "2345";
                        month_day_year mon "12" "3456"]) month_names.

End MonthNames.

(* ================================================================== *)
(** * datetime values as the tracker meets them (src/Food_Tracker.py,
      src/database.py) *)
(* ================================================================== *)

Module Iso.
Import Py Datetime.
Local Open Scope string_scope.
Local Open Scope Z_scope.

(** A [datetime] with its [tzinfo]: [None] for a naive value, else the
    offset from UTC in microseconds ([timezone.utc] is offset 0). *)
Record stamp : Type := {
  wall : datetime;
  utcoffset : option Z
}.

Definition naive (dt : datetime) : stamp := {| wall := dt; utcoffset := None |}.

(** A value made with [tzinfo=UTC], as [datetime.now(UTC)] is. *)
Definition aware (dt : datetime) : stamp := {| wall := dt; utcoffset := Some 0 |}.

(** The ranges the [datetime] constructor checks. *)
Definition valid_datetime (dt : datetime) : bool :=
  valid_date (year dt) (month dt) (day dt)
  && (0 <=? hour dt) && (hour dt <? 24)
  && (0 <=? minute dt) && (minute dt <? 60)
  && (0 <=? second dt) && (second dt <? 60)
  && (0 <=? microsecond dt) && (microsecond dt <? 1000000).

Definition pad6 (z : Z) : string :=
  String (digit_char (z / 100000)) (String (digit_char (z / 10000)) (pad4 z)).

(** The offset as [isoformat] writes it: sign, hours and minutes; seconds
    and microseconds only when they are not zero. *)
Definition format_offset (off : Z) : string :=
  let a := Z.abs off in
  let rest := a mod 3600000000 in
  let ss := rest mod 60000000 in
  let sign := if off <? 0 then "-" else "+" in
  let fraction :=
    if ss mod 1000000 =? 0 then "" else ("." ++ pad6 (ss mod 1000000))%string in
  let seconds :=
    if ss =? 0 then "" else (":" ++ pad2 (ss / 1000000) ++ fraction)%string in
  (sign ++ pad2 (a / 3600000000) ++ ":" ++ pad2 (rest / 60000000) ++ seconds)%string.

(** The microseconds as [isoformat] writes them: not at all when zero. *)
Definition fraction (us : Z) : string :=
  if us =? 0 then "" else ("." ++ pad6 us)%string.

(** [dt.isoformat()] *)
Definition isoformat (s : stamp) : string :=
  let dt := wall s in
  let offset :=
    match utcoffset s with
    | None => ""
    | Some off => format_offset off
    end in
  (pad4 (year dt) ++ "-" ++ pad2 (month dt) ++ "-" ++ pad2 (day dt)
   ++ "T" ++ pad2 (hour dt) ++ ":" ++ pad2 (minute dt) ++ ":" ++ pad2 (second dt)
   ++ fraction (microsecond dt) ++ offset)%string.

(** [dt.strftime('%Y-%m-%d')] *)
Definition strftime_ymd (s : stamp) : string := Datetime.strftime_ymd (wall s).

(** Reading [n] decimal digits, or one given character, off a string. *)
Fixpoint read_digits (n : nat) (acc : Z) (s : string) : option (Z * string) :=
  match n with
  | O => Some (acc, s)
  | S n' =>
    match s with
    | String c s' =>
      if is_decimal c then read_digits n' (10 * acc + Z.of_N (code c - 48)) s'
      else None
    | EmptyString => None
    end
  end.

Definition read_char (c : ascii) (s : string) : option string :=
  match s with
  | String x s' => if Ascii.eqb x c then Some s' else None
  | EmptyString => None
  end.

(** [YYYY-MM-DD] at the head of a string. *)
Definition read_date (s : string) : option (Z * Z * Z * string) :=
  match read_digits 4 0 s with
  | None => None
  | Some (y, s) =>
  match read_char "-" s with
  | None => None
  | Some s =>
  match read_digits 2 0 s with
  | None => None
  | Some (m, s) =>
  match read_char "-" s with
  | None => None
  | Some s =>
  match read_digits 2 0 s with
  | None => None
  | Some (d, s) => Some (y, m, d, s)
  end end end end end.

(** [THH:MM:SS] and, if a dot follows, six digits of microseconds. *)
Definition read_time (s : string) : option (Z * Z * Z * Z * string) :=
  match read_char "T" s with
  | None => None
  | Some s =>
  match read_digits 2 0 s with
  | None => None
  | Some (hh, s) =>
  match read_char ":" s with
  | None => None
  | Some s =>
  match read_digits 2 0 s with
  | None => None
  | Some (mm, s) =>
  match read_char ":" s with
  | None => None
  | Some s =>
  match read_digits 2 0 s with
  | None => None
  | Some (ss, s) =>
    match read_char "." s with
    | None => Some (hh, mm, ss, 0, s)
    | Some s' =>
      match read_digits 6 0 s' with
      | None => None
      | Some (us, s') => Some (hh, mm, ss, us, s')
      end
    end
  end end end end end end.

(** Nothing, or an offset of whole minutes [+HH:MM] or [-HH:MM], up to the
    end of the string. *)
Definition read_offset (s : string) : option (option Z) :=
  match s with
  | EmptyString => Some None
  | String sign s =>
    if Ascii.eqb sign "+" || Ascii.eqb sign "-" then
      match read_digits 2 0 s with
      | None => None
      | Some (hh, s) =>
      match read_char ":" s with
      | None => None
      | Some s =>
      match read_digits 2 0 s with
      | None => None
      | Some (mm, EmptyString) =>
        if (hh <? 24) && (mm <? 60) then
          Some (Some ((if Ascii.eqb sign "-" then -1 else 1)
                      * (hh * 3600000000 + mm * 60000000)))
        else None
      | Some _ => None
      end end end
    else None
  end.

(** The strings every version of [datetime.fromisoformat] reads alike: a
    date alone, or date, [T], time to the second or microsecond, and
    possibly an offset of whole minutes, all fields in range. *)
Definition read_iso (s : string) : option stamp :=
  match read_date s with
  | None => None
  | Some (y, m, d, rest) =>
    match rest with
    | EmptyString =>
      let dt := {| year := y; month := m; day := d;
                   hour := 0; minute := 0; second := 0; microsecond := 0 |} in
      if valid_datetime dt then Some (naive dt) else None
    | _ =>
      match read_time rest with
      | None => None
      | Some (hh, mm, ss, us, rest) =>
        match read_offset rest with
        | None => None
        | Some off =>
          let dt := {| year := y; month := m; day := d;
                       hour := hh; minute := mm; second := ss;
                       microsecond := us |} in
          if valid_datetime dt then Some {| wall := dt; utcoffset := off |}
          else None
        end
      end
    end
  end.

(** [datetime.fromisoformat(s)].  What it makes of any other string (the
    error it raises, or the value where a later version of Python reads
    more) is the parameter [other]. *)
Definition fromisoformat (other : string -> result stamp) (s : string)
  : result stamp :=
  match read_iso s with
  | Some st => Ok st
  | None => other s
  end.

(** The values whose [isoformat] is within [read_iso]: fields in range
    and, if there is an offset, one of whole minutes within a day. *)
Definition whole_minutes (off : Z) : bool :=
  (off mod 60000000 =? 0) && (Z.abs off <? 86400000000).

Definition writable (s : stamp) : bool :=
  valid_datetime (wall s)
  && match utcoffset s with
     | None => true
     | Some off => whole_minutes off
     end.

(** [fromisoformat] as it is when the strings outside [read_iso] are all
    refused, with the message it has for a string of the wrong form (for a
    field out of range its message names the field). *)
Definition invalid_isoformat (s : string) : result stamp :=
  Raise (ValueError ("Invalid isoformat string: '" ++ s ++ "'")).

(** [a < b] *)
Definition lt (a b : stamp) : result bool :=
  match utcoffset a, utcoffset b with
  | None, None => Ok (instant (wall a) <? instant (wall b))
  | Some oa, Some ob => Ok (instant (wall a) - oa <? instant (wall b) - ob)
  | _, _ =>
    Raise (TypeError "can't compare offset-naive and offset-aware datetimes")
  end.

(** [(a - b).days] *)
Definition days_from (a b : stamp) : result Z :=
  match utcoffset a, utcoffset b with
  | None, None => Ok ((instant (wall a) - instant (wall b)) / us_per_day)
  | Some oa, Some ob =>
    Ok ((instant (wall a) - oa - (instant (wall b) - ob)) / us_per_day)
  | _, _ =>
    Raise (TypeError "can't subtract offset-naive and offset-aware datetimes")
  end.

(** [s.strip()] *)
Fixpoint lstrip_chars (l : list ascii) : list ascii :=
  match l with
  | c :: l' => if char_isspace c then lstrip_chars l' else l
  | [] => []
  end.

Definition strip (s : string) : string :=
  string_of_list_ascii
    (rev (lstrip_chars (rev (lstrip_chars (list_ascii_of_string s))))).

(** [s.replace('Z', '+00:00')] *)
Fixpoint replace_Z (s : string) : string :=
  match s with
  | EmptyString => EmptyString
  | String c s' =>
    if Ascii.eqb c "Z" then ("+00:00" ++ replace_Z s')%string
    else String c (replace_Z s')
  end.

(** No letter Z in [s]. *)
Definition no_Z (s : string) : bool :=
  string_forallb (fun c => negb (Ascii.eqb c "Z")) s.

(** A list of characters that is empty or starts with a character that is
    not whitespace. *)
Definition headed (l : list ascii) : Prop :=
  match l with
  | [] => True
  | c :: _ => char_isspace c = false
  end.

End Iso.

(* ================================================================== *)
(** * class FoodDatabase (src/database.py) *)
(* ================================================================== *)

Module Database.
Import Py Datetime Sys Iso.
Local Open Scope string_scope.

(** The dataclass [FoodItem]. *)
Record FoodItem : Type := {
  id : option Z;
  name : string;
  category : string;
  purchase_date : option stamp;
  expiry_date : option stamp;
  quantity : Q;
  unit : string;
  location : string;
  status : string;
  ocr_confidence : Q;
  image_path : option string;
  notes : string;
  created_at : option stamp;
  updated_at : option stamp
}.

(** A row of the table [food_items], as [add_food_item] writes it: dates
    are text; [NULL] can stand where the method passes [None]. *)
Record Row : Type := {
  r_id : Z;
  r_name : string;
  r_category : string;
  r_purchase_date : option string;
  r_expiry_date : string;
  r_quantity : Q;
  r_unit : string;
  r_location : string;
  r_status : string;
  r_ocr_confidence : Q;
  r_image_path : option string;
  r_notes : string;
  r_created_at : string;
  r_updated_at : string
}.

(** The database behind a connection: the rows of [food_items] in the order
    of insertion, and the largest id ever given ([AUTOINCREMENT]).  The
    model is the table in memory: a statement fails on a violated
    constraint only. *)
Record Tables : Type := {
  food_items : list Row;
  sequence : Z
}.

(** [self.connection]: [None] once closed. *)
Record FoodDatabase : Type := {
  connection : option Tables
}.

(** [DatabaseError] and [AttributeError] are instances of [Exception] that
    are neither [ValueError] nor [TypeError]. *)
Definition DatabaseError (msg : string) : exn := OtherException msg.
Definition AttributeError (msg : string) : exn := OtherException msg.

(** [_normalize_name(name)] *)
Definition _normalize_name (name : string) : result string :=
  let cleaned := strip name in
  match cleaned with
  | EmptyString => Raise (ValueError "Food name cannot be empty")
  | _ => Ok cleaned
  end.

(** The id [AUTOINCREMENT] gives the next row: one more than the largest
    that ever was in the table. *)
Definition next_id (t : Tables) : Z :=
  (Z.max (fold_right (fun r m => Z.max (r_id r) m) 0%Z (food_items t))
         (sequence t) + 1)%Z.

(** The [INSERT] of [add_food_item]: the message of the [IntegrityError]
    when [expiry_date], declared [NOT NULL], is [None]; else the new id
    ([cursor.lastrowid]) and the tables with the row added. *)
Definition insert_food_item (food : FoodItem) (now : string) (t : Tables)
  : string + Z * Tables :=
  match expiry_date food with
  | None => inl "NOT NULL constraint failed: food_items.expiry_date"
  | Some expiry =>
    let new_id := next_id t in
    inr (new_id,
         {| food_items :=
              (food_items t ++
               [{| r_id := new_id;
                   r_name := name food;
                   r_category := category food;
                   r_purchase_date := option_map isoformat (purchase_date food);
                   r_expiry_date := isoformat expiry;
                   r_quantity := quantity food;
                   r_unit := unit food;
                   r_location := location food;
                   r_status := status food;
                   r_ocr_confidence := ocr_confidence food;
                   r_image_path := image_path food;
                   r_notes := notes food;
                   r_created_at := now;
                   r_updated_at := now |}])%list;
            sequence := new_id |})
  end.

Definition with_name (food : FoodItem) (cleaned : string) : FoodItem :=
  {| id := id food; name := cleaned; category := category food;
     purchase_date := purchase_date food; expiry_date := expiry_date food;
     quantity := quantity food; unit := unit food; location := location food;
     status := status food; ocr_confidence := ocr_confidence food;
     image_path := image_path food; notes := notes food;
     created_at := created_at food; updated_at := updated_at food |}.

Definition failed_to_add (name e : string) : exn :=
  DatabaseError ("Failed to add food item '" ++ name ++ "': " ++ e).

(** [add_food_item(food)]: the new id and [food] with its name normalised,
    or [DatabaseError]; after a failure the tables are as before
    ([rollback]). *)
Definition add_food_item (food : FoodItem) (db : FoodDatabase) (w : World)
  : result (Z * FoodItem) * FoodDatabase * World :=
  match connection db with
  | None => (Raise (DatabaseError "No active connection"), db, w)
  | Some t =>
    match _normalize_name (name food) with
    | Raise e =>
      if is_ValueError e then (Raise (failed_to_add (name food) (str_of_exn e)), db, w)
      else (Raise e, db, w)
    | Ok cleaned =>
      let food := with_name food cleaned in
      let (now, w) := Sys.now w in
      match insert_food_item food (isoformat (aware now)) t with
      | inl e => (Raise (failed_to_add (name food) e), db, w)
      | inr (item_id, t') => (Ok (item_id, food), {| connection := Some t' |}, w)
      end
    end
  end.

Section Reading.

(** What [datetime.fromisoformat] makes of the strings that are outside
    [read_iso]. *)
Variable other : string -> result stamp.

(** [parse_iso(field)] of [_row_to_fooditem] *)
Definition parse_iso (field : option string) : result (option stamp) :=
  match field with
  | None | Some EmptyString => Ok None
  | Some field =>
    bind (fromisoformat other (replace_Z field)) (fun dt => Ok (Some dt))
  end.

(** [_row_to_fooditem(row)] *)
Definition _row_to_fooditem (row : Row) : result FoodItem :=
  bind (parse_iso (r_purchase_date row)) (fun purchase =>
  bind (parse_iso (Some (r_expiry_date row))) (fun expiry =>
  bind (parse_iso (Some (r_created_at row))) (fun created =>
  bind (parse_iso (Some (r_updated_at row))) (fun updated =>
  Ok {| id := Some (r_id row); name := r_name row; category := r_category row;
        purchase_date := purchase; expiry_date := expiry;
        quantity := r_quantity row; unit := r_unit row;
        location := r_location row; status := r_status row;
        ocr_confidence := r_ocr_confidence row;
        image_path := r_image_path row; notes := r_notes row;
        created_at := created; updated_at := updated |})))).

Definition no_cursor : exn :=
  AttributeError "'NoneType' object has no attribute 'cursor'".

(** [get_item_by_id(item_id)] *)
Definition get_item_by_id (item_id : Z) (db : FoodDatabase)
  : result (option FoodItem) :=
  match connection db with
  | None => Raise no_cursor
  | Some t =>
    match find (fun r => Z.eqb (r_id r) item_id) (food_items t) with
    | None => Ok None
    | Some row => bind (_row_to_fooditem row) (fun item => Ok (Some item))
    end
  end.

(** [ORDER BY expiry_date ASC]: the rows sorted by the text of the column;
    rows of equal text stay in the order of insertion. *)
Fixpoint insert_by_expiry (r : Row) (l : list Row) : list Row :=
  match l with
  | [] => [r]
  | x :: l' =>
    if String.ltb (r_expiry_date r) (r_expiry_date x) then r :: l
    else x :: insert_by_expiry r l'
  end.

Definition order_by_expiry (l : list Row) : list Row :=
  fold_left (fun sorted r => insert_by_expiry r sorted) l [].

(** [get_all_items(status)] *)
Definition get_all_items (status : string) (db : FoodDatabase)
  : result (list FoodItem) :=
  match connection db with
  | None => Raise no_cursor
  | Some t =>
    mapM _row_to_fooditem
      (order_by_expiry
         (filter (fun r => String.eqb (r_status r) status) (food_items t)))
  end.

End Reading.

(** The item read back after [food] was added under [item_id] at [now]. *)
Definition stored (food : FoodItem) (item_id : Z) (now : stamp) : FoodItem :=
  {| id := Some item_id; name := strip (name food); category := category food;
     purchase_date := purchase_date food; expiry_date := expiry_date food;
     quantity := quantity food; unit := unit food; location := location food;
     status := status food; ocr_confidence := ocr_confidence food;
     image_path := image_path food; notes := notes food;
     created_at := Some now; updated_at := Some now |}.

(** A row whose dates are texts that [isoformat] wrote within [read_iso]. *)
Definition well_written (r : Row) : Prop :=
  (exists e, r_expiry_date r = isoformat e /\ writable e = true) /\
  (exists c, r_created_at r = isoformat c /\ writable c = true) /\
  (exists u, r_updated_at r = isoformat u /\ writable u = true) /\
  (forall s, r_purchase_date r = Some s ->
             exists p, s = isoformat p /\ writable p = true).

(** An item whose dates [add_food_item] can write within [read_iso]. *)
Definition storable (food : FoodItem) : Prop :=
  (forall e, expiry_date food = Some e -> writable e = true) /\
  (forall p, purchase_date food = Some p -> writable p = true).

(** A database just created, and the item of the smoke test of the module
    with its expiry on 6 January 2026. *)
Definition empty_database : FoodDatabase :=
  {| connection := Some {| food_items := []; sequence := 0 |} |}.

Definition sample_item : FoodItem :=
  {| id := None; name := "Test Milk"; category := "dairy";
     purchase_date := None;
     expiry_date := Some (aware (Shapes.midnight 2026 1 6));
     quantity := 1.0; unit := "units"; location := "Refrigerator";
     status := "active"; ocr_confidence := 0.0; image_path := None;
     notes := ""; created_at := None; updated_at := None |}.

(** The row [sample_item] makes when added first, at midnight of 1 January
    2026. *)
Definition sample_row : Row :=
  {| r_id := 1; r_name := "Test Milk"; r_category := "dairy";
     r_purchase_date := None;
     r_expiry_date := "2026-01-06T00:00:00+00:00";
     r_quantity := 1.0; r_unit := "units"; r_location := "Refrigerator";
     r_status := "active"; r_ocr_confidence := 0.0;
     r_image_path := None; r_notes := "";
     r_created_at := "2026-01-01T00:00:00+00:00";
     r_updated_at := "2026-01-01T00:00:00+00:00" |}.

(** [close()] *)
Definition close (db : FoodDatabase) : FoodDatabase := {| connection := None |}.

End Database.

(* ================================================================== *)
(** * class AlertSystem (src/alerts.py) and class FoodExpiryTrackerApp
      (src/Food_Tracker.py) *)
(* ================================================================== *)

Module Tracker.
Import Py Datetime Sys DateExtractor FoodExpiryDetector Iso Database.
Local Open Scope string_scope.

(** [AlertSystem.ALERT_THRESHOLDS], in the order of the dict. *)
Definition ALERT_THRESHOLDS : list (string * Z) :=
  [("critical", 1); ("warning", 3); ("info", 7)]%Z.

(** What the application works on: the database and the ambient world. *)
Definition State : Type := (FoodDatabase * World)%type.

(** The dicts [add_food_from_image] and [add_food_manual] return: a failure
    with its message (and the error of the OCR engine), or the item added.
    [added] is the name in the message, which reads U+2713, a space, the
    name and [ added successfully]. *)
Inductive AddResult : Type :=
| Failed (message : string)
| OcrFailed (message error : string)
| AddedFromImage (item_id : Z) (added expiry_date : string)
                 (days_remaining : Z) (confidence : Q)
| AddedManually (item_id : Z) (added : string) (days_remaining : Z).

(** An entry of the list [view_inventory] returns; [quantity] stands for
    the quantity in format [g], a space and the unit. *)
Record Entry : Type := {
  e_id : option Z;
  e_name : string;
  e_category : string;
  e_quantity : Q * string;
  e_expiry : string;
  e_days_left : Z;
  e_location : string;
  e_status : string
}.

Section App.
Variable Image : Type.

(** The file system, OpenCV and pytesseract; [datetime.fromisoformat]
    outside [read_iso]; and [FoodDatabase.add_alert], which [log_alert]
    calls and which is not among the methods of src/database.py. *)
Variable env : Env Image.
Variable other : string -> result stamp.
Variable add_alert : Z -> string -> Z -> State -> result bool * State.

(** [now_utc()] *)
Definition now_utc (w : World) : stamp * World :=
  let (dt, w) := Sys.now w in (aware dt, w).

(** [AlertSystem.log_alert(food_item_id, alert_type, days_remaining)] *)
Definition log_alert (food_item_id : Z) (alert_type : string)
  (days_remaining : Z) (st : State) : result bool * State :=
  match add_alert food_item_id alert_type days_remaining st with
  | (Raise e, st) => if is_Exception e then (Ok false, st) else (Raise e, st)
  | ok => ok
  end.

(** The loop over [ALERT_THRESHOLDS] of both ways of adding. *)
Fixpoint log_alerts (item_id days_until : Z) (thresholds : list (string * Z))
  (st : State) : result Datatypes.unit * State :=
  match thresholds with
  | [] => (Ok tt, st)
  | (threshold_name, threshold_days) :: rest =>
    if (days_until <=? threshold_days)%Z then
      match log_alert item_id threshold_name days_until st with
      | (Raise e, st) => (Raise e, st)
      | (Ok _, st) => log_alerts item_id days_until rest st
      end
    else log_alerts item_id days_until rest st
  end.

(** [log_alert] for each of [names] in turn. *)
Fixpoint log_each (item_id days_until : Z) (names : list string) (st : State)
  : result Datatypes.unit * State :=
  match names with
  | [] => (Ok tt, st)
  | alert_type :: rest =>
    match log_alert item_id alert_type days_until st with
    | (Raise e, st) => (Raise e, st)
    | (Ok _, st) => log_each item_id days_until rest st
    end
  end.

(** [(name or "Unknown Food")] *)
Definition name_or_unknown (name : option string) : string :=
  match name with
  | None | Some EmptyString => "Unknown Food"
  | Some n => n
  end.

(** The item [add_food_from_image] makes of a success of the engine. *)
Definition image_item (image_path : string) (name : option string)
  (category : string) (quantity : Q) (unit location : string)
  (raw_text : string) (confidence : Q) (expiry_date now : stamp) : FoodItem :=
  {| id := None;
     Database.name := strip (name_or_unknown name);
     category := strip category;
     purchase_date := Some now;
     expiry_date := Some expiry_date;
     Database.quantity := quantity;
     Database.unit := strip unit;
     Database.location := strip location;
     status := "active";
     ocr_confidence := confidence;
     Database.image_path := Some image_path;
     notes := "Extracted from image - " ++ raw_text;
     created_at := None;
     updated_at := None |}.

(** The [try] body of [add_food_from_image]. *)
Definition add_from_image (image_path : string) (name : option string)
  (category : string) (quantity : Q) (unit location : string) (st : State)
  : result AddResult * State :=
  let (db, w) := st in
  match extract_expiry_date env image_path w with
  | (Raise e, w) => (Raise e, (db, w))
  | (Ok (Success expiry_str raw_text confidence days_until _ _), w) =>
    match fromisoformat other expiry_str with
    | Raise e => (Raise e, (db, w))
    | Ok expiry_date =>
      let (now, w) := now_utc w in
      let food :=
        image_item image_path name category quantity unit location raw_text
                   confidence expiry_date now in
      match add_food_item food db w with
      | (Raise e, db, w) => (Raise e, (db, w))
      | (Ok (item_id, food), db, w) =>
        match
          (if (0 <=? days_until)%Z
           then log_alerts item_id days_until ALERT_THRESHOLDS (db, w)
           else (Ok tt, (db, w)))
        with
        | (Raise e, st) => (Raise e, st)
        | (Ok _, st) =>
          (Ok (AddedFromImage item_id (Database.name food) expiry_str
                 days_until confidence), st)
        end
      end
    end
  | (Ok (NoPattern error _ _), w)
  | (Ok (NoneValid error _ _), w)
  | (Ok (Crashed error _), w) =>
    (Ok (OcrFailed ("OCR failed: " ++ error) error), (db, w))
  end.

(** [add_food_from_image(image_path, name, category, quantity, unit,
    location)] *)
Definition add_food_from_image (image_path : string) (name : option string)
  (category : string) (quantity : Q) (unit location : string) (st : State)
  : result AddResult * State :=
  if negb (is_file env image_path) then
    (Ok (Failed ("Image not found: " ++ image_path)), st)
  else
    match add_from_image image_path name category quantity unit location st with
    | (Raise e, st) =>
      if is_ValueError e then
        (Ok (Failed ("Invalid expiry date format: " ++ str_of_exn e)), st)
      else if is_Exception e then
        (Ok (Failed ("Error: " ++ str_of_exn e)), st)
      else (Raise e, st)
    | ok => ok
    end.

(** The [try] body of [add_food_manual]. *)
Definition add_manual (name category expiry_date_str : string) (quantity : Q)
  (unit location : string) (st : State) : result AddResult * State :=
  let (db, w) := st in
  let name_clean := strip name in
  match name_clean with
  | EmptyString => (Raise (ValueError "Food name cannot be empty"), (db, w))
  | _ =>
    match fromisoformat other (strip expiry_date_str) with
    | Raise e => (Raise e, (db, w))
    | Ok expiry =>
      let (now, w) := now_utc w in
      match lt expiry now with
      | Raise e => (Raise e, (db, w))
      | Ok _ =>
        let (now, w) := now_utc w in
        let food :=
          {| id := None;
             Database.name := name_clean;
             category := strip category;
             purchase_date := Some now;
             expiry_date := Some expiry;
             Database.quantity := quantity;
             Database.unit := strip unit;
             Database.location := strip location;
             status := "active";
             ocr_confidence := 0.0%Q;
             Database.image_path := None;
             notes := "Manually entered";
             created_at := None;
             updated_at := None |} in
        match add_food_item food db w with
        | (Raise e, db, w) => (Raise e, (db, w))
        | (Ok (item_id, _), db, w) =>
          let (now, w) := now_utc w in
          match days_from expiry now with
          | Raise e => (Raise e, (db, w))
          | Ok days_until =>
            match log_alerts item_id days_until ALERT_THRESHOLDS (db, w) with
            | (Raise e, st) => (Raise e, st)
            | (Ok _, st) => (Ok (AddedManually item_id name_clean days_until), st)
            end
          end
        end
      end
    end
  end.

(** [add_food_manual(name, category, expiry_date_str, quantity, unit,
    location)] *)
Definition add_food_manual (name category expiry_date_str : string)
  (quantity : Q) (unit location : string) (st : State)
  : result AddResult * State :=
  match add_manual name category expiry_date_str quantity unit location st with
  | (Raise e, st) =>
    if is_ValueError e then (Ok (Failed ("Invalid input: " ++ str_of_exn e)), st)
    else if is_Exception e then (Ok (Failed ("Error: " ++ str_of_exn e)), st)
    else (Raise e, st)
  | ok => ok
  end.

(** The body of the loop of [view_inventory]. *)
Definition entry_of (now : stamp) (item : FoodItem) : result Entry :=
  bind (match expiry_date item with
        | Some expiry => days_from expiry now
        | None => Ok (-999)%Z
        end) (fun days_left =>
  Ok {| e_id := id item;
        e_name := Database.name item;
        e_category := category item;
        e_quantity := (Database.quantity item, Database.unit item);
        e_expiry := match expiry_date item with
                    | Some expiry => Iso.strftime_ymd expiry
                    | None => "N/A"
                    end;
        e_days_left := days_left;
        e_location := Database.location item;
        e_status := status item |}).

(** [view_inventory(status)]: the count and the entries. *)
Definition view_inventory (status : string) (st : State)
  : result (nat * list Entry) * State :=
  let (db, w) := st in
  match get_all_items other status db with
  | Raise e => (Raise e, (db, w))
  | Ok items =>
    let (now, w) := now_utc w in
    match mapM (entry_of now) items with
    | Raise e => (Raise e, (db, w))
    | Ok formatted => (Ok (List.length formatted, formatted), (db, w))
    end
  end.

End App.

Arguments add_from_image {Image} env other add_alert image_path name category
  quantity unit location st.
Arguments add_food_from_image {Image} env other add_alert image_path name
  category quantity unit location st.

(** The alerts due [days] days before expiry. *)
Definition due (days : Z) : list string :=
  if (days <=? 1)%Z then ["critical"; "warning"; "info"]
  else if (days <=? 3)%Z then ["warning"; "info"]
  else if (days <=? 7)%Z then ["info"]
  else [].

(** An environment in which every file is an image on which the engine
    reads a line without a digit. *)
Definition plain_env : Env Datatypes.unit :=
  {| is_file := fun _ => true;
     imread := fun _ => Some tt;
     preprocess := fun img => Ok img;
     image_to_string := fun _ _ => Ok "Store in a cool, dry place";
     image_to_data_conf := fun _ _ => Ok [90; 80]%Z |}.

(** [add_alert] as src/database.py has it: the attribute is missing. *)
Definition missing_add_alert (_ : Z) (_ : string) (_ : Z) (st : State)
  : result bool * State :=
  (Raise (AttributeError "'FoodDatabase' object has no attribute 'add_alert'"),
   st).

End Tracker.

(* ================================================================== *)
(** * The patterns are those of the source *)
(* ================================================================== *)

Module PatternFacts.
Import Re DateExtractor.

(** Read as patterns, the seven raw strings of [DATE_PATTERNS] in the
    source are the seven patterns of the model. *)
Lemma patterns_are_the_source :
  map compile DATE_PATTERN_SOURCES = map Some DATE_PATTERNS.
Proof. vm_compute. reflexivity. Qed.

End PatternFacts.
(* ================================================================== *)
(** * Facts about characters and strings *)
(* ================================================================== *)

Module CharFacts.
Import Py Re Shapes.

Ltac by_cases_on c :=
  destruct c as [[] [] [] [] [] [] [] []]; try reflexivity; try discriminate.

Lemma decimal_not_space (x : ascii) :
  is_decimal x = true -> char_isspace x = false.
Proof. by_cases_on x. Qed.

Lemma decimal_is_word (x : ascii) :
  is_decimal x = true -> char_isword x = true.
Proof. by_cases_on x. Qed.

Lemma decimal_lower (x : ascii) : is_decimal x = true -> lower_char x = x.
Proof. by_cases_on x. Qed.

Lemma decimal_upper (x : ascii) : is_decimal x = true -> upper_char x = x.
Proof. by_cases_on x. Qed.

Lemma lower_not_decimal (l : ascii) :
  is_decimal l = false -> is_decimal (lower_char l) = false.
Proof. by_cases_on l. Qed.

Lemma decimal_isdigit (x : ascii) : is_decimal x = true -> char_isdigit x = true.
Proof. unfold char_isdigit. intros ->. reflexivity. Qed.

Lemma lit_rejects_decimal (l x : ascii) :
  is_decimal l = false -> is_decimal x = true -> lit_matches l x = false.
Proof.
  intros Hl Hx. unfold lit_matches. rewrite (decimal_lower x Hx).
  destruct (Ascii.eqb x (lower_char l)) eqn:E; [|reflexivity].
  apply Ascii.eqb_eq in E. subst x.
  rewrite (lower_not_decimal l Hl) in Hx. discriminate.
Qed.

Lemma item_rejects_decimal (it : class_item) (x : ascii) :
  item_digit_free it = true -> is_decimal x = true -> item_matches it x = false.
Proof.
  intros Hit Hx. unfold item_matches.
  rewrite (decimal_lower x Hx), (decimal_upper x Hx).
  assert (item_has it x = false) as ->; [|reflexivity].
  destruct it as [c | lo hi |]; simpl in *.
  - destruct (Ascii.eqb x c) eqn:E; [|reflexivity].
    apply Ascii.eqb_eq in E. subst c. rewrite Hx in Hit. discriminate.
  - unfold is_decimal, between in *.
    apply andb_true_iff in Hx as [H1 H2].
    apply N.leb_le in H1, H2.
    apply andb_false_iff.
    apply orb_true_iff in Hit as [H | H]; apply N.ltb_lt in H.
    + right. apply N.leb_gt. lia.
    + left. apply N.leb_gt. lia.
  - apply decimal_not_space, Hx.
Qed.

Lemma set_rejects_decimal (items : list class_item) (x : ascii) :
  forallb item_digit_free items = true -> is_decimal x = true ->
  set_matches items x = false.
Proof.
  intros Hall Hx. unfold set_matches.
  induction items as [|it items IH]; [reflexivity|].
  simpl in *. apply andb_true_iff in Hall as [H1 H2].
  rewrite (item_rejects_decimal it x H1 Hx). simpl. auto.
Qed.

Section Substitution.
Variable f : ascii -> ascii.
Hypothesis f_digits : digit_subst f.

Lemma subst_cases (c : ascii) :
  (is_decimal c = true /\ is_decimal (f c) = true) \/
  (is_decimal c = false /\ f c = c).
Proof.
  generalize (f_digits c). destruct (is_decimal c); intro H; [left|right]; auto.
Qed.

Lemma subst_decimal (c : ascii) : is_decimal (f c) = is_decimal c.
Proof. destruct (subst_cases c) as [[H1 H2]|[H1 H2]]; congruence. Qed.

Lemma subst_space (c : ascii) : char_isspace (f c) = char_isspace c.
Proof.
  destruct (subst_cases c) as [[H1 H2]|[H1 H2]]; [|congruence].
  rewrite !decimal_not_space; auto.
Qed.

Lemma subst_word (c : ascii) : char_isword (f c) = char_isword c.
Proof.
  destruct (subst_cases c) as [[H1 H2]|[H1 H2]]; [|congruence].
  rewrite !decimal_is_word; auto.
Qed.

Lemma subst_lit (l c : ascii) :
  is_decimal l = false -> lit_matches l (f c) = lit_matches l c.
Proof.
  intro Hl. destruct (subst_cases c) as [[H1 H2]|[H1 H2]]; [|congruence].
  rewrite !lit_rejects_decimal; auto.
Qed.

Lemma subst_set (items : list class_item) (c : ascii) :
  forallb item_digit_free items = true ->
  set_matches items (f c) = set_matches items c.
Proof.
  intro Hi. destruct (subst_cases c) as [[H1 H2]|[H1 H2]]; [|congruence].
  rewrite !set_rejects_decimal; auto.
Qed.

End Substitution.

End CharFacts.

(* ================================================================== *)
(** * The matcher does not look at which digit a digit is *)
(* ================================================================== *)

Module MatchFacts.
Import Py Re Shapes CharFacts.

Lemma string_map_list (f : ascii -> ascii) (l : list ascii) :
  string_map f (string_of_list_ascii l) = string_of_list_ascii (map f l).
Proof. induction l as [|c l IH]; simpl; congruence. Qed.

Lemma list_string_map (f : ascii -> ascii) (s : string) :
  list_ascii_of_string (string_map f s) = map f (list_ascii_of_string s).
Proof. induction s as [|c s IH]; simpl; congruence. Qed.

Lemma string_map_length (f : ascii -> ascii) (s : string) :
  String.length (string_map f s) = String.length s.
Proof. induction s as [|c s IH]; simpl; congruence. Qed.

Lemma string_map_app (f : ascii -> ascii) (s t : string) :
  string_map f (s ++ t) = (string_map f s ++ string_map f t)%string.
Proof. induction s as [|c s IH]; simpl; congruence. Qed.

Lemma list_ascii_length (s : string) :
  List.length (list_ascii_of_string s) = String.length s.
Proof. induction s as [|c s IH]; simpl; congruence. Qed.

Section Substitution.
Variable f : ascii -> ascii.
Hypothesis f_digits : digit_subst f.

Local Abbreviation sub := (subst_cursor f).
Local Abbreviation follows := (follows f).

Lemma sub_advance (s : cursor) : advance (sub s) = sub (advance s).
Proof. destruct s as [b [|c a] g]; reflexivity. Qed.

Lemma sub_boundary (s : cursor) : at_boundary (sub s) = at_boundary s.
Proof.
  destruct s as [[|x b] [|y a] g]; unfold at_boundary, subst_cursor;
    cbn [before after map head_isword];
    rewrite ?(subst_word f f_digits); reflexivity.
Qed.

Lemma sub_passed (s s' : cursor) :
  passed (sub s) (sub s') = string_map f (passed s s').
Proof.
  unfold passed. simpl. rewrite !length_map, string_map_list.
  rewrite map_rev, firstn_map. reflexivity.
Qed.

Lemma sub_close_group (i : nat) (s s' : cursor) :
  close_group i (sub s) (sub s') = sub (close_group i s s').
Proof.
  unfold close_group. rewrite sub_passed. reflexivity.
Qed.

Lemma sub_one_char (p : ascii -> bool) (k' k : cursor -> option cursor) :
  (forall c, p (f c) = p c) -> follows k' k -> follows (one_char p k') (one_char p k).
Proof.
  intros Hp Hk s. unfold one_char.
  destruct s as [b [|c a] g]; simpl; [reflexivity|].
  rewrite Hp. destruct (p c); [|reflexivity].
  apply (Hk (advance {| before := b; after := c :: a; captured := g |})).
Qed.

Lemma sub_enough (lo n : nat) (k' k : cursor -> option cursor) :
  follows k' k -> follows (enough lo n k') (enough lo n k).
Proof.
  intros Hk s. unfold enough. destruct (lo <=? n)%nat; [apply Hk|reflexivity].
Qed.

Lemma sub_rep_loop (body' body : (cursor -> option cursor) -> cursor -> option cursor)
  (lo : nat) (hi : option nat) (k' k : cursor -> option cursor) :
  (forall j' j, follows j' j -> follows (body' j') (body j)) ->
  follows k' k ->
  forall fuel n, follows (rep_loop body' lo hi k' fuel n) (rep_loop body lo hi k fuel n).
Proof.
  intros Hbody Hk. induction fuel as [|fuel IH]; intros n s; simpl.
  - apply sub_enough, Hk.
  - destruct (below hi n); [|apply sub_enough, Hk].
    rewrite (Hbody _ _ (IH (S n)) s).
    destruct (body (rep_loop body lo hi k fuel (S n)) s); [reflexivity|].
    apply sub_enough, Hk.
Qed.

(** The matcher commutes with the substitution, on patterns that name no
    digit. *)
Lemma sub_rmatch (r : regex) :
  digit_free r = true ->
  forall k' k, follows k' k -> follows (rmatch r k') (rmatch r k).
Proof.
  induction r as [| c | | | items | | r1 IH1 r2 IH2 | r1 IH1 r2 IH2
                 | lo hi r IH | i r IH]; cbn [rmatch digit_free];
    intros Hfree k' k Hk.
  - exact Hk.
  - apply sub_one_char; [|exact Hk].
    intro x. apply (subst_lit f f_digits). now apply negb_true_iff.
  - apply sub_one_char; [|exact Hk]. apply (subst_decimal f f_digits).
  - apply sub_one_char; [|exact Hk]. apply (subst_space f f_digits).
  - apply sub_one_char; [|exact Hk].
    intro x. now apply (subst_set f f_digits).
  - intro s. rewrite sub_boundary. destruct (at_boundary s); [apply Hk|reflexivity].
  - apply andb_true_iff in Hfree as [H1 H2]. auto.
  - apply andb_true_iff in Hfree as [H1 H2]. intro s.
    rewrite (IH1 H1 _ _ Hk s), (IH2 H2 _ _ Hk s).
    destruct (rmatch r1 k s); reflexivity.
  - intro s.
    replace (List.length (after (sub s))) with (List.length (after s))
      by (cbn [after subst_cursor]; now rewrite length_map).
    apply sub_rep_loop; auto.
  - intro s. apply IH; [exact Hfree|].
    intro s'. rewrite sub_close_group. apply Hk.
Qed.

Lemma sub_lookup_group (caps : list (nat * string)) (i : nat) :
  lookup_group (map (fun p => (fst p, string_map f (snd p))) caps) i
  = string_map f (lookup_group caps i).
Proof.
  unfold lookup_group. induction caps as [|[j s] caps IH]; [reflexivity|].
  simpl. destruct (Nat.eqb j i); [reflexivity|exact IH].
Qed.

Lemma sub_match_here (r : regex) (s : cursor) :
  digit_free r = true ->
  match_here r (sub s) = option_map (subst_match f) (match_here r s).
Proof.
  intro Hfree. unfold match_here.
  set (s0 := {| before := before s; after := after s; captured := [] |}).
  change {| before := before (sub s); after := after (sub s); captured := [] |}
    with (sub s0).
  rewrite (sub_rmatch r Hfree (fun s' => Some s') (fun s' => Some s')
             (fun _ => eq_refl) s0).
  destruct (rmatch r (fun s' => Some s') s0) as [s'|]; [|reflexivity].
  cbn [option_map]. unfold subst_match. cbn [m_start m_end group0 groups].
  f_equal.
  change (passed (sub s) (sub s')) with (passed (sub s) (sub s')).
  rewrite sub_passed. cbn [before subst_cursor captured].
  rewrite !length_map, map_map. f_equal.
  apply map_ext. intro i. apply sub_lookup_group.
Qed.

Lemma sub_scan (r : regex) :
  digit_free r = true ->
  forall fuel s, scan fuel r (sub s) = option_map (subst_match f) (scan fuel r s).
Proof.
  intro Hfree. induction fuel as [|fuel IH]; intro s; cbn [scan];
    rewrite (sub_match_here r s Hfree);
    destruct (match_here r s); cbn [option_map]; try reflexivity;
    destruct s as [b [|c a] g]; cbn [after subst_cursor map]; try reflexivity.
  apply (IH (advance {| before := b; after := c :: a; captured := g |})).
Qed.

Lemma sub_start_of (text : string) :
  start_of (string_map f text) = sub (start_of text).
Proof. unfold start_of, subst_cursor. simpl. now rewrite list_string_map. Qed.

Lemma sub_seek (n : nat) (s : cursor) : seek n (sub s) = sub (seek n s).
Proof.
  revert s. induction n as [|n IH]; intro s; simpl; [reflexivity|].
  rewrite sub_advance. apply IH.
Qed.

(** [re.search] and [re.finditer] on a text with its digits replaced find
    the matches of the text itself, with the digits replaced. *)
Lemma search_subst (r : regex) (text : string) :
  digit_free r = true ->
  search r (string_map f text) = option_map (subst_match f) (search r text).
Proof.
  intro Hfree. unfold search.
  rewrite string_map_length, sub_start_of. now apply sub_scan.
Qed.

Lemma sub_finditer_from (r : regex) :
  digit_free r = true ->
  forall fuel s,
    finditer_from fuel r (sub s) = map (subst_match f) (finditer_from fuel r s).
Proof.
  intro Hfree. induction fuel as [|fuel IH]; intro s; cbn [finditer_from];
    [reflexivity|].
  cbn [after before subst_cursor]. rewrite !length_map.
  change {| before := map f (before s); after := map f (after s);
            captured := map (fun p => (fst p, string_map f (snd p))) (captured s) |}
    with (sub s).
  rewrite (sub_scan r Hfree).
  destruct (scan (List.length (after s)) r s) as [m|]; [|reflexivity].
  cbn [option_map map subst_match m_start m_end]. f_equal.
  destruct (_ <=? _)%nat; [|reflexivity].
  rewrite sub_seek. apply IH.
Qed.

Lemma finditer_subst (r : regex) (text : string) :
  digit_free r = true ->
  finditer r (string_map f text) = map (subst_match f) (finditer r text).
Proof.
  intro Hfree. unfold finditer.
  rewrite string_map_length, sub_start_of. now apply sub_finditer_from.
Qed.

End Substitution.

End MatchFacts.

(* ================================================================== *)
(** * Facts about [parse_date] and [extract_potential_dates] *)
(* ================================================================== *)

Module ParseFacts.
Import Py Re Datetime Sys DateExtractor Shapes CharFacts MatchFacts.
Local Open Scope Z_scope.

(** ** The [datetime] constructor *)

Lemma make_valid (y m d : Z) :
  valid_date y m d = true ->
  Datetime.make (PInt y) (PInt m) (PInt d) = Ok (midnight y m d).
Proof.
  unfold valid_date, Datetime.make. intro H.
  repeat (apply andb_true_iff in H as [H ?]).
  rewrite H, H0, H1, H2, H3, H4. reflexivity.
Qed.

Lemma make_invalid (y m d : Z) :
  valid_date y m d = false ->
  exists msg, Datetime.make (PInt y) (PInt m) (PInt d) = Raise (ValueError msg).
Proof.
  unfold valid_date, Datetime.make. intro H.
  destruct (1 <=? y), (y <=? 9999), (1 <=? m), (m <=? 12), (1 <=? d),
    (d <=? days_in_month y m); simpl in *; try discriminate;
    eexists; reflexivity.
Qed.

Lemma make_ok (y m d : pyval) (dt : datetime) :
  Datetime.make y m d = Ok dt ->
  exists y' m' d', y = PInt y' /\ m = PInt m' /\ d = PInt d' /\
                   valid_date y' m' d' = true /\ dt = midnight y' m' d'.
Proof.
  destruct y as [y|], m as [m|], d as [d|]; try discriminate.
  intro H. exists y, m, d. repeat split.
  - destruct (valid_date y m d) eqn:E; [reflexivity|].
    destruct (make_invalid _ _ _ E) as [msg E']. congruence.
  - destruct (valid_date y m d) eqn:E.
    + rewrite (make_valid _ _ _ E) in H. congruence.
    + destruct (make_invalid _ _ _ E) as [msg E']. congruence.
Qed.

(** ** What [parse_date] returns is a real date of the plausible years *)

Lemma build_returns (day month year : pyval) (dt : datetime) :
  build day month year = Ok (Return dt) -> plausible_date dt.
Proof.
  unfold build. destruct (Datetime.make year month day) as [dt'|e] eqn:E.
  - destruct (make_ok _ _ _ _ E) as (y & m & d & -> & -> & -> & Hv & ->).
    simpl. destruct ((2020 <=? y) && (y <=? 2035)) eqn:W; [|discriminate].
    intro H. injection H as <-.
    apply andb_true_iff in W as [W1 W2]. apply Z.leb_le in W1, W2.
    repeat split; simpl; auto.
  - destruct (is_ValueError e); discriminate.
Qed.

Lemma resolve_groups_returns (groups : list string) (dt : datetime) :
  resolve_groups groups = Ok (Return dt) -> plausible_date dt.
Proof.
  unfold resolve_groups. destruct (negb _); [discriminate|].
  destruct (fields groups) as [[[[day month] year]|]|e]; simpl; try discriminate.
  destruct (expand_year year) as [year'|e]; simpl; [|discriminate].
  apply build_returns.
Qed.

Lemma parse_with_returns (pattern : regex) (text : string) (dt : datetime) :
  parse_with pattern text = Ok (Return dt) -> plausible_date dt.
Proof.
  unfold parse_with. destruct (search pattern text); [|discriminate].
  apply resolve_groups_returns.
Qed.

Lemma parse_loop_returns (patterns : list regex) (text : string) (dt : datetime) :
  parse_loop patterns text = Ok (Some dt) -> plausible_date dt.
Proof.
  induction patterns as [|p ps IH]; simpl; [discriminate|].
  destruct (parse_with p text) as [[|dt']|e] eqn:E; simpl; try discriminate.
  - exact IH.
  - intro H. injection H as <-. exact (parse_with_returns _ _ _ E).
Qed.

Lemma parse_date_returns (text : string) (dt : datetime) :
  parse_date text = Ok (Some dt) -> plausible_date dt.
Proof. apply parse_loop_returns. Qed.

(** ** The shape of the list of candidates *)

Lemma foldM_app {A B : Type} (f : B -> A -> result B) (l l' : list A) (acc : B) :
  foldM f (l ++ l') acc = bind (foldM f l acc) (foldM f l').
Proof.
  revert acc. induction l as [|x l IH]; intro acc; simpl; [reflexivity|].
  destruct (f acc x); simpl; auto.
Qed.

Lemma foldM_flat_map {A B C : Type} (f : B -> A -> result B) (g : C -> list A)
  (l : list C) (acc : B) :
  foldM (fun acc c => foldM f (g c) acc) l acc = foldM f (flat_map g l) acc.
Proof.
  revert acc. induction l as [|c l IH]; intro acc; simpl; [reflexivity|].
  rewrite foldM_app. destruct (foldM f (g c) acc); simpl; auto.
Qed.

Lemma extract_all_matches (text : string) :
  extract_potential_dates text = foldM consider (all_matches text) [].
Proof. apply foldM_flat_map. Qed.

Lemma consider_ok (ms : list rematch) :
  forall acc cands,
    foldM consider ms acc = Ok cands ->
    cands = (acc ++ flat_map candidate_of ms)%list.
Proof.
  induction ms as [|m ms IH]; intros acc cands; simpl.
  - intro H. injection H as <-. now rewrite app_nil_r.
  - unfold consider at 1, candidate_of at 1.
    destruct (parse_date (group0 m)) as [[dt|]|e]; simpl; try discriminate.
    + intro H. apply IH in H. now rewrite <- app_assoc in H.
    + apply IH.
Qed.

Lemma extract_ok (text : string) (cands : list candidate) :
  extract_potential_dates text = Ok cands ->
  cands = flat_map candidate_of (all_matches text).
Proof. rewrite extract_all_matches. apply consider_ok. Qed.

Lemma candidate_of_spec (m : rematch) (c : candidate) :
  In c (candidate_of m) ->
  parse_date (raw c) = Ok (Some (date c)) /\ raw c = group0 m /\
  confidence c = 0.85%Q.
Proof.
  unfold candidate_of. destruct (parse_date (group0 m)) as [[dt|]|e] eqn:E;
    simpl; try tauto.
  intros [<-|[]]. simpl. auto.
Qed.

Lemma extract_candidate (text : string) (cands : list candidate) (c : candidate) :
  extract_potential_dates text = Ok cands -> In c cands ->
  parse_date (raw c) = Ok (Some (date c)) /\ confidence c = 0.85%Q /\
  exists m, In m (all_matches text) /\ raw c = group0 m.
Proof.
  intros H Hin. rewrite (extract_ok _ _ H) in Hin.
  apply in_flat_map in Hin as (m & Hm & Hc).
  destruct (candidate_of_spec _ _ Hc) as (H1 & H2 & H3). eauto.
Qed.

End ParseFacts.

(* ================================================================== *)
(** * Texts of a numeric shape, whatever their digits *)
(* ================================================================== *)

Module NumericFacts.
Import Py Re Datetime Sys DateExtractor Shapes CharFacts MatchFacts ParseFacts.
Local Open Scope Z_scope.

Lemma forallb_decimal_isdigit (s : string) :
  string_forallb is_decimal s = true -> string_forallb char_isdigit s = true.
Proof.
  induction s as [|c s IH]; simpl; [reflexivity|].
  intro H. apply andb_true_iff in H as [H1 H2].
  now rewrite (decimal_isdigit c H1), IH.
Qed.

Lemma int_isdigit (g : string) (a : Z) : int g = Ok a -> isdigit g = true.
Proof.
  destruct g as [|c g]; [discriminate|]. unfold int, isdigit.
  destruct (string_forallb is_decimal (String c g)) eqn:E; [|discriminate].
  intros _. now apply forallb_decimal_isdigit.
Qed.

(** Lines 110-135 on three groups of digits. *)
Lemma resolve_groups_numeric (ga gb gc : string) (a b c : Z) :
  int ga = Ok a -> int gb = Ok b -> int gc = Ok c ->
  resolve_groups [ga; gb; gc]
  = Ok (match numeric a b c with Some dt => Return dt | None => Continue end).
Proof.
  intros Ha Hb Hc. unfold resolve_groups, fields, unpack3.
  cbn [List.length Nat.eqb negb nth filter].
  rewrite (int_isdigit _ _ Ha), (int_isdigit _ _ Hb), (int_isdigit _ _ Hc).
  cbn [negb mapM]. rewrite Ha, Hb, Hc. cbn [bind].
  unfold numeric, resolved_year.
  destruct ((1 <=? a) && (a <=? 31) && (1 <=? b) && (b <=? 12));
    cbn [bind expand_year lt_int add_int];
    destruct (c <? 100); cbn [bind]; try destruct (c <? 50); cbn [bind add_int];
    unfold build;
    match goal with
    | |- context [Datetime.make (PInt ?y) (PInt ?m) (PInt ?d)] =>
      destruct (valid_date y m d) eqn:V;
      [ rewrite (make_valid _ _ _ V); cbn [between_int bind andb];
        destruct ((2020 <=? y) && (y <=? 2035)); reflexivity
      | destruct (make_invalid _ _ _ V) as [msg ->]; reflexivity ]
    end.
Qed.

Lemma resolve_groups_short (g : list string) :
  (List.length g =? 3)%nat = false -> resolve_groups g = Ok Continue.
Proof. unfold resolve_groups. now intros ->. Qed.

Lemma parse_loop_groups (patterns : list regex) (text : string) :
  parse_loop patterns text
  = parse_groups (map (fun p => option_map groups (search p text)) patterns).
Proof.
  induction patterns as [|p ps IH]; simpl; [reflexivity|].
  unfold parse_with. destruct (search p text); simpl; [|exact IH].
  destruct (resolve_groups _) as [[|dt]|e]; simpl; auto.
Qed.

Lemma groups_eqb_eq (g g' : list string) : groups_eqb g g' = true -> g' = g.
Proof.
  unfold groups_eqb. revert g'.
  induction g as [|x g IH]; intros [|y g']; simpl; try discriminate; auto.
  intro H. apply andb_true_iff in H as [H1 H2].
  apply andb_true_iff in H2 as [H2 H3].
  apply String.eqb_eq in H2. subst y. f_equal.
  apply IH. now rewrite H1, H3.
Qed.

Section Substitution.
Variable f : ascii -> ascii.
Hypothesis f_digits : digit_subst f.
Variables g1 g2 g3 : string.
Variables a b c : Z.
Hypothesis int_g1 : int (string_map f g1) = Ok a.
Hypothesis int_g2 : int (string_map f g2) = Ok b.
Hypothesis int_g3 : int (string_map f g3) = Ok c.

Lemma searches_subst (raw : string) :
  searches (string_map f raw)
  = map (option_map (map (string_map f))) (searches raw).
Proof.
  unfold searches. rewrite map_map.
  assert (H : forallb digit_free DATE_PATTERNS = true) by reflexivity.
  induction DATE_PATTERNS as [|p ps IH]; [reflexivity|].
  cbn [map forallb] in *. apply andb_true_iff in H as [H1 H2].
  rewrite (search_subst f f_digits p raw H1), (IH H2).
  destruct (search p raw); reflexivity.
Qed.

Lemma parse_groups_reads (found : list (option (list string))) :
  forallb (fun o => match o with
                    | Some g' => negb (List.length g' =? 3)%nat
                                 || groups_eqb [g1; g2; g3] g'
                    | None => true
                    end) found = true ->
  parse_groups (map (option_map (map (string_map f))) found)
  = Ok (if existsb (fun o => match o with
                             | Some g' => groups_eqb [g1; g2; g3] g'
                             | None => false
                             end) found
        then numeric a b c else None).
Proof.
  induction found as [|[g'|] found IH]; cbn [forallb map option_map parse_groups existsb];
    [reflexivity| |exact IH].
  intro H. apply andb_true_iff in H as [H1 H2]. specialize (IH H2).
  destruct (groups_eqb [g1; g2; g3] g') eqn:E.
  - apply groups_eqb_eq in E. subst g'. cbn [map orb].
    rewrite (resolve_groups_numeric _ _ _ _ _ _ int_g1 int_g2 int_g3).
    cbn [bind]. destruct (numeric a b c); [reflexivity|].
    rewrite IH. now destruct (existsb _ found).
  - rewrite orb_false_r in H1. apply negb_true_iff in H1.
    rewrite resolve_groups_short by now rewrite length_map.
    cbn [bind orb]. exact IH.
Qed.

(** A substring that reads as the three groups parses to what their
    integers make. *)
Lemma parse_date_reads (raw : string) :
  reads_as [g1; g2; g3] raw = true ->
  parse_date (string_map f raw) = Ok (numeric a b c).
Proof.
  unfold reads_as. intro H. apply andb_true_iff in H as [H1 H2].
  unfold parse_date. rewrite parse_loop_groups.
  change (map _ DATE_PATTERNS) with (searches (string_map f raw)).
  rewrite searches_subst, (parse_groups_reads _ H2), H1. reflexivity.
Qed.

Lemma all_matches_subst (text : string) :
  all_matches (string_map f text) = map (subst_match f) (all_matches text).
Proof.
  unfold all_matches.
  assert (H : forallb digit_free DATE_PATTERNS = true) by reflexivity.
  induction DATE_PATTERNS as [|p ps IH]; [reflexivity|].
  cbn [flat_map forallb] in *. apply andb_true_iff in H as [H1 H2].
  rewrite map_app, (finditer_subst f f_digits p text H1), (IH H2). reflexivity.
Qed.

Lemma consider_reads (ms : list rematch) :
  forallb (fun m => reads_as [g1; g2; g3] (group0 m)) ms = true ->
  forall acc,
    foldM consider (map (subst_match f) ms) acc
    = Ok (acc ++ candidates_of (numeric a b c) (map (subst_match f) ms))%list.
Proof.
  induction ms as [|m ms IH]; cbn [forallb map foldM]; intros H acc.
  - destruct (numeric a b c); simpl; now rewrite app_nil_r.
  - apply andb_true_iff in H as [H1 H2]. unfold consider at 1.
    cbn [subst_match group0]. rewrite (parse_date_reads _ H1).
    destruct (numeric a b c) as [dt|] eqn:N; cbn [bind]; rewrite (IH H2), ?N;
      unfold candidates_of; cbn [map subst_match group0]; [|reflexivity].
    now rewrite <- app_assoc.
Qed.

(** The candidates of a text made from a template: one per match of the
    template, all dated as the three integers resolve. *)
Theorem extract_template (text : string) :
  numeric_template [g1; g2; g3] text = true ->
  all_matches text <> [] /\
  extract_potential_dates (string_map f text)
  = Ok (candidates_of (numeric a b c) (map (subst_match f) (all_matches text))).
Proof.
  unfold numeric_template. intro H. split.
  - destruct (all_matches text); [discriminate|congruence].
  - rewrite extract_all_matches, all_matches_subst.
    assert (H' : forallb (fun m => reads_as [g1; g2; g3] (group0 m))
                         (all_matches text) = true)
      by (destruct (all_matches text); [reflexivity|exact H]).
    now rewrite (consider_reads _ H').
Qed.

End Substitution.

End NumericFacts.

(* ================================================================== *)
(** * Numbers as instances of the templates *)
(* ================================================================== *)

Module SpellingFacts.
Import Py Re Datetime Sys DateExtractor Shapes CharFacts MatchFacts ParseFacts
       NumericFacts.

Lemma int_decimal (s : string) (a : Z) :
  int s = Ok a -> string_forallb is_decimal s = true.
Proof.
  destruct s as [|c s]; [discriminate|]. unfold int.
  now destruct (string_forallb is_decimal (String c s)).
Qed.

Lemma int_not_empty (s : string) (a : Z) :
  int s = Ok a -> (1 <= String.length s)%nat.
Proof. destruct s; [discriminate|]. simpl. lia. Qed.

Lemma forallb_app (p : ascii -> bool) (s t : string) :
  string_forallb p (s ++ t) = string_forallb p s && string_forallb p t.
Proof.
  induction s as [|c s IH]; simpl; [reflexivity|].
  now rewrite IH, andb_assoc.
Qed.

Lemma forallb_chars (p : ascii -> bool) (s : string) :
  string_forallb p s = true -> Forall (fun c => p c = true) (list_ascii_of_string s).
Proof.
  induction s as [|c s IH]; simpl; [constructor|].
  intro H. apply andb_true_iff in H as [H1 H2]. constructor; auto.
Qed.

Lemma assign_digits (ds : list ascii) :
  Forall (fun c => is_decimal c = true) ds -> digit_subst (assign ds).
Proof.
  intros Hds c. unfold assign.
  destruct (is_decimal c) eqn:Hc.
  - destruct (between 49 57 c); [|exact Hc].
    destruct (nth_in_or_default (N.to_nat (code c - 49)) ds c) as [H | ->];
      [|exact Hc].
    rewrite Forall_forall in Hds. now apply Hds.
  - assert (between 49 57 c = false) as ->; [|reflexivity].
    revert Hc. by_cases_on c.
Qed.

Lemma spell_subst (s1 s2 s3 : string) (a b c : Z) :
  int s1 = Ok a -> int s2 = Ok b -> int s3 = Ok c ->
  digit_subst (spell s1 s2 s3).
Proof.
  intros H1 H2 H3. apply assign_digits, forallb_chars.
  rewrite !forallb_app.
  now rewrite (int_decimal _ _ H1), (int_decimal _ _ H2), (int_decimal _ _ H3).
Qed.

Lemma string_map_no_digit (f : ascii -> ascii) (s : string) :
  digit_subst f -> no_digit s = true -> string_map f s = s.
Proof.
  intros Hf. unfold no_digit. induction s as [|c s IH]; simpl; [reflexivity|].
  intro H. apply andb_true_iff in H as [H1 H2]. apply negb_true_iff in H1.
  generalize (Hf c). rewrite H1. intros ->. now rewrite IH.
Qed.

Lemma separators_no_digit (sep : string) : In sep separators -> no_digit sep = true.
Proof. apply (proj1 (forallb_forall no_digit separators)). reflexivity. Qed.

Lemma prefixes_no_digit (pre : string) : In pre prefixes -> no_digit pre = true.
Proof. apply (proj1 (forallb_forall no_digit prefixes)). reflexivity. Qed.

Ltac split_string s :=
  destruct s as [|? [|? [|? [|? [|? s]]]]].

(** Written into the template of their lengths, three numbers of allowed
    lengths are the three groups. *)
Lemma spell_groups (s1 s2 s3 : string) :
  In (lengths s1 s2 s3) (day_first_widths ++ year_first_widths) ->
  map (string_map (spell s1 s2 s3)) (groups3 (lengths s1 s2 s3)) = [s1; s2; s3].
Proof.
  unfold lengths. split_string s1; split_string s2; split_string s3;
    cbn [String.length]; intro H;
    repeat (destruct H as [H|H]; [try discriminate H|]);
    try contradiction; reflexivity.
Qed.

Lemma spell_template (pre sep s1 s2 s3 : string) (f : ascii -> ascii) :
  f = spell s1 s2 s3 -> digit_subst f ->
  no_digit pre = true -> no_digit sep = true ->
  In (lengths s1 s2 s3) (day_first_widths ++ year_first_widths) ->
  string_map f (template3 pre sep (lengths s1 s2 s3))
  = numeric_text pre sep s1 s2 s3.
Proof.
  intros Ef Hf Hp Hs Hw.
  pose proof (spell_groups s1 s2 s3 Hw) as G. rewrite <- Ef in G.
  unfold lengths, groups3 in G. cbn [map] in G.
  injection G as G1 G2 G3.
  unfold lengths, template3, numeric_text. rewrite !string_map_app.
  rewrite G1, G2, G3.
  now rewrite (string_map_no_digit f pre Hf Hp), (string_map_no_digit f sep Hf Hs).
Qed.

End SpellingFacts.

(* ================================================================== *)
(** * The templates, checked by running the patterns on them *)
(* ================================================================== *)

Module TemplateFacts.
Import Py Re Datetime Sys DateExtractor Shapes.

Lemma forallb3 {A B C : Type} (p : A -> B -> C -> bool)
  (la : list A) (lb : list B) (lc : list C) :
  forallb (fun a => forallb (fun b => forallb (p a b) lc) lb) la = true ->
  forall a b c, In a la -> In b lb -> In c lc -> p a b c = true.
Proof.
  intros H a b c Ha Hb Hc.
  rewrite forallb_forall in H. specialize (H a Ha).
  rewrite forallb_forall in H. specialize (H b Hb).
  rewrite forallb_forall in H. exact (H c Hc).
Qed.

Lemma day_first_templates (pre sep : string) (w : nat * nat * nat) :
  In pre prefixes -> In sep separators -> In w day_first_widths ->
  numeric_template (groups3 w) (template3 pre sep w) = true.
Proof.
  apply (forallb3 (fun pre sep w =>
    numeric_template (groups3 w) (template3 pre sep w))).
  vm_compute. reflexivity.
Qed.

Lemma year_first_templates (pre sep : string) (w : nat * nat * nat) :
  In pre prefixes -> In sep separators -> In w year_first_widths ->
  numeric_template (groups3 w) (template3 pre sep w) = true.
Proof.
  apply (forallb3 (fun pre sep w =>
    numeric_template (groups3 w) (template3 pre sep w))).
  vm_compute. reflexivity.
Qed.

End TemplateFacts.

(* ================================================================== *)
(** * The numeric shapes *)
(* ================================================================== *)

Module ShapeFacts.
Import Py Re Datetime Sys DateExtractor Shapes CharFacts MatchFacts ParseFacts
       NumericFacts SpellingFacts TemplateFacts.
Local Open Scope Z_scope.

(** ** What a text of a numeric shape yields, whatever its digits *)

(** Three numbers of allowed lengths, written with a separator after an
    allowed prefix: the text has matches, and each becomes a candidate dated
    as the three integers resolve, or none does. *)
Theorem extract_numeric_text (pre sep s1 s2 s3 : string) (a b c : Z) :
  In pre prefixes -> In sep separators ->
  In (lengths s1 s2 s3) (day_first_widths ++ year_first_widths) ->
  int s1 = Ok a -> int s2 = Ok b -> int s3 = Ok c ->
  exists ms, ms <> [] /\
    extract_potential_dates (numeric_text pre sep s1 s2 s3)
    = Ok (candidates_of (numeric a b c) ms).
Proof.
  intros Hp Hs Hw H1 H2 H3.
  pose proof (spell_subst s1 s2 s3 a b c H1 H2 H3) as Hf.
  pose proof (spell_groups s1 s2 s3 Hw) as G.
  assert (T : numeric_template (groups3 (lengths s1 s2 s3))
                (template3 pre sep (lengths s1 s2 s3)) = true).
  { apply in_app_or in Hw as [Hw|Hw];
      [now apply day_first_templates|now apply year_first_templates]. }
  rewrite <- (spell_template pre sep s1 s2 s3 _ eq_refl Hf
                (prefixes_no_digit pre Hp) (separators_no_digit sep Hs) Hw).
  unfold lengths, groups3 in G, T. cbn [map] in G. injection G as G1 G2 G3.
  rewrite <- G1 in H1. rewrite <- G2 in H2. rewrite <- G3 in H3.
  destruct (extract_template _ Hf _ _ _ a b c H1 H2 H3 _ T) as [N E].
  eexists. split; [|exact E].
  destruct (all_matches _); [congruence|discriminate].
Qed.

Lemma yields_candidates (text : string) (dt : datetime) (ms : list rematch) :
  ms <> [] ->
  extract_potential_dates text = Ok (candidates_of (Some dt) ms) ->
  yields text (year dt) (month dt) (day dt).
Proof.
  intros Hms H. destruct ms as [|m ms]; [congruence|].
  eexists _, _. split; [exact H|]. split; [left; reflexivity|].
  simpl. auto.
Qed.

(** ** How the three integers resolve *)

Lemma days_in_month_le (y m : Z) : days_in_month y m <= 31.
Proof.
  unfold days_in_month.
  repeat match goal with |- context [if ?b then _ else _] => destruct b end; lia.
Qed.

Lemma valid_date_bounds (y m d : Z) :
  valid_date y m d = true ->
  1 <= y <= 9999 /\ 1 <= m <= 12 /\ 1 <= d <= 31.
Proof.
  unfold valid_date. intro H.
  repeat (apply andb_true_iff in H as [H ?]).
  pose proof (days_in_month_le y m).
  repeat match goal with H : (_ <=? _) = true |- _ => apply Z.leb_le in H end.
  lia.
Qed.

Ltac decide_tests :=
  repeat match goal with
         | |- context [(?a <=? ?b)] =>
           first [ replace (a <=? b) with true by (symmetry; apply Z.leb_le; lia)
                 | replace (a <=? b) with false by (symmetry; apply Z.leb_gt; lia) ]
         | |- context [(?a <? ?b)] =>
           first [ replace (a <? b) with true by (symmetry; apply Z.ltb_lt; lia)
                 | replace (a <? b) with false by (symmetry; apply Z.ltb_ge; lia) ]
         end.

Lemma resolved_full_year (y : Z) : 100 <= y -> resolved_year y = y.
Proof. intro H. unfold resolved_year. now decide_tests. Qed.

Lemma resolved_short_year (y : Z) :
  2020 <= y <= 2035 -> resolved_year (y mod 100) = y.
Proof.
  intro H. unfold resolved_year.
  assert (E : y mod 100 = y - 2000)
    by (Z.to_euclidean_division_equations; lia).
  rewrite E. decide_tests. lia.
Qed.

(** The day first, when the year resolves to a year of the window. *)
Lemma numeric_day_first (y m d c : Z) :
  valid_date y m d = true -> 2020 <= y <= 2035 -> resolved_year c = y ->
  numeric d m c = Some (midnight y m d).
Proof.
  intros Hv Hy Hc. destruct (valid_date_bounds _ _ _ Hv) as (By & Bm & Bd).
  unfold numeric. rewrite Hc. decide_tests. cbn [andb]. now rewrite Hv.
Qed.

(** The month first, when the day cannot be a month. *)
Lemma numeric_month_first (y m d c : Z) :
  valid_date y m d = true -> 2020 <= y <= 2035 -> resolved_year c = y ->
  12 < d -> numeric m d c = Some (midnight y m d).
Proof.
  intros Hv Hy Hc Hd. destruct (valid_date_bounds _ _ _ Hv) as (By & Bm & Bd).
  unfold numeric. rewrite Hc. decide_tests. cbn [andb]. now rewrite Hv.
Qed.

(** What resolves is a date of the resolved year, which is in the window. *)
Lemma numeric_year (a b c : Z) (dt : datetime) :
  numeric a b c = Some dt ->
  year dt = resolved_year c /\ 2020 <= resolved_year c <= 2035.
Proof.
  unfold numeric.
  destruct ((1 <=? a) && (a <=? 31) && (1 <=? b) && (b <=? 12));
    match goal with |- context [valid_date ?y ?m ?d] => destruct (valid_date y m d) end;
    cbn [andb]; try discriminate;
    destruct (Z.leb_spec 2020 (resolved_year c)); cbn [andb]; try discriminate;
    destruct (Z.leb_spec (resolved_year c) 2035); try discriminate;
    intro E; injection E as <-; simpl; lia.
Qed.

Lemma numeric_implausible (a b c : Z) :
  ~ 2020 <= resolved_year c <= 2035 -> numeric a b c = None.
Proof.
  intro H. destruct (numeric a b c) as [dt|] eqn:E; [|reflexivity].
  destruct (numeric_year a b c dt E). contradiction.
Qed.

(** Read year first, a year above 31 lands in the month field. *)
Lemma numeric_year_first (y m d : Z) : 31 < y -> numeric y m d = None.
Proof.
  intro Hy. unfold numeric. decide_tests. cbn [andb].
  match goal with |- context [valid_date ?Y y m] =>
    assert (valid_date Y y m = false) as ->; [|reflexivity]
  end.
  unfold valid_date. decide_tests.
  rewrite !andb_false_r. reflexivity.
Qed.

(** The lengths of a day, a month and a year as they can be written. *)
Lemma day_first_lengths (s1 s2 s3 : string) (a b c : Z) :
  int s1 = Ok a -> int s2 = Ok b -> int s3 = Ok c ->
  (String.length s1 <= 2)%nat -> (String.length s2 <= 2)%nat ->
  (2 <= String.length s3 <= 4)%nat ->
  In (lengths s1 s2 s3) (day_first_widths ++ year_first_widths).
Proof.
  intros H1 H2 H3 L1 L2 L3.
  apply int_not_empty in H1, H2. unfold lengths.
  destruct (String.length s1) as [|[|[|n1]]]; try lia;
    destruct (String.length s2) as [|[|[|n2]]]; try lia;
    destruct (String.length s3) as [|[|[|[|[|n3]]]]]; try lia;
    simpl; tauto.
Qed.

Lemma year_first_lengths (s1 s2 s3 : string) (a b c : Z) :
  int s1 = Ok a -> int s2 = Ok b -> int s3 = Ok c ->
  String.length s1 = 4%nat -> (String.length s2 <= 2)%nat ->
  (String.length s3 <= 2)%nat ->
  In (lengths s1 s2 s3) (day_first_widths ++ year_first_widths).
Proof.
  intros H1 H2 H3 L1 L2 L3.
  apply int_not_empty in H2, H3. unfold lengths. rewrite L1.
  destruct (String.length s2) as [|[|[|n2]]]; try lia;
    destruct (String.length s3) as [|[|[|n3]]]; try lia;
    simpl; tauto.
Qed.

End ShapeFacts.

(* ================================================================== *)
(** * The extractor: the claims of the specification *)
(* ================================================================== *)

Module ExtractorClaims.
Import Py Re Datetime Sys DateExtractor Shapes CharFacts MatchFacts ParseFacts
       NumericFacts SpellingFacts TemplateFacts ShapeFacts.
Local Open Scope Z_scope.
Local Open Scope string_scope.

Ltac yields_by E R :=
  let ms := fresh "ms" in let N := fresh "N" in let H := fresh "H" in
  destruct E as (ms & N & H); rewrite R in H;
  exact (yields_candidates _ _ _ N H).

Ltac nothing_by E R :=
  let ms := fresh "ms" in let N := fresh "N" in let H := fresh "H" in
  destruct E as (ms & N & H); rewrite R in H; exact H.

(** C1 (as amended).  For every valid calendar date of the years 2020 to
    2035, written as day, month and year in digits (day and month with one or
    two digits, the year with four digits or with its last two) with one of
    the separators [-], [/], [.] (the dotted shape included), alone or after a
    label keyword, [extract_potential_dates] applied to that text yields a
    candidate whose year, month and day are those of the date; and so it does
    when the month is written first and the day is above 12. *)
Theorem C1_numeric_renderings (y m d : Z) (pre sep sd sm sy syy : string) :
  valid_date y m d = true -> 2020 <= y <= 2035 ->
  In pre prefixes -> In sep separators ->
  int sd = Ok d -> (String.length sd <= 2)%nat ->
  int sm = Ok m -> (String.length sm <= 2)%nat ->
  int sy = Ok y -> String.length sy = 4%nat ->
  int syy = Ok (y mod 100) -> String.length syy = 2%nat ->
  yields (numeric_text pre sep sd sm sy) y m d /\
  yields (numeric_text pre sep sd sm syy) y m d /\
  (12 < d ->
   yields (numeric_text pre sep sm sd sy) y m d /\
   yields (numeric_text pre sep sm sd syy) y m d).
Proof.
  intros Hv Hy Hp Hs Id Ld Im Lm Iy Ly Iyy Lyy.
  assert (Ry : resolved_year y = y) by (apply resolved_full_year; lia).
  pose proof (resolved_short_year y Hy) as Ryy.
  assert (L4 : (2 <= String.length sy <= 4)%nat) by lia.
  assert (L2 : (2 <= String.length syy <= 4)%nat) by lia.
  repeat split.
  - yields_by (extract_numeric_text pre sep sd sm sy d m y Hp Hs
                 (day_first_lengths sd sm sy d m y Id Im Iy Ld Lm L4) Id Im Iy)
              (numeric_day_first y m d y Hv Hy Ry).
  - yields_by (extract_numeric_text pre sep sd sm syy d m (y mod 100) Hp Hs
                 (day_first_lengths sd sm syy d m _ Id Im Iyy Ld Lm L2) Id Im Iyy)
              (numeric_day_first y m d (y mod 100) Hv Hy Ryy).
  - yields_by (extract_numeric_text pre sep sm sd sy m d y Hp Hs
                 (day_first_lengths sm sd sy m d y Im Id Iy Lm Ld L4) Im Id Iy)
              (numeric_month_first y m d y Hv Hy Ry H).
  - yields_by (extract_numeric_text pre sep sm sd syy m d (y mod 100) Hp Hs
                 (day_first_lengths sm sd syy m d _ Im Id Iyy Lm Ld L2) Im Id Iyy)
              (numeric_month_first y m d (y mod 100) Hv Hy Ryy H).
Qed.

Lemma C1_numeric_renderings_witness :
  valid_date 2026 11 5 = true /\ 2020 <= 2026 <= 2035 /\
  In "Best Before: " prefixes /\ In "/" separators /\
  int "05" = Ok 5 /\ int "11" = Ok 11 /\ int "2026" = Ok 2026 /\
  int "26" = Ok (2026 mod 100) /\
  yields "Best Before: 05/11/2026" 2026 11 5 /\
  yields "Best Before: 05/11/26" 2026 11 5.
Proof.
  assert (Hy : 2020 <= 2026 <= 2035) by lia.
  assert (Hp : In "Best Before: " prefixes) by (vm_compute; tauto).
  assert (Hs : In "/" separators) by (simpl; tauto).
  assert (L2 : (2 <= 2)%nat) by lia.
  destruct (C1_numeric_renderings 2026 11 5 "Best Before: " "/" "05" "11" "2026" "26"
              eq_refl Hy Hp Hs eq_refl L2 eq_refl L2 eq_refl eq_refl eq_refl eq_refl)
    as (H1 & H2 & _).
  repeat (split; [first [reflexivity|assumption]|]). exact H2.
Defined.

(** C1 (counterexample).  4 March 2026 is a valid date of the window; written
    month first, as 03-04-2026, it yields one candidate, dated 3 April 2026,
    and none dated 4 March. *)
Lemma C1_counterexample :
  valid_date 2026 3 4 = true /\
  extract_potential_dates "03-04-2026"
  = Ok [{| date := midnight 2026 4 3; raw := "03-04-2026"; confidence := 0.85%Q |}] /\
  ~ yields "03-04-2026" 2026 3 4.
Proof.
  assert (E : extract_potential_dates "03-04-2026"
              = Ok [{| date := midnight 2026 4 3; raw := "03-04-2026";
                       confidence := 0.85%Q |}])
    by (vm_compute; reflexivity).
  split; [reflexivity|]. split; [exact E|].
  intros (cands & c & H & Hin & _ & Hm & _).
  rewrite E in H. injection H as <-.
  destruct Hin as [<-|[]]. discriminate Hm.
Qed.

(** The year-first patterns find their dates, but [parse_date] reads the
    year as a month: a year-first text whose year is above 31 yields no
    candidate, with or without a keyword. *)
Lemma year_first_yields_nothing (pre sep sy sm sd : string) (y m d : Z) :
  In pre prefixes -> In sep separators ->
  int sy = Ok y -> String.length sy = 4%nat ->
  int sm = Ok m -> (String.length sm <= 2)%nat ->
  int sd = Ok d -> (String.length sd <= 2)%nat ->
  31 < y ->
  extract_potential_dates (numeric_text pre sep sy sm sd) = Ok [].
Proof.
  intros Hp Hs Iy Ly Im Lm Id Ld Hy.
  nothing_by (extract_numeric_text pre sep sy sm sd y m d Hp Hs
                (year_first_lengths sy sm sd y m d Iy Im Id Ly Lm Ld) Iy Im Id)
             (numeric_year_first y m d Hy).
Qed.

(** The month-name patterns find their dates, but [parse_date] then raises:
    comparing the year, still a string, with 100 (day before month), or
    unpacking two numbers into three (month before day). *)
Lemma month_names_raise :
  extract_potential_dates "5 Jan 2026"
  = Raise (TypeError "'<' not supported between instances of 'str' and 'int'") /\
  extract_potential_dates "Jan 5, 2026"
  = Raise (ValueError "not enough values to unpack (expected 3, got 2)").
Proof. split; vm_compute; reflexivity. Qed.

(** C2.  Every candidate that [extract_potential_dates] returns carries a
    date that the calendar has (the [datetime] constructor accepted it) and
    whose year is one of 2020 to 2035; consequently a text of a numeric shape
    (three numbers and a separator, with or without a keyword, whatever the
    digits) whose year as resolved is outside 2020 to 2035 yields no
    candidate: day or month first with a year of two to four digits, and year
    first. *)
Theorem C2_candidates_valid_and_plausible :
  (forall text cands c,
     extract_potential_dates text = Ok cands -> In c cands ->
     plausible_date (date c)) /\
  (forall pre sep s1 s2 s3 a b c,
     In pre prefixes -> In sep separators ->
     int s1 = Ok a -> (String.length s1 <= 2)%nat ->
     int s2 = Ok b -> (String.length s2 <= 2)%nat ->
     int s3 = Ok c -> (2 <= String.length s3 <= 4)%nat ->
     ~ 2020 <= resolved_year c <= 2035 ->
     extract_potential_dates (numeric_text pre sep s1 s2 s3) = Ok []) /\
  (forall pre sep sy sm sd y m d,
     In pre prefixes -> In sep separators ->
     int sy = Ok y -> String.length sy = 4%nat ->
     int sm = Ok m -> (String.length sm <= 2)%nat ->
     int sd = Ok d -> (String.length sd <= 2)%nat ->
     100 <= y -> ~ 2020 <= y <= 2035 ->
     extract_potential_dates (numeric_text pre sep sy sm sd) = Ok []).
Proof.
  split; [|split].
  - intros text cands c H Hin.
    destruct (extract_candidate text cands c H Hin) as (Hp & _).
    exact (parse_date_returns _ _ Hp).
  - intros pre sep s1 s2 s3 a b c Hp Hs I1 L1 I2 L2 I3 L3 Hw.
    nothing_by (extract_numeric_text pre sep s1 s2 s3 a b c Hp Hs
                  (day_first_lengths s1 s2 s3 a b c I1 I2 I3 L1 L2 L3) I1 I2 I3)
               (numeric_implausible a b c Hw).
  - intros pre sep sy sm sd y m d Hp Hs Iy Ly Im Lm Id Ld Hy _.
    apply (year_first_yields_nothing pre sep sy sm sd y m d); auto. lia.
Qed.

Lemma C2_candidates_valid_and_plausible_witness :
  (forall c, In c [{| date := midnight 2026 5 13; raw := "13-05-2026";
                      confidence := 0.85%Q |}] -> plausible_date (date c)) /\
  extract_potential_dates "MFG 12-01-2019" = Ok [] /\
  extract_potential_dates "01-01-49" = Ok [] /\
  extract_potential_dates "2019-01-12" = Ok [].
Proof.
  destruct C2_candidates_valid_and_plausible as (A & B & C).
  assert (Hp : In "MFG " prefixes) by (vm_compute; tauto).
  assert (H0 : In "" prefixes) by (left; reflexivity).
  assert (Hs : In "-" separators) by (left; reflexivity).
  assert (L2 : (2 <= 2)%nat) by lia.
  assert (L4 : (2 <= 4 <= 4)%nat) by lia.
  assert (L24 : (2 <= 2 <= 4)%nat) by lia.
  split; [|split; [|split]].
  - assert (E : extract_potential_dates "13-05-2026"
                = Ok [{| date := midnight 2026 5 13; raw := "13-05-2026";
                         confidence := 0.85%Q |}])
      by (vm_compute; reflexivity).
    intro c. exact (A "13-05-2026" _ c E).
  - assert (W : ~ 2020 <= resolved_year 2019 <= 2035)
      by (change (resolved_year 2019) with 2019; lia).
    exact (B "MFG " "-" "12" "01" "2019" 12 1 2019 Hp Hs eq_refl L2 eq_refl L2
             eq_refl L4 W).
  - assert (W : ~ 2020 <= resolved_year 49 <= 2035)
      by (change (resolved_year 49) with 2049; lia).
    exact (B "" "-" "01" "01" "49" 1 1 49 H0 Hs eq_refl L2 eq_refl L2
             eq_refl L24 W).
  - assert (H1 : 100 <= 2019) by lia.
    assert (W : ~ 2020 <= 2019 <= 2035) by lia.
    exact (C "" "-" "2019" "01" "12" 2019 1 12 H0 Hs eq_refl eq_refl eq_refl L2
             eq_refl L2 H1 W).
Defined.

(** C5.  When the three groups of a match are digits worth [a], [b] and [c],
    [parse_date] takes day [a] and month [b] if 1 <= a <= 31 and
    1 <= b <= 12, and day [b] and month [a] otherwise ([c] is the year);
    13-05-2026 yields a candidate with day 13 and month 5, and 05-03-2026 one
    with day 5 and month 3. *)
Theorem C5_day_month_order (ga gb gc : string) (a b c : Z) :
  int ga = Ok a -> int gb = Ok b -> int gc = Ok c ->
  (1 <= a <= 31 /\ 1 <= b <= 12 ->
   fields [ga; gb; gc] = Ok (Some (PInt a, PInt b, PInt c))) /\
  (~ (1 <= a <= 31 /\ 1 <= b <= 12) ->
   fields [ga; gb; gc] = Ok (Some (PInt b, PInt a, PInt c))) /\
  extract_potential_dates "13-05-2026"
  = Ok [{| date := midnight 2026 5 13; raw := "13-05-2026"; confidence := 0.85%Q |}] /\
  extract_potential_dates "05-03-2026"
  = Ok [{| date := midnight 2026 3 5; raw := "05-03-2026"; confidence := 0.85%Q |}].
Proof.
  intros Ha Hb Hc.
  assert (F : fields [ga; gb; gc]
              = Ok (Some (if ((1 <=? a) && (a <=? 31) && (1 <=? b) && (b <=? 12))%Z
                          then (PInt a, PInt b, PInt c)
                          else (PInt b, PInt a, PInt c)))).
  { unfold fields, unpack3. cbn [nth filter].
    rewrite (int_isdigit _ _ Ha), (int_isdigit _ _ Hb), (int_isdigit _ _ Hc).
    cbn [negb mapM]. rewrite Ha, Hb, Hc. cbn [bind].
    destruct ((1 <=? a) && (a <=? 31) && (1 <=? b) && (b <=? 12))%Z; reflexivity. }
  split; [|split; [|split; vm_compute; reflexivity]].
  - intros [[H1 H2] [H3 H4]]. rewrite F.
    apply Z.leb_le in H1, H2, H3, H4. now rewrite H1, H2, H3, H4.
  - intro N. rewrite F.
    destruct ((1 <=? a) && (a <=? 31) && (1 <=? b) && (b <=? 12))%Z eqn:E;
      [|reflexivity].
    exfalso. apply N.
    repeat (apply andb_true_iff in E as [E ?]).
    repeat match goal with H : (_ <=? _)%Z = true |- _ => apply Z.leb_le in H end.
    lia.
Qed.

Lemma C5_day_month_order_witness :
  int "13" = Ok 13 /\ int "05" = Ok 5 /\ int "2026" = Ok 2026 /\
  fields ["13"; "05"; "2026"] = Ok (Some (PInt 13, PInt 5, PInt 2026)).
Proof.
  split; [reflexivity|]. split; [reflexivity|]. split; [reflexivity|].
  assert (H : 1 <= 13 <= 31 /\ 1 <= 5 <= 12) by lia.
  exact (proj1 (C5_day_month_order "13" "05" "2026" 13 5 2026
                  eq_refl eq_refl eq_refl) H).
Defined.

(** C10 (counterexample).  13.05.2026 is matched by the first pattern and by
    the third; the list returned holds the same candidate twice. *)
Lemma C10_counterexample :
  exists c,
    extract_potential_dates "13.05.2026" = Ok [c; c] /\ ~ NoDup [c; c].
Proof.
  exists {| date := midnight 2026 5 13; raw := "13.05.2026"; confidence := 0.85%Q |}.
  split; [vm_compute; reflexivity|].
  intro H. inversion H as [|? ? N _]. apply N. left. reflexivity.
Qed.

Lemma flat_map_candidate_raw (ms : list rematch) :
  map raw (flat_map candidate_of ms) = filter parses (map group0 ms).
Proof.
  induction ms as [|m ms IH]; [reflexivity|].
  cbn [flat_map map filter]. rewrite map_app, IH.
  unfold candidate_of, parses.
  destruct (parse_date (group0 m)) as [[dt|]|e]; reflexivity.
Qed.

(** C10 (as amended).  [extract_potential_dates] returns a list, with one
    candidate for each match of each pattern whose substring [parse_date]
    reads, in the order of the patterns and then of the text; a candidate is
    determined by its substring, so the list repeats a candidate exactly when
    two matches share their substring. *)
Theorem C10_candidates_follow_matches (text : string) (cands : list candidate) :
  extract_potential_dates text = Ok cands ->
  map raw cands = filter parses (map group0 (all_matches text)) /\
  (forall c c', In c cands -> In c' cands -> raw c = raw c' -> c = c') /\
  (NoDup cands <-> NoDup (map raw cands)).
Proof.
  intro H.
  assert (I : forall c c', In c cands -> In c' cands -> raw c = raw c' -> c = c').
  { intros c c' Hc Hc' R.
    destruct (extract_candidate text cands c H Hc) as (P & Q & _).
    destruct (extract_candidate text cands c' H Hc') as (P' & Q' & _).
    rewrite R, P' in P.
    destruct c, c'; simpl in *. congruence. }
  split; [|split].
  - rewrite (extract_ok _ _ H). apply flat_map_candidate_raw.
  - exact I.
  - split; [|apply NoDup_map_inv].
    clear H. induction cands as [|c cands IH]; intro N; [constructor|].
    inversion N as [|? ? N1 N2]; subst. cbn [map]. constructor.
    + intro Hin. apply in_map_iff in Hin as (c' & R & Hc').
      assert (c' = c) by (apply I; simpl; auto). subst c'. contradiction.
    + apply IH; [|exact N2]. intros x x' Hx Hx'. apply I; simpl; auto.
Qed.

Lemma C10_candidates_follow_matches_witness :
  extract_potential_dates "13.05.2026 and 13.05.2026"
  = Ok (repeat {| date := midnight 2026 5 13; raw := "13.05.2026";
                  confidence := 0.85%Q |} 4) /\
  map raw (repeat {| date := midnight 2026 5 13; raw := "13.05.2026";
                     confidence := 0.85%Q |} 4)
  = filter parses (map group0 (all_matches "13.05.2026 and 13.05.2026")).
Proof.
  assert (E : extract_potential_dates "13.05.2026 and 13.05.2026"
              = Ok (repeat {| date := midnight 2026 5 13; raw := "13.05.2026";
                              confidence := 0.85%Q |} 4))
    by (vm_compute; reflexivity).
  split; [exact E|].
  exact (proj1 (C10_candidates_follow_matches "13.05.2026 and 13.05.2026" _ E)).
Defined.

End ExtractorClaims.

(* ================================================================== *)
(** * The selector *)
(* ================================================================== *)

Module SelectorFacts.
Import Py Datetime Sys DateExtractor Shapes Bands.

Lemma gt_true (x y : Q) : gt x y = true <-> (y < x)%Q.
Proof.
  unfold gt. rewrite Qgt_alt. destruct (x ?= y)%Q; split; congruence.
Qed.

Lemma gt_false (x y : Q) : gt x y = false <-> (x <= y)%Q.
Proof.
  unfold gt. rewrite Qle_alt. destruct (x ?= y)%Q; split; congruence.
Qed.

(** [max] returns an item that no item exceeds and that every earlier item
    is strictly below: the first of the greatest. *)
Lemma max_from_first_greatest {A : Type} (key : A -> Q) (l : list A) :
  forall best, exists i x,
    nth_error (best :: l) i = Some x /\ max_from key best l = x /\
    (forall j y, nth_error (best :: l) j = Some y -> (key y <= key x)%Q) /\
    (forall j y, (j < i)%nat -> nth_error (best :: l) j = Some y ->
                 (key y < key x)%Q).
Proof.
  induction l as [|x0 l IH]; intro best.
  - exists 0%nat, best. repeat split.
    + intros [|[|j]] y H; simpl in H; try discriminate.
      injection H as <-. apply Qle_refl.
    + intros j y H. lia.
  - cbn [max_from]. destruct (gt (key x0) (key best)) eqn:G.
    + apply gt_true in G.
      destruct (IH x0) as (i & x & Hi & Hx & Hall & Hbefore).
      exists (S i), x. repeat split; auto.
      * intros [|j] y H; simpl in H.
        -- injection H as <-. apply Qlt_le_weak.
           apply Qlt_le_trans with (key x0); [exact G|].
           apply (Hall 0%nat). reflexivity.
        -- exact (Hall j y H).
      * intros [|j] y Hj H; simpl in H.
        -- injection H as <-.
           apply Qlt_le_trans with (key x0); [exact G|].
           apply (Hall 0%nat). reflexivity.
        -- apply (Hbefore j); [lia|exact H].
    + apply gt_false in G.
      destruct (IH best) as (i & x & Hi & Hx & Hall & Hbefore).
      destruct i as [|i].
      * simpl in Hi. injection Hi as <-.
        exists 0%nat, best. repeat split; auto.
        -- intros [|[|j]] y H; simpl in H.
           ++ injection H as <-. apply Qle_refl.
           ++ injection H as <-. exact G.
           ++ apply (Hall (S j)). exact H.
        -- intros j y H. lia.
      * exists (S (S i)), x. repeat split; auto.
        -- intros [|[|j]] y H; simpl in H.
           ++ apply (Hall 0%nat). exact H.
           ++ injection H as <-. apply Qle_trans with (key best); [exact G|].
              apply (Hall 0%nat). reflexivity.
           ++ apply (Hall (S j)). exact H.
        -- intros [|[|j]] y Hj H; simpl in H.
           ++ apply (Hbefore 0%nat); [lia|exact H].
           ++ injection H as <-. apply Qle_lt_trans with (key best); [exact G|].
              apply (Hbefore 0%nat); [lia|reflexivity].
           ++ apply (Hbefore (S j)); [lia|exact H].
Qed.

Lemma py_max_first_greatest {A : Type} (key : A -> Q) (l : list A) :
  l <> [] ->
  exists i x,
    nth_error l i = Some x /\ py_max key l = Some x /\
    (forall j y, nth_error l j = Some y -> (key y <= key x)%Q) /\
    (forall j y, (j < i)%nat -> nth_error l j = Some y -> (key y < key x)%Q).
Proof.
  destruct l as [|best l]; [congruence|]. intros _.
  destruct (max_from_first_greatest key l best) as (i & x & H1 & H2 & H3 & H4).
  exists i, x. simpl. repeat split; auto. now rewrite H2.
Qed.

(** [select_best_expiry] on a list that is not empty: one reading of the
    clock, the scores taken at that reading, the greatest of them. *)
Lemma select_nonempty (cands : list candidate) (w : World) :
  cands <> [] ->
  select_best_expiry cands w
  = (py_max s_confidence (map (score (reading w)) cands), snd (Sys.now w)).
Proof. destruct cands; [congruence|reflexivity]. Qed.

Lemma select_none (cands : list candidate) (w : World) :
  fst (select_best_expiry cands w) = None <-> cands = [].
Proof.
  destruct cands as [|c cands]; simpl; split; congruence.
Qed.

(** The whole days from the reading to the date. *)
Lemma days_between_floor (a b : datetime) :
  (us_per_day * days_between a b <= instant a - instant b
   < us_per_day * (days_between a b + 1))%Z.
Proof.
  unfold days_between.
  assert (H : (0 < us_per_day)%Z) by reflexivity.
  split.
  - apply Z.mul_div_le. exact H.
  - rewrite Z.add_1_r. apply Z.mul_succ_div_gt. exact H.
Qed.

Lemma py_min_small (q : Q) : (q <= 1)%Q -> py_min q 1.0 = q.
Proof.
  intro H. unfold py_min.
  destruct (1.0 ?= q)%Q eqn:E; try reflexivity.
  apply Qlt_alt in E. lra.
Qed.

Lemma py_min_clamp (q : Q) : (py_min q 1.0 == clamp q)%Q.
Proof.
  unfold py_min, clamp.
  destruct (Qle_bool q 1) eqn:B.
  - apply Qle_bool_iff in B.
    destruct (1.0 ?= q)%Q eqn:E; try reflexivity.
    apply Qlt_alt in E. lra.
  - destruct (1.0 ?= q)%Q eqn:E.
    + apply Qeq_alt in E. symmetry. rewrite <- E. reflexivity.
    + reflexivity.
    + apply Qgt_alt in E. assert (Qle_bool q 1 = true); [|congruence].
      apply Qle_bool_iff. lra.
Qed.

(** The score of one candidate, band by band. *)
Lemma score_adjusted (now : datetime) (c : candidate) :
  (0 <= confidence c <= 1)%Q ->
  s_date (score now c) = date c /\ s_raw (score now c) = raw c /\
  days_until (score now c) = days_between (date c) now /\
  (s_confidence (score now c)
   == adjusted (days_between (date c) now) (confidence c))%Q.
Proof.
  intro H. unfold score, adjusted. cbn [s_date s_raw days_until s_confidence].
  repeat split.
  destruct ((1 <=? _) && (_ <=? 540))%Z; [apply py_min_clamp|].
  destruct ((1 <=? _) && (_ <=? 1825))%Z; rewrite py_min_small; try reflexivity; lra.
Qed.

End SelectorFacts.

Module SelectorClaims.
Import Py Datetime Sys DateExtractor Shapes Bands SelectorFacts.

Local Open Scope string_scope.

(** C4 (counterexample).  On 1 January 2026 the candidates dated 10, 400 and
    2000 days ahead, given in that order with confidence 0.85 each, score
    1.0, 1.0 and 0.255; the one selected is the one 10 days ahead, not the
    one 400 days ahead. *)
Lemma C4_counterexample :
  let w := frozen (midnight 2026 1 1) in
  map (fun c => days_between (date c) (reading w))
      [in_days_10; in_days_400; in_days_2000] = [10; 400; 2000]%Z /\
  fst (select_best_expiry [in_days_10; in_days_400; in_days_2000] w)
  = Some (score (reading w) in_days_10) /\
  days_until (score (reading w) in_days_10) = 10%Z /\
  score (reading w) in_days_10 <> score (reading w) in_days_400.
Proof.
  intro w. split; [vm_compute; reflexivity|].
  split; [vm_compute; reflexivity|].
  split; [vm_compute; reflexivity|].
  vm_compute. discriminate.
Qed.

Lemma score_at (now : datetime) (c : candidate) (days : Z) :
  days_between (date c) now = days -> confidence c = 0.85%Q ->
  score now c
  = {| s_date := date c; s_raw := raw c;
       s_confidence :=
         py_min (if ((1 <=? days) && (days <=? 540))%Z then 0.85 * 1.4
                 else if ((1 <=? days) && (days <=? 1825))%Z then 0.85 * 0.9
                 else 0.85 * 0.3) 1.0;
       days_until := days |}.
Proof. intros <- H. unfold score. rewrite H. reflexivity. Qed.

(** C4 (as amended).  Of three candidates 10, 400 and 2000 days ahead, in
    that order, each of base confidence 0.85, [select_best_expiry] selects
    the one 10 days ahead: it and the one 400 days ahead both score
    0.85 x 1.4 clamped to 1.0, the one 2000 days ahead scores
    0.85 x 0.3 = 0.255, and of the two that tie the first met wins. *)
Theorem C4_first_of_the_tied_wins (c1 c2 c3 : candidate) (w : World) :
  days_between (date c1) (reading w) = 10%Z ->
  days_between (date c2) (reading w) = 400%Z ->
  days_between (date c3) (reading w) = 2000%Z ->
  confidence c1 = 0.85%Q -> confidence c2 = 0.85%Q -> confidence c3 = 0.85%Q ->
  fst (select_best_expiry [c1; c2; c3] w) = Some (score (reading w) c1) /\
  s_raw (score (reading w) c1) = raw c1 /\
  days_until (score (reading w) c1) = 10%Z /\
  (s_confidence (score (reading w) c1) == 1)%Q /\
  (s_confidence (score (reading w) c2) == 1)%Q /\
  (s_confidence (score (reading w) c3) == 0.255)%Q.
Proof.
  intros D1 D2 D3 K1 K2 K3.
  rewrite select_nonempty by discriminate. cbn [fst map].
  rewrite (score_at _ c1 _ D1 K1), (score_at _ c2 _ D2 K2), (score_at _ c3 _ D3 K3).
  repeat split; reflexivity.
Qed.

Lemma C4_first_of_the_tied_wins_witness :
  let w := frozen (midnight 2026 1 1) in
  days_between (date in_days_10) (reading w) = 10%Z /\
  days_between (date in_days_400) (reading w) = 400%Z /\
  days_between (date in_days_2000) (reading w) = 2000%Z /\
  fst (select_best_expiry [in_days_10; in_days_400; in_days_2000] w)
  = Some (score (reading w) in_days_10).
Proof.
  intro w.
  assert (D1 : days_between (date in_days_10) (reading w) = 10%Z) by reflexivity.
  assert (D2 : days_between (date in_days_400) (reading w) = 400%Z) by reflexivity.
  assert (D3 : days_between (date in_days_2000) (reading w) = 2000%Z) by reflexivity.
  repeat (split; [assumption|]).
  exact (proj1 (C4_first_of_the_tied_wins in_days_10 in_days_400 in_days_2000 w
                  D1 D2 D3 eq_refl eq_refl eq_refl)).
Defined.

End SelectorClaims.

(* ================================================================== *)
(** * Binary64: order, and products of confidences *)
(* ================================================================== *)

Module Binary64Facts.
Import Py Datetime Sys Binary64.
#[local] Set Warnings "-inexact-float".
Local Open Scope Z_scope.

(** ** Comparison is the order of the ranks *)

Lemma compare_cont_Eq (p q : positive) :
  Pos.compare_cont Eq p q = (Zpos p ?= Zpos q).
Proof. reflexivity. Qed.

Lemma SFltb_rank (x y : spec_float) :
  SFltb x y = true <-> number x = true /\ number y = true /\ before (rank x) (rank y).
Proof.
  unfold SFltb, SFcompare.
  destruct x as [sx | sx | | sx mx ex], y as [sy | sy | | sy my ey];
    try destruct sx; try destruct sy; cbn [number rank before];
    try (split; [discriminate | intros (A & B & C); try discriminate; lia]);
    try (split; [intros _; repeat split; lia | reflexivity]).
  - rewrite compare_cont_Eq.
    destruct (Z.compare_spec ex ey), (Z.compare_spec (Zpos mx) (Zpos my)); cbn [CompOpp];
      (split; [try discriminate; intros _; repeat split; lia | intros (A & B & C); try reflexivity; lia]).
  - rewrite compare_cont_Eq.
    destruct (Z.compare_spec ex ey), (Z.compare_spec (Zpos mx) (Zpos my)); cbn [CompOpp];
      (split; [try discriminate; intros _; repeat split; lia | intros (A & B & C); try reflexivity; lia]).
Qed.

Lemma SFleb_rank (x y : spec_float) :
  SFleb x y = true <-> number x = true /\ number y = true /\ ~ before (rank y) (rank x).
Proof.
  unfold SFleb, SFcompare.
  destruct x as [sx | sx | | sx mx ex], y as [sy | sy | | sy my ey];
    try destruct sx; try destruct sy; cbn [number rank before];
    try (split; [discriminate | intros (A & B & C); try discriminate; lia]);
    try (split; [intros _; repeat split; lia | reflexivity]).
  - rewrite compare_cont_Eq.
    destruct (Z.compare_spec ex ey), (Z.compare_spec (Zpos mx) (Zpos my)); cbn [CompOpp];
      (split; [try discriminate; intros _; repeat split; lia | intros (A & B & C); try reflexivity; lia]).
  - rewrite compare_cont_Eq.
    destruct (Z.compare_spec ex ey), (Z.compare_spec (Zpos mx) (Zpos my)); cbn [CompOpp];
      (split; [try discriminate; intros _; repeat split; lia | intros (A & B & C); try reflexivity; lia]).
Qed.

(** ** Rounding: what [binary_round_aux] does to the integers

    The product of two finite numbers is the exact product of the
    mantissas, shifted right until it has 53 digits (or the least exponent
    is reached), rounded to nearest, and shifted once more if rounding
    carried into a 54th digit. *)

Lemma digits2_log2 (p : positive) : Zpos (digits2_pos p) = Z.log2 (Zpos p) + 1.
Proof.
  assert (S : forall q, digits2_pos q = Pos.size q) by (induction q; simpl; congruence).
  destruct p; cbn [digits2_pos Z.log2]; rewrite ?S; lia.
Qed.

Lemma digits2_bounds (p : positive) :
  2 ^ (Zpos (digits2_pos p) - 1) <= Zpos p < 2 ^ Zpos (digits2_pos p).
Proof.
  rewrite digits2_log2.
  replace (Z.log2 (Zpos p) + 1 - 1) with (Z.log2 (Zpos p)) by lia.
  apply Z.log2_spec. lia.
Qed.

(** One shift halves the mantissa. *)
Lemma shr_1_half (r : shr_record) :
  0 <= shr_m r -> shr_m (shr_1 r) = shr_m r / 2.
Proof.
  destruct r as [m r s]. cbn [shr_m]. intros H.
  destruct m as [| p | p]; [reflexivity | | lia].
  rewrite <- Z.div2_div. destruct p; reflexivity.
Qed.

Lemma pow2_pos (n : Z) : 0 <= n -> 0 < 2 ^ n.
Proof. intros H. apply Z.pow_pos_nonneg; lia. Qed.

Lemma iter_shr_1 (p : positive) : forall r,
  0 <= shr_m r -> shr_m (iter_pos shr_1 p r) = shr_m r / 2 ^ Zpos p.
Proof.
  induction p as [p IH | p IH |]; intros r H; cbn [iter_pos].
  - assert (H1 : 0 <= shr_m (shr_1 r)) by (rewrite shr_1_half by exact H; apply Z.div_pos; lia).
    assert (P : 0 < 2 ^ Zpos p) by (apply pow2_pos; lia).
    assert (H2 : 0 <= shr_m (iter_pos shr_1 p (shr_1 r)))
      by (rewrite IH by exact H1; apply Z.div_pos; [exact H1 | exact P]).
    rewrite (IH _ H2), (IH _ H1), shr_1_half by exact H.
    rewrite !Z.div_div by lia.
    f_equal. replace (Zpos p~1) with (1 + Zpos p + Zpos p) by lia.
    rewrite !Z.pow_add_r by lia. change (2 ^ 1) with 2. ring.
  - assert (P : 0 < 2 ^ Zpos p) by (apply pow2_pos; lia).
    assert (H2 : 0 <= shr_m (iter_pos shr_1 p r))
      by (rewrite IH by exact H; apply Z.div_pos; [exact H | exact P]).
    rewrite (IH _ H2), (IH _ H).
    rewrite !Z.div_div by lia.
    f_equal. replace (Zpos p~0) with (Zpos p + Zpos p) by lia.
    rewrite !Z.pow_add_r by lia. ring.
  - apply shr_1_half. exact H.
Qed.

(** Shifting right by [n] places, none when [n] is not positive. *)
Lemma shr_spec (r : shr_record) (e n : Z) :
  0 <= shr_m r ->
  shr_m (fst (shr r e n)) = shr_m r / 2 ^ Z.max 0 n /\
  snd (shr r e n) = e + Z.max 0 n.
Proof.
  intros H. destruct n as [| p | p]; cbn [shr fst snd].
  - change (Z.max 0 0) with 0. rewrite Z.div_1_r. split; [reflexivity | lia].
  - rewrite iter_shr_1 by exact H. replace (Z.max 0 (Zpos p)) with (Zpos p) by lia.
    split; reflexivity.
  - replace (Z.max 0 (Zneg p)) with 0 by lia. rewrite Z.div_1_r. split; [reflexivity | lia].
Qed.

(** Rounding to nearest keeps the mantissa or adds one. *)
Lemma round_nearest_even_bounds (m : Z) (l : location) :
  m <= round_nearest_even m l <= m + 1.
Proof.
  destruct l as [| []]; cbn [round_nearest_even]; try lia.
  destruct (Z.even m); lia.
Qed.

Lemma shr_fexp_spec (m e : Z) :
  0 <= m ->
  let n := Z.max 0 (fexp prec emax (Zdigits2 m + e) - e) in
  shr_m (fst (shr_fexp prec emax m e loc_Exact)) = m / 2 ^ n /\
  snd (shr_fexp prec emax m e loc_Exact) = e + n.
Proof.
  intros H n. unfold shr_fexp. apply shr_spec. exact H.
Qed.

(** What [binary_round_aux] makes of an exact non-negative mantissa. *)
Lemma binary_round_aux_spec (s : bool) (m e : Z) :
  0 <= m ->
  exists m1 m2 e1 e2,
    e1 = e + Z.max 0 (fexp prec emax (Zdigits2 m + e) - e) /\
    m / 2 ^ (e1 - e) <= m1 <= m / 2 ^ (e1 - e) + 1 /\
    e2 = e1 + Z.max 0 (fexp prec emax (Zdigits2 m1 + e1) - e1) /\
    m2 = m1 / 2 ^ (e2 - e1) /\
    binary_round_aux prec emax s m e loc_Exact =
      match m2 with
      | Z0 => S754_zero s
      | Zpos p => if e2 <=? emax - prec then S754_finite s p e2 else S754_infinity s
      | Zneg _ => S754_nan
      end.
Proof.
  intros H. unfold binary_round_aux.
  destruct (shr_fexp_spec m e H) as [A B].
  destruct (shr_fexp prec emax m e loc_Exact) as [r1 e1]. cbn [fst snd] in A, B.
  set (m1 := round_nearest_even (shr_m r1) (loc_of_shr_record r1)).
  assert (M1 : shr_m r1 <= m1 <= shr_m r1 + 1) by apply round_nearest_even_bounds.
  assert (Q : 0 <= shr_m r1) by (rewrite A; apply Z.div_pos; [exact H | apply pow2_pos; lia]).
  assert (H1 : 0 <= m1) by lia.
  destruct (shr_fexp_spec m1 e1 H1) as [C D].
  destruct (shr_fexp prec emax m1 e1 loc_Exact) as [r2 e2]. cbn [fst snd] in C, D.
  exists m1, (shr_m r2), e1, e2.
  split; [exact B |]. split; [| split; [exact D | split]].
  - replace (e1 - e) with (Z.max 0 (fexp prec emax (Zdigits2 m + e) - e)) by lia.
    rewrite <- A. exact M1.
  - replace (e2 - e1) with (Z.max 0 (fexp prec emax (Zdigits2 m1 + e1) - e1)) by lia.
    exact C.
  - reflexivity.
Qed.
Lemma fexp_unfold (z : Z) : fexp prec emax z = Z.max (z - 53) (-1074).
Proof. reflexivity. Qed.

Lemma pow2_split (a b : Z) : 0 <= a -> 0 <= b -> 2 ^ (a + b) = 2 ^ a * 2 ^ b.
Proof. intros. apply Z.pow_add_r; assumption. Qed.

(** A positive integer below [2 ^ k] has at most [k] binary digits. *)
Lemma digits2_below (p : positive) (k : Z) :
  0 <= k -> Zpos p <= 2 ^ k -> Zpos (digits2_pos p) <= k + 1.
Proof.
  intros K H. destruct (digits2_bounds p) as [L _].
  assert (2 ^ (Zpos (digits2_pos p) - 1) <= 2 ^ k) by lia.
  apply Z.pow_le_mono_r_iff in H0; lia.
Qed.

(** Rounding an exact positive value below one gives at most one. *)
Lemma round_below_one (s : bool) (m e : Z) :
  0 < m < 2 ^ (- e) -> e <= -52 ->
  exists r, binary_round_aux prec emax s m e loc_Exact = r /\
    match r with
    | S754_zero s' => s' = s
    | S754_finite s' p e2 => s' = s /\ (e2 < -52 \/ (e2 = -52 /\ Zpos p <= 4503599627370496))
    | _ => False
    end.
Proof.
  intros [M0 M] E.
  destruct (binary_round_aux_spec s m e) as (m1 & m2 & e1 & e2 & E1 & Q & E2 & M2 & R); [lia |].
  rewrite R. eexists; split; [reflexivity |].
  destruct m as [| p | p]; try lia.
  cbn [Zdigits2] in E1. rewrite fexp_unfold in E1.
  assert (D : Zpos (digits2_pos p) <= - e + 1) by (apply digits2_below; lia).
  assert (E1b : e <= e1 <= -52) by lia.
  assert (P1 : 0 < 2 ^ (e1 - e)) by (apply pow2_pos; lia).
  assert (S1 : 2 ^ (- e) = 2 ^ (e1 - e) * 2 ^ (- e1))
    by (rewrite <- pow2_split by lia; f_equal; lia).
  assert (Q1 : Zpos p / 2 ^ (e1 - e) < 2 ^ (- e1))
    by (apply Z.div_lt_upper_bound; [exact P1 | lia]).
  assert (Q0 : 0 <= Zpos p / 2 ^ (e1 - e)) by (apply Z.div_pos; lia).
  assert (M1 : 0 <= m1 <= 2 ^ (- e1)) by lia.
  rewrite fexp_unfold in E2.
  assert (E2b : e1 <= e2 <= -52).
  { destruct m1 as [| p1 | p1]; cbn [Zdigits2] in E2; try lia.
    assert (Zpos (digits2_pos p1) <= - e1 + 1) by (apply digits2_below; lia). lia. }
  assert (P2 : 0 < 2 ^ (e2 - e1)) by (apply pow2_pos; lia).
  assert (S2 : 2 ^ (- e1) = 2 ^ (e2 - e1) * 2 ^ (- e2))
    by (rewrite <- pow2_split by lia; f_equal; lia).
  assert (Q2 : 0 <= m2 <= 2 ^ (- e2)).
  { subst m2. split; [apply Z.div_pos; lia |].
    apply Z.div_le_upper_bound; [exact P2 | lia]. }
  destruct m2 as [| p2 | p2]; [reflexivity | | lia].
  replace (e2 <=? emax - prec) with true
    by (symmetry; apply Z.leb_le; change (emax - prec) with 971; lia).
  split; [reflexivity |].
  destruct (Z.eq_dec e2 (-52)) as [-> | N]; [right | left; lia].
  split; [reflexivity |]. exact (proj2 Q2).
Qed.

(** The same rounding never yields a NaN. *)
Lemma round_is_number (s : bool) (m e : Z) :
  0 <= m -> number (binary_round_aux prec emax s m e loc_Exact) = true.
Proof.
  intros M.
  destruct (binary_round_aux_spec s m e M) as (m1 & m2 & e1 & e2 & E1 & Q & E2 & M2 & R).
  rewrite R.
  assert (0 <= m / 2 ^ (e1 - e)) by (apply Z.div_pos; [exact M | apply pow2_pos; lia]).
  assert (0 <= m2) by (subst m2; apply Z.div_pos; [lia | apply pow2_pos; lia]).
  destruct m2 as [| p2 | p2]; [reflexivity | | lia].
  destruct (e2 <=? emax - prec); reflexivity.
Qed.

(** ** On [float] *)

Lemma Prim2SF_one : Prim2SF 1 = S754_finite false 4503599627370496 (-52).
Proof. reflexivity. Qed.

Lemma Prim2SF_zero : Prim2SF 0 = S754_zero false.
Proof. reflexivity. Qed.

(** The mantissa of a valid binary64 number has at most 53 digits. *)
Lemma valid_digits (s : bool) (m : positive) (e : Z) :
  valid_binary (S754_finite s m e) = true -> Zpos (digits2_pos m) <= 53.
Proof.
  cbn [SpecFloat.valid_binary]. unfold bounded, canonical_mantissa.
  rewrite fexp_unfold. intros H. apply andb_prop in H. destruct H as [H _].
  apply Z.eqb_eq in H. lia.
Qed.

(** A float in [0, 1] is a zero or a positive number of value at most one. *)
Lemma unit_interval (x : float) :
  (0 <=? x)%float = true -> (x <=? 1)%float = true ->
  (exists s, Prim2SF x = S754_zero s) \/
  (exists m e, Prim2SF x = S754_finite false m e /\ e <= -52 /\ Zpos m <= 2 ^ (- e)).
Proof.
  rewrite !leb_spec, Prim2SF_one, Prim2SF_zero.
  intros L U. pose proof (Prim2SF_valid x) as V.
  apply SFleb_rank in L. apply SFleb_rank in U.
  destruct (Prim2SF x) as [s | s | | s m e].
  - left. exists s. reflexivity.
  - destruct L as (_ & _ & L), U as (_ & _ & U). destruct s; cbn in L, U; lia.
  - destruct U as (U & _). discriminate.
  - right. destruct L as (_ & _ & L), U as (_ & _ & U).
    destruct s; [cbn in L; lia |]. exists m, e. split; [reflexivity |].
    cbn in U. apply valid_digits in V.
    assert (e <= -52) by lia. split; [assumption |].
    destruct (Z.eq_dec e (-52)) as [-> | N]; [change (2 ^ (- -52)) with 4503599627370496; lia |].
    destruct (digits2_bounds m) as [_ B].
    assert (2 ^ Zpos (digits2_pos m) <= 2 ^ (- e)) by (apply Z.pow_le_mono_r; lia).
    lia.
Qed.

Lemma below_one (y : float) :
  (0 <=? y)%float = true -> (y <? 1)%float = true ->
  (exists s, Prim2SF y = S754_zero s) \/
  (exists m e, Prim2SF y = S754_finite false m e /\ e <= -52 /\ Zpos m < 2 ^ (- e)).
Proof.
  rewrite leb_spec, ltb_spec, Prim2SF_one, Prim2SF_zero.
  intros L U. pose proof (Prim2SF_valid y) as V.
  apply SFleb_rank in L. apply SFltb_rank in U.
  destruct (Prim2SF y) as [s | s | | s m e].
  - left. exists s. reflexivity.
  - destruct L as (_ & _ & L), U as (_ & _ & U). destruct s; cbn in L, U; lia.
  - destruct U as (U & _). discriminate.
  - right. destruct L as (_ & _ & L), U as (_ & _ & U).
    destruct s; [cbn in L; lia |]. exists m, e. split; [reflexivity |].
    cbn in U. apply valid_digits in V.
    assert (e <= -52) by lia. split; [assumption |].
    destruct (Z.eq_dec e (-52)) as [-> | N]; [change (2 ^ (- -52)) with 4503599627370496; lia |].
    destruct (digits2_bounds m) as [_ B].
    assert (2 ^ Zpos (digits2_pos m) <= 2 ^ (- e)) by (apply Z.pow_le_mono_r; lia).
    lia.
Qed.

(** The product of a float in [0, 1] and a float in [0, 1) is in [0, 1]. *)
Lemma mul_in_unit_interval (x y : float) :
  (0 <=? x)%float = true -> (x <=? 1)%float = true ->
  (0 <=? y)%float = true -> (y <? 1)%float = true ->
  (0 <=? x * y)%float = true /\ (x * y <=? 1)%float = true.
Proof.
  intros X0 X1 Y0 Y1.
  rewrite !leb_spec, mul_spec, Prim2SF_one, Prim2SF_zero.
  destruct (unit_interval x X0 X1) as [[sx ->] | (mx & ex & -> & Ex & Mx)];
    destruct (below_one y Y0 Y1) as [[sy ->] | (my & ey & -> & Ey & My)];
    try (split; reflexivity).
  unfold SF64mul, SFmul. cbn [xorb].
  destruct (round_below_one false (Zpos (mx * my)) (ex + ey)) as (r & -> & R).
  - split; [lia |].
    replace (- (ex + ey)) with (- ex + - ey) by lia. rewrite pow2_split by lia.
    rewrite Pos2Z.inj_mul.
    apply Z.lt_le_trans with (Zpos mx * 2 ^ (- ey)).
    + apply Z.mul_lt_mono_pos_l; lia.
    + apply Z.mul_le_mono_nonneg_r; [apply Z.lt_le_incl, pow2_pos; lia | exact Mx].
  - lia.
  - destruct r as [s | s | | s p e2]; try contradiction.
    + split; reflexivity.
    + destruct R as [-> R]. split.
      * reflexivity.
      * apply SFleb_rank. repeat split. cbn. lia.
Qed.

(** ** Comparisons of floats that are numbers *)

Lemma ltb_rank (x y : float) :
  (x <? y)%float = true <->
  number (Prim2SF x) = true /\ number (Prim2SF y) = true /\
  before (rank (Prim2SF x)) (rank (Prim2SF y)).
Proof. rewrite ltb_spec. apply SFltb_rank. Qed.

Lemma leb_rank (x y : float) :
  (x <=? y)%float = true <->
  number (Prim2SF x) = true /\ number (Prim2SF y) = true /\
  ~ before (rank (Prim2SF y)) (rank (Prim2SF x)).
Proof. rewrite leb_spec. apply SFleb_rank. Qed.

Lemma before_trans_l (a b c : Z * Z * Z) :
  ~ before b a -> before b c -> before a c.
Proof.
  destruct a as [[a1 a2] a3], b as [[b1 b2] b3], c as [[c1 c2] c3].
  unfold before. lia.
Qed.

Lemma before_trans_r (a b c : Z * Z * Z) :
  before a b -> ~ before c b -> before a c.
Proof.
  destruct a as [[a1 a2] a3], b as [[b1 b2] b3], c as [[c1 c2] c3].
  unfold before. lia.
Qed.

Lemma before_weak (a b : Z * Z * Z) : before a b -> ~ before b a.
Proof.
  destruct a as [[a1 a2] a3], b as [[b1 b2] b3]. unfold before. lia.
Qed.

Lemma not_before_trans (a b c : Z * Z * Z) :
  ~ before b a -> ~ before c b -> ~ before c a.
Proof.
  destruct a as [[a1 a2] a3], b as [[b1 b2] b3], c as [[c1 c2] c3].
  unfold before. lia.
Qed.

Lemma before_irrefl (a : Z * Z * Z) : ~ before a a.
Proof. destruct a as [[a1 a2] a3]. unfold before. lia. Qed.

Lemma leb_refl (x : float) :
  number (Prim2SF x) = true -> (x <=? x)%float = true.
Proof. intro N. apply leb_rank. repeat split; auto. apply before_irrefl. Qed.

(** [x > y] is false of two numbers exactly when [x <= y]. *)
Lemma float_gt_false (x y : float) :
  number (Prim2SF x) = true -> number (Prim2SF y) = true ->
  gt x y = false -> (x <=? y)%float = true.
Proof.
  intros Nx Ny G. apply leb_rank. repeat split; auto.
  intro B. unfold gt in G.
  assert (T : (y <? x)%float = true) by (apply ltb_rank; auto).
  congruence.
Qed.

Lemma leb_ltb (x y : float) :
  (x <=? y)%float = true -> (y <? x)%float = false.
Proof.
  intro L. apply leb_rank in L as (_ & _ & L).
  destruct (y <? x)%float eqn:E; [|reflexivity].
  apply ltb_rank in E as (_ & _ & E). contradiction.
Qed.

Lemma ltb_leb (x y : float) : (x <? y)%float = true -> (x <=? y)%float = true.
Proof.
  intro L. apply ltb_rank in L as (Nx & Ny & L). apply leb_rank.
  repeat split; auto. now apply before_weak.
Qed.

Lemma leb_trans (x y z : float) :
  (x <=? y)%float = true -> (y <=? z)%float = true -> (x <=? z)%float = true.
Proof.
  intros A B. apply leb_rank in A as (Nx & Ny & A). apply leb_rank in B as (_ & Nz & B).
  apply leb_rank. repeat split; auto. exact (not_before_trans _ _ _ A B).
Qed.

Lemma leb_ltb_trans (x y z : float) :
  (x <=? y)%float = true -> (y <? z)%float = true -> (x <? z)%float = true.
Proof.
  intros A B. apply leb_rank in A as (Nx & Ny & A). apply ltb_rank in B as (_ & Nz & B).
  apply ltb_rank. repeat split; auto. exact (before_trans_l _ _ _ A B).
Qed.

Lemma ltb_leb_trans (x y z : float) :
  (x <? y)%float = true -> (y <=? z)%float = true -> (x <? z)%float = true.
Proof.
  intros A B. apply ltb_rank in A as (Nx & Ny & A). apply leb_rank in B as (_ & Nz & B).
  apply ltb_rank. repeat split; auto. exact (before_trans_r _ _ _ A B).
Qed.

Lemma leb_number (x y : float) :
  (x <=? y)%float = true -> number (Prim2SF x) = true /\ number (Prim2SF y) = true.
Proof. intro L. apply leb_rank in L as (Nx & Ny & _). auto. Qed.

(** ** [max] *)

(** [max] returns an item that no item exceeds and that every earlier item
    is strictly below: the first of the greatest. *)
Lemma float_max_from_first_greatest {A : Type} (key : A -> float) (l : list A) :
  forall best,
    (forall x, In x (best :: l) -> number (Prim2SF (key x)) = true) ->
    exists i x,
      nth_error (best :: l) i = Some x /\ max_from key best l = x /\
      (forall j y, nth_error (best :: l) j = Some y ->
                   (key y <=? key x)%float = true) /\
      (forall j y, (j < i)%nat -> nth_error (best :: l) j = Some y ->
                   (key y <? key x)%float = true).
Proof.
  induction l as [|x0 l IH]; intros best N.
  - exists 0%nat, best. repeat split.
    + intros [|[|j]] y H; simpl in H; try discriminate.
      injection H as <-. apply leb_refl, N. now left.
    + intros j y H. lia.
  - assert (Nb : number (Prim2SF (key best)) = true) by (apply N; now left).
    assert (N0 : number (Prim2SF (key x0)) = true) by (apply N; right; now left).
    cbn [max_from]. destruct (gt (key x0) (key best)) eqn:G.
    + unfold gt in G.
      destruct (IH x0) as (i & x & Hi & Hx & Hall & Hbefore).
      { intros x [<-|H]; [exact N0|]. apply N. right. now right. }
      exists (S i), x. repeat split; auto.
      * intros [|j] y H; simpl in H.
        -- injection H as <-. apply ltb_leb.
           apply ltb_leb_trans with (key x0); [exact G|].
           apply (Hall 0%nat). reflexivity.
        -- exact (Hall j y H).
      * intros [|j] y Hj H; simpl in H.
        -- injection H as <-.
           apply ltb_leb_trans with (key x0); [exact G|].
           apply (Hall 0%nat). reflexivity.
        -- apply (Hbefore j); [lia|exact H].
    + apply float_gt_false in G; [|exact N0|exact Nb].
      destruct (IH best) as (i & x & Hi & Hx & Hall & Hbefore).
      { intros x [<-|H]; [exact Nb|]. apply N. right. now right. }
      destruct i as [|i].
      * simpl in Hi. injection Hi as <-.
        exists 0%nat, best. repeat split; auto.
        -- intros [|[|j]] y H; simpl in H.
           ++ injection H as <-. now apply leb_refl.
           ++ injection H as <-. exact G.
           ++ apply (Hall (S j)). exact H.
        -- intros j y H. lia.
      * exists (S (S i)), x. repeat split; auto.
        -- intros [|[|j]] y H; simpl in H.
           ++ apply (Hall 0%nat). exact H.
           ++ injection H as <-. apply leb_trans with (key best); [exact G|].
              apply (Hall 0%nat). reflexivity.
           ++ apply (Hall (S j)). exact H.
        -- intros [|[|j]] y Hj H; simpl in H.
           ++ apply (Hbefore 0%nat); [lia|exact H].
           ++ injection H as <-. apply leb_ltb_trans with (key best); [exact G|].
              apply (Hbefore 0%nat); [lia|reflexivity].
           ++ apply (Hbefore (S j)); [lia|exact H].
Qed.

Lemma float_py_max_first_greatest {A : Type} (key : A -> float) (l : list A) :
  l <> [] ->
  (forall x, In x l -> number (Prim2SF (key x)) = true) ->
  exists i x,
    nth_error l i = Some x /\ py_max key l = Some x /\
    (forall j y, nth_error l j = Some y -> (key y <=? key x)%float = true) /\
    (forall j y, (j < i)%nat -> nth_error l j = Some y ->
                 (key y <? key x)%float = true).
Proof.
  destruct l as [|best l]; [congruence|]. intros _ N.
  destruct (float_max_from_first_greatest key l best N) as (i & x & H1 & H2 & H3 & H4).
  exists i, x. simpl. repeat split; auto. now rewrite H2.
Qed.

(** ** The scores *)

(** The product of a base confidence and a positive finite factor is a
    number. *)
Lemma mul_number (x y : float) (m : positive) (e : Z) :
  unit_confidence x -> Prim2SF y = S754_finite false m e ->
  number (Prim2SF (x * y)) = true.
Proof.
  intros [X0 X1] Y. rewrite mul_spec, Y.
  destruct (unit_interval x X0 X1) as [[sx ->] | (mx & ex & -> & _)].
  - reflexivity.
  - unfold SF64mul, SFmul. apply round_is_number. lia.
Qed.

(** The three factors, as binary64 holds them. *)
Lemma factors :
  Prim2SF 1.4 = S754_finite false 6305039478318694 (-52) /\
  Prim2SF 0.9 = S754_finite false 8106479329266893 (-53) /\
  Prim2SF 0.3 = S754_finite false 5404319552844595 (-54).
Proof. repeat split; reflexivity. Qed.

Lemma py_min_number (x : float) :
  number (Prim2SF x) = true -> number (Prim2SF (py_min x 1)) = true.
Proof. intro N. unfold py_min. destruct (1 <? x)%float; [reflexivity|exact N]. Qed.

(** [min(x, 1.0)] is [x] clamped to at most 1.0. *)
Lemma float_py_min_clamp (x : float) :
  number (Prim2SF x) = true -> py_min x 1 = clamp x.
Proof.
  intro N. unfold py_min, clamp.
  destruct (1 <? x)%float eqn:G.
  - destruct (x <=? 1)%float eqn:L; [|reflexivity].
    apply leb_ltb in L. congruence.
  - apply (float_gt_false x 1 N eq_refl) in G. now rewrite G.
Qed.

Lemma float_py_min_small (x : float) : (x <=? 1)%float = true -> py_min x 1 = x.
Proof. intro L. unfold py_min. now rewrite (leb_ltb _ _ L). Qed.

(** The score of one candidate, band by band. *)
Lemma float_score_adjusted (now : datetime) (c : candidate) :
  unit_confidence (confidence c) ->
  s_date (score now c) = date c /\ s_raw (score now c) = raw c /\
  days_until (score now c) = days_between (date c) now /\
  s_confidence (score now c)
  = adjusted (days_between (date c) now) (confidence c) /\
  number (Prim2SF (s_confidence (score now c))) = true.
Proof.
  intros U. unfold score, adjusted. cbn [s_date s_raw days_until s_confidence].
  repeat split.
  - destruct ((1 <=? _) && (_ <=? 540))%Z.
    { apply float_py_min_clamp. exact (mul_number _ _ _ _ U (proj1 factors)). }
    destruct U as [U0 U1].
    destruct ((1 <=? _) && (_ <=? 1825))%Z; apply float_py_min_small;
      apply mul_in_unit_interval; auto.
  - apply py_min_number.
    destruct ((1 <=? _) && (_ <=? 540))%Z;
      [exact (mul_number _ _ _ _ U (proj1 factors))|].
    destruct ((1 <=? _) && (_ <=? 1825))%Z;
      [exact (mul_number _ _ _ _ U (proj1 (proj2 factors)))
      |exact (mul_number _ _ _ _ U (proj2 (proj2 factors)))].
Qed.

Lemma float_select_nonempty (cands : list candidate) (w : World) :
  cands <> [] ->
  select_best_expiry cands w
  = (py_max s_confidence (map (score (Bands.reading w)) cands), snd (Sys.now w)).
Proof. destruct cands; [congruence|reflexivity]. Qed.

End Binary64Facts.

Module Binary64Claims.
Import Py Datetime Sys Shapes Bands Binary64 Binary64Facts.
#[local] Set Warnings "-inexact-float".
Local Open Scope string_scope.

(** C3.  For every list of candidates that is not empty (their base
    confidences binary64 numbers from 0 to 1) [select_best_expiry] scores
    every candidate against the reading of the clock: the days until the
    date are the whole days (floor) from the reading to the date; the
    confidence becomes the binary64 product of confidence and 1.4, clamped
    to 1.0, for 1 to 540 days, the product of confidence and 0.9 for other
    values up to 1825 days, and the product of confidence and 0.3
    otherwise; no candidate is dropped; the result is the scored candidate
    of greatest confidence, the first of them in the order of the list:
    none scores above it and every earlier one scores strictly below it. *)
Theorem C3_select_best_expiry_scores (cands : list candidate) (w : World) :
  cands <> [] ->
  (forall c, In c cands ->
     (0 <=? confidence c)%float = true /\ (confidence c <=? 1)%float = true) ->
  exists i c,
    nth_error cands i = Some c /\
    fst (select_best_expiry cands w) = Some (score (reading w) c) /\
    (forall c', In c' cands ->
       let s := score (reading w) c' in
       s_date s = date c' /\ s_raw s = raw c' /\
       (us_per_day * days_until s <= instant (date c') - instant (reading w)
        < us_per_day * (days_until s + 1))%Z /\
       s_confidence s = adjusted (days_until s) (confidence c')) /\
    (forall j c', nth_error cands j = Some c' ->
       (s_confidence (score (reading w) c')
        <=? s_confidence (score (reading w) c))%float = true) /\
    (forall j c', (j < i)%nat -> nth_error cands j = Some c' ->
       (s_confidence (score (reading w) c')
        <? s_confidence (score (reading w) c))%float = true).
Proof.
  intros Hne Hconf. rewrite (float_select_nonempty cands w Hne). cbn [fst].
  destruct (float_py_max_first_greatest s_confidence (map (score (reading w)) cands))
    as (i & s & Hi & Hmax & Hall & Hbefore).
  { destruct cands; [congruence|discriminate]. }
  { intros s Hs. apply in_map_iff in Hs as (c & <- & Hc).
    apply (float_score_adjusted (reading w) c (Hconf c Hc)). }
  rewrite nth_error_map in Hi.
  destruct (nth_error cands i) as [c|] eqn:Ei; [|discriminate].
  injection Hi as <-.
  exists i, c. split; [exact Ei|]. split; [exact Hmax|].
  split; [|split].
  - intros c' Hin.
    destruct (float_score_adjusted (reading w) c' (Hconf c' Hin)) as (H1 & H2 & H3 & H4 & _).
    cbv zeta. rewrite H3. split; [exact H1|]. split; [exact H2|].
    split; [apply SelectorFacts.days_between_floor|exact H4].
  - intros j c' Hj. apply (Hall j).
    rewrite nth_error_map, Hj. reflexivity.
  - intros j c' Hlt Hj. apply (Hbefore j _ Hlt).
    rewrite nth_error_map, Hj. reflexivity.
Qed.

Lemma C3_select_best_expiry_scores_witness :
  let cands := [stale_075; ahead_025] in
  let w := frozen (midnight 2026 1 1) in
  cands <> [] /\
  (forall c, In c cands ->
     (0 <=? confidence c)%float = true /\ (confidence c <=? 1)%float = true) /\
  map (fun c => days_until (score (reading w) c)) cands = [-31; 730]%Z /\
  map (fun c => s_confidence (score (reading w) c)) cands
  = [0.22499999999999998; 0.225]%float /\
  exists i c,
    nth_error cands i = Some c /\
    fst (select_best_expiry cands w) = Some (score (reading w) c) /\
    i = 1%nat /\ c = ahead_025.
Proof.
  intros cands w.
  assert (Hne : cands <> []) by discriminate.
  assert (Hconf : forall c, In c cands ->
            (0 <=? confidence c)%float = true /\ (confidence c <=? 1)%float = true).
  { intros c [<-|[<-|[]]]; split; reflexivity. }
  split; [exact Hne|]. split; [exact Hconf|].
  split; [reflexivity|]. split; [reflexivity|].
  destruct (C3_select_best_expiry_scores cands w Hne Hconf)
    as (i & c & H1 & H2 & _ & H4 & _).
  exists i, c. split; [exact H1|]. split; [exact H2|].
  destruct i as [|[|i]].
  - injection H1 as <-.
    specialize (H4 1%nat ahead_025 eq_refl). vm_compute in H4. discriminate.
  - injection H1 as <-. split; reflexivity.
  - destruct i; discriminate.
Defined.

End Binary64Claims.

(* ================================================================== *)
(** * At 0.85 the rational model selects as binary64 does *)
(* ================================================================== *)

Module RationalFacts.
Import Py Datetime Sys Shapes Bands Rational.
#[local] Set Warnings "-inexact-float".

(** The scores of a candidate of confidence 0.85 in the two models. *)
Lemma scores_agree (now : datetime) (c : DateExtractor.candidate) :
  DateExtractor.confidence c = 0.85%Q ->
  same_scored (DateExtractor.score now c) (Binary64.score now (extracted c)).
Proof.
  intro K. unfold same_scored, DateExtractor.score, Binary64.score, extracted.
  cbn [DateExtractor.s_date DateExtractor.s_raw DateExtractor.days_until
       DateExtractor.s_confidence Binary64.s_date Binary64.s_raw
       Binary64.days_until Binary64.s_confidence Binary64.date Binary64.raw
       Binary64.confidence].
  rewrite K. repeat (split; [reflexivity|]).
  unfold same_confidence.
  destruct ((1 <=? _) && (_ <=? 540))%Z;
    [left; split; reflexivity|].
  destruct ((1 <=? _) && (_ <=? 1825))%Z;
    [right; left; split; reflexivity | right; right; split; reflexivity].
Qed.

(** [x > y] decides alike in the two models on such scores. *)
Lemma gt_agree (now : datetime) (x b : DateExtractor.candidate) :
  DateExtractor.confidence x = 0.85%Q -> DateExtractor.confidence b = 0.85%Q ->
  DateExtractor.gt (DateExtractor.s_confidence (DateExtractor.score now x))
                   (DateExtractor.s_confidence (DateExtractor.score now b))
  = Binary64.gt (Binary64.s_confidence (Binary64.score now (extracted x)))
                (Binary64.s_confidence (Binary64.score now (extracted b))).
Proof.
  intros Kx Kb. unfold DateExtractor.score, Binary64.score, extracted.
  cbn [DateExtractor.s_confidence Binary64.s_confidence Binary64.date
       Binary64.confidence].
  rewrite Kx, Kb.
  destruct ((1 <=? days_between (DateExtractor.date x) now)
            && (days_between (DateExtractor.date x) now <=? 540))%Z;
    [|destruct ((1 <=? days_between (DateExtractor.date x) now)
                && (days_between (DateExtractor.date x) now <=? 1825))%Z];
    (destruct ((1 <=? days_between (DateExtractor.date b) now)
               && (days_between (DateExtractor.date b) now <=? 540))%Z;
     [|destruct ((1 <=? days_between (DateExtractor.date b) now)
                 && (days_between (DateExtractor.date b) now <=? 1825))%Z]);
    reflexivity.
Qed.

Lemma max_from_agree (now : datetime) (l : list DateExtractor.candidate) :
  forall b,
    (forall c, In c (b :: l) -> DateExtractor.confidence c = 0.85%Q) ->
    exists c, In c (b :: l) /\
      DateExtractor.max_from DateExtractor.s_confidence
        (DateExtractor.score now b) (map (DateExtractor.score now) l)
      = DateExtractor.score now c /\
      Binary64.max_from Binary64.s_confidence
        (Binary64.score now (extracted b))
        (map (Binary64.score now) (map extracted l))
      = Binary64.score now (extracted c).
Proof.
  induction l as [|x l IH]; intros b K.
  - exists b. split; [now left|]. split; reflexivity.
  - cbn [map DateExtractor.max_from Binary64.max_from].
    rewrite <- (gt_agree now x b) by (apply K; simpl; auto).
    destruct (DateExtractor.gt _ _).
    + destruct (IH x) as (c & Hin & E1 & E2).
      { intros c [<-|H]; apply K; simpl; auto. }
      exists c. split; [|split; assumption].
      destruct Hin as [<-|H]; simpl; auto.
    + destruct (IH b) as (c & Hin & E1 & E2).
      { intros c [<-|H]; apply K; simpl; auto. }
      exists c. split; [|split; assumption].
      destruct Hin as [<-|H]; simpl; auto.
Qed.

(** On candidates of confidence 0.85, which are all that the extractor
    builds, the rational [select_best_expiry] and the binary64 one read the
    clock alike and select the same candidate, with the same days and the
    same confidence. *)
Lemma rational_selector_agrees (cands : list DateExtractor.candidate) (w : World) :
  (forall c, In c cands -> DateExtractor.confidence c = 0.85%Q) ->
  snd (DateExtractor.select_best_expiry cands w)
  = snd (Binary64.select_best_expiry (map extracted cands) w) /\
  match fst (DateExtractor.select_best_expiry cands w),
        fst (Binary64.select_best_expiry (map extracted cands) w) with
  | None, None => cands = []
  | Some s, Some s' =>
    exists c, In c cands /\ s = DateExtractor.score (reading w) c /\
              s' = Binary64.score (reading w) (extracted c) /\ same_scored s s'
  | _, _ => False
  end.
Proof.
  intro K. destruct cands as [|b l]; [split; reflexivity|].
  cbn [map DateExtractor.select_best_expiry Binary64.select_best_expiry Sys.now
       fst snd DateExtractor.py_max Binary64.py_max].
  split; [reflexivity|].
  destruct (max_from_agree (clock w (reads w)) l b K) as (c & Hin & E1 & E2).
  exists c. split; [exact Hin|]. split; [exact E1|]. split; [exact E2|].
  rewrite E1, E2. apply scores_agree, K, Hin.
Qed.

End RationalFacts.

(* ================================================================== *)
(** * The recognition adapter and the facade *)
(* ================================================================== *)

Module DetectorFacts.
Import Py Re Datetime Sys DateExtractor FoodExpiryDetector Shapes Bands Adapter
       SelectorFacts.
Local Open Scope string_scope.

(** ** What the extractor can raise *)

Lemma benign_bind {A B : Type} (r : result A) (f : A -> result B) :
  benign r -> (forall a, benign (f a)) -> benign (bind r f).
Proof. destruct r; simpl; auto. Qed.

Lemma benign_foldM {A B : Type} (f : B -> A -> result B) (l : list A) :
  (forall acc x, benign (f acc x)) -> forall acc, benign (foldM f l acc).
Proof.
  intro Hf. induction l as [|x l IH]; intro acc; simpl; [exact I|].
  apply benign_bind; auto.
Qed.

Lemma benign_int (s : string) : benign (int s).
Proof.
  unfold int. destruct s; [reflexivity|].
  destruct (string_forallb _ _); simpl; auto.
Qed.

Lemma benign_mapM_int (l : list string) : benign (mapM int l).
Proof.
  induction l as [|s l IH]; simpl; [exact I|].
  apply benign_bind; [apply benign_int|]. intro a.
  apply benign_bind; [exact IH|]. intro; exact I.
Qed.

Lemma benign_unpack3 (groups : list string) : benign (unpack3 groups).
Proof.
  unfold unpack3. apply benign_bind; [apply benign_mapM_int|].
  intros [|a [|b [|c [|d l]]]]; simpl; auto.
Qed.

Lemma benign_fields (groups : list string) : benign (fields groups).
Proof.
  unfold fields. destruct (negb _).
  - destruct (MONTH_MAP_get _) as [month|]; [|exact I].
    destruct (month =? 0)%Z; exact I.
  - apply benign_bind; [apply benign_unpack3|].
    intros [[a b] c]. destruct (_ && _)%bool; exact I.
Qed.

Lemma benign_lt_int (v : pyval) (n : Z) : benign (lt_int v n).
Proof. destruct v; simpl; auto. Qed.

Lemma benign_add_int (v : pyval) (n : Z) : benign (add_int v n).
Proof. destruct v; simpl; auto. Qed.

Lemma benign_expand_year (year : pyval) : benign (expand_year year).
Proof.
  unfold expand_year. apply benign_bind; [apply benign_lt_int|].
  intros [|]; [|exact I].
  apply benign_bind; [apply benign_lt_int|]. intro. apply benign_add_int.
Qed.

Lemma benign_make (y m d : pyval) : benign (Datetime.make y m d).
Proof.
  unfold Datetime.make. destruct y, m, d; simpl; auto.
  repeat match goal with |- context [if ?b then _ else _] => destruct b end;
    simpl; auto.
Qed.

Lemma benign_build (day month year : pyval) : benign (build day month year).
Proof.
  unfold build. generalize (benign_make year month day).
  destruct (Datetime.make year month day) as [dt|e]; simpl.
  - intros _. destruct year; simpl; auto.
  - intro H. destruct (is_ValueError e); simpl; auto.
Qed.

Lemma benign_resolve_groups (groups : list string) : benign (resolve_groups groups).
Proof.
  unfold resolve_groups. destruct (negb _); [exact I|].
  apply benign_bind; [apply benign_fields|].
  intros [[[day month] year]|]; [|exact I].
  apply benign_bind; [apply benign_expand_year|]. intro. apply benign_build.
Qed.

Lemma benign_parse_date (text : string) : benign (parse_date text).
Proof.
  unfold parse_date. induction DATE_PATTERNS as [|p ps IH]; simpl; [exact I|].
  apply benign_bind.
  - unfold parse_with. destruct (search p text); [|exact I].
    apply benign_resolve_groups.
  - intros [|dt]; [exact IH|exact I].
Qed.

(** [extract_potential_dates] raises nothing but instances of
    [Exception]. *)
Lemma benign_extract (text : string) : benign (extract_potential_dates text).
Proof.
  unfold extract_potential_dates. apply benign_foldM. intros acc p.
  apply benign_foldM. intros acc' m. unfold consider.
  apply benign_bind; [apply benign_parse_date|]. intros [dt|]; exact I.
Qed.

(** ** The recognition passes *)

Section Recognition.
Variable Image : Type.
Variable env : Env Image.
Variable image : Image.

Lemma log_calls_app (cs cs' : list ocr_call) (w : World) :
  log_calls (cs ++ cs') w = log_calls cs' (log_calls cs w).
Proof. apply fold_left_app. Qed.

Lemma log_calls_clock (cs : list ocr_call) (w : World) :
  clock (log_calls cs w) = clock w /\ reads (log_calls cs w) = reads w.
Proof.
  revert w. induction cs as [|c cs IH]; intro w; simpl; [auto|].
  destruct (IH (log_call c w)) as [H1 H2]. rewrite H1, H2. auto.
Qed.

Lemma passes_clock (psms : list Z) :
  forall texts confs w,
    clock (snd (passes env image psms texts confs w)) = clock w /\
    reads (snd (passes env image psms texts confs w)) = reads w.
Proof.
  induction psms as [|psm psms IH]; intros texts confs w; cbn [passes];
    [simpl; auto|].
  unfold recognise.
  destruct (image_to_string env image psm) as [text|e].
  - destruct (image_to_data_conf env image psm) as [conf|e].
    + destruct (strip_nonempty text);
        match goal with |- context [passes _ _ _ ?t ?c ?w'] =>
          destruct (IH t c w') as [H1 H2]; rewrite H1, H2; simpl; auto
        end.
    + destruct (is_Exception e); [|simpl; auto].
      match goal with |- context [passes _ _ _ ?t ?c ?w'] =>
        destruct (IH t c w') as [H1 H2]; rewrite H1, H2; simpl; auto
      end.
  - destruct (is_Exception e); [|simpl; auto].
    match goal with |- context [passes _ _ _ ?t ?c ?w'] =>
      destruct (IH t c w') as [H1 H2]; rewrite H1, H2; simpl; auto
    end.
Qed.

Lemma extract_text_clock (w : World) :
  clock (snd (_extract_text env image w)) = clock w /\
  reads (snd (_extract_text env image w)) = reads w.
Proof.
  unfold _extract_text.
  generalize (passes_clock [6; 7; 11; 3]%Z [] [] w).
  destruct (passes env image _ _ _ w) as [[[texts confs]|e] w'];
    [destruct texts|]; simpl; auto.
Qed.

Hypothesis env_raises : raises_Exceptions env.

Lemma recognise_kept (psm : Z) (w : World) :
  exists r,
    recognise env image psm w = (r, log_calls (calls_of env image psm) w) /\
    match r with
    | Ok (Some p) => kept_profile env image psm = [p]
    | Ok None => kept_profile env image psm = []
    | Raise e => is_Exception e = true /\ kept_profile env image psm = []
    end.
Proof.
  destruct env_raises as (_ & Hs & Hd).
  unfold recognise, kept_profile, calls_of.
  generalize (Hs image psm).
  destruct (image_to_string env image psm) as [text|e]; cbn [benign].
  - intros _. generalize (Hd image psm).
    destruct (image_to_data_conf env image psm) as [conf|e]; cbn [benign].
    + intros _. eexists. split; [reflexivity|].
      destruct (strip_nonempty text); [|reflexivity].
      unfold token_confidence. destruct (filter _ conf); reflexivity.
    + intro He. eexists. split; [reflexivity|]. cbv beta iota. split; [exact He|reflexivity].
  - intro He. eexists. split; [reflexivity|]. cbv beta iota. split; [exact He|reflexivity].
Qed.

Lemma passes_kept (psms : list Z) :
  forall texts confs w,
    passes env image psms texts confs w
    = (Ok ((texts ++ map fst (kept env image psms))%list,
           (confs ++ map snd (kept env image psms))%list),
       log_calls (flat_map (calls_of env image) psms) w).
Proof.
  induction psms as [|psm psms IH]; intros texts confs w.
  - simpl. now rewrite !app_nil_r.
  - cbn [passes flat_map]. rewrite log_calls_app.
    change (kept env image (psm :: psms))
      with (kept_profile env image psm ++ kept env image psms)%list.
    destruct (recognise_kept psm w) as (r & -> & Hr).
    destruct r as [[[text avg]|]|e].
    + rewrite Hr, IH. cbn [map app fst snd].
      rewrite <- !app_assoc. reflexivity.
    + rewrite Hr, IH. reflexivity.
    + destruct Hr as [-> ->]. rewrite IH. reflexivity.
Qed.

Lemma extract_text_kept (w : World) :
  _extract_text env image w
  = (Ok (aggregate (kept env image profiles)),
     log_calls (flat_map (calls_of env image) profiles) w).
Proof.
  unfold _extract_text. change [6; 7; 11; 3]%Z with profiles.
  rewrite passes_kept. cbn [app].
  destruct (kept env image profiles) as [|p k]; reflexivity.
Qed.

End Recognition.

(** ** Means *)

Lemma sum_bounds (l : list Q) :
  (forall x, In x l -> 0 <= x <= 100)%Q ->
  (0 <= fold_right Qplus 0 l <= 100 * inject_Z (Z.of_nat (List.length l)))%Q.
Proof.
  induction l as [|x l IH]; intro H.
  - cbn [List.length fold_right Z.of_nat]. change (inject_Z 0) with 0%Q. lra.
  - cbn [List.length fold_right].
    rewrite Nat2Z.inj_succ, <- Z.add_1_r, inject_Z_plus.
    destruct (H x (or_introl eq_refl)) as [H1 H2].
    destruct IH as [I1 I2]; [intros y Hy; apply H; right; exact Hy|].
    change (inject_Z 1) with 1%Q. lra.
Qed.

Lemma token_confidence_bounds (conf : list Z) :
  (forall c, In c conf -> c <= 100)%Z ->
  (0 <= token_confidence conf <= 1)%Q.
Proof.
  intro H. unfold token_confidence.
  destruct (filter (fun c => (0 <=? c)%Z) conf) as [|c0 valid] eqn:E; [lra|].
  assert (B : forall x, In x (map inject_Z (c0 :: valid)) -> (0 <= x <= 100)%Q).
  { intros x Hx. apply in_map_iff in Hx as (c & <- & Hc).
    rewrite <- E in Hc. apply filter_In in Hc as [Hc Hpos].
    apply Z.leb_le in Hpos. specialize (H c Hc).
    split; [change 0%Q with (inject_Z 0)|change 100%Q with (inject_Z 100)];
      rewrite <- Zle_Qle; lia. }
  apply sum_bounds in B. unfold mean.
  set (s := fold_right Qplus 0 (map inject_Z (c0 :: valid))) in *.
  set (n := inject_Z (Z.of_nat (List.length (map inject_Z (c0 :: valid))))) in *.
  assert (Hn : (0 < n)%Q).
  { subst n. change 0%Q with (inject_Z 0). rewrite <- Zlt_Qlt. simpl. lia. }
  destruct B as [B1 B2]. split.
  - apply Qle_shift_div_l; [lra|]. apply Qle_shift_div_l; [exact Hn|]. lra.
  - apply Qle_shift_div_r; [lra|]. apply Qle_shift_div_r; [exact Hn|]. lra.
Qed.

End DetectorFacts.

(* ================================================================== *)
(** * The adapter against the specification *)
(* ================================================================== *)

Module TextRecognitionFacts.
Import Py Sys FoodExpiryDetector TextRecognition.
Local Open Scope string_scope.

(** ** Whitespace *)

Lemma whitespace_isspace (c : ascii) : whitespace c = char_isspace c.
Proof.
  destruct c as [[] [] [] [] [] [] [] []]; reflexivity.
Qed.

Lemma blank_strip (text : string) : strip_nonempty text = negb (blank text).
Proof.
  unfold strip_nonempty. f_equal.
  induction text as [|c text IH]; [reflexivity|].
  cbn [string_forallb blank]. now rewrite IH, whitespace_isspace.
Qed.

(** ** Joining *)




(** ** Means *)

Lemma fold_left_plus (l : list Q) : forall a,
  (fold_left Qplus l a == a + fold_right Qplus 0 l)%Q.
Proof.
  induction l as [|x l IH]; intro a; cbn [fold_left fold_right]; [ring|].
  rewrite IH. ring.
Qed.

Lemma total_sum (l : list Q) : (total l == fold_right Qplus 0 l)%Q.
Proof. unfold total. rewrite fold_left_plus. ring. Qed.

Lemma sum_Forall2 (l l' : list Q) :
  Forall2 Qeq l l' -> (fold_right Qplus 0 l == fold_right Qplus 0 l')%Q.
Proof.
  induction 1 as [|x y l l' E _ IH]; cbn [fold_right]; [reflexivity|].
  now rewrite E, IH.
Qed.

Lemma mean_arithmetic (l l' : list Q) :
  Forall2 Qeq l l' -> (mean l == arithmetic_mean l')%Q.
Proof.
  intro F. unfold mean, arithmetic_mean.
  rewrite total_sum, (sum_Forall2 l l' F), (Forall2_length F). reflexivity.
Qed.

Lemma Forall2_Qeq_refl (l : list Q) : Forall2 Qeq l l.
Proof. induction l; constructor; auto. reflexivity. Qed.

Lemma counted_filter (tokens : list Z) :
  filter (fun c => (0 <=? c)%Z) tokens = counted tokens.
Proof.
  unfold counted. apply filter_ext. intro c.
  now rewrite Z.ltb_antisym, negb_involutive.
Qed.

(** The average the code forms of the token confidences is the confidence
    of the profile. *)
Lemma average_profile_confidence (tokens : list Z) :
  (match filter (fun c => (0 <=? c)%Z) tokens with
   | [] => 0.0
   | valid => mean (map inject_Z valid) / 100.0
   end == profile_confidence tokens)%Q.
Proof.
  unfold profile_confidence. rewrite counted_filter.
  destruct (counted tokens) as [|t ts]; [reflexivity|].
  rewrite (mean_arithmetic _ _ (Forall2_Qeq_refl _)).
  assert (H : (100.0 == 100)%Q) by reflexivity.
  now rewrite H.
Qed.

(** ** The log of calls *)

Lemma logged_nil (w : World) : logged [] w = w.
Proof. destruct w. reflexivity. Qed.

Lemma logged_app (cs cs' : list ocr_call) (w : World) :
  logged (cs ++ cs') w = logged cs' (logged cs w).
Proof.
  unfold logged. cbn [clock reads ocr_log]. now rewrite rev_app_distr, app_assoc.
Qed.

(** ** The loop *)

Section Loop.
Variable Image : Type.
Variable env : Env Image.
Variable image : Image.

(** One pass of the loop, by what the invocation gave. *)
Lemma recognise_invocation (psm : Z) (w : World) :
  recognise env image psm w
  = (match invocation env image psm with
     | Read text tokens =>
       Ok (if strip_nonempty text
           then Some (text,
                      match filter (fun c => (0 <=? c)%Z) tokens with
                      | [] => 0.0%Q
                      | _ => (mean (map inject_Z
                                (filter (fun c => (0 <=? c)%Z) tokens)) / 100.0)%Q
                      end)
           else None)
     | Threw e => Raise e
     end,
     logged (calls env image psm) w).
Proof.
  unfold recognise, invocation, calls.
  destruct (image_to_string env image psm) as [text|e]; [|reflexivity].
  destruct (image_to_data_conf env image psm) as [tokens|e]; [|reflexivity].
  destruct (filter (fun c => (0 <=? c)%Z) tokens); reflexivity.
Qed.

(** The loop over the profiles [psms], started with [texts] and [confs]:
    interrupted by the first throw that is not an instance of [Exception],
    and otherwise appending what the kept passes give. *)
Lemma passes_recognized (psms : list Z) :
  forall texts confs w,
    match interruption (map (invocation env image) psms) with
    | None =>
      exists cs,
        passes env image psms texts confs w
        = (Ok ((texts ++ map fst (kept_of env image psms))%list,
               (confs ++ cs)%list),
           logged (flat_map (calls env image) psms) w) /\
        Forall2 Qeq cs (map snd (kept_of env image psms))
    | Some e =>
      fst (passes env image psms texts confs w) = Raise e /\
      is_Exception e = false
    end.
Proof.
  induction psms as [|psm psms IH]; intros texts confs w.
  - cbn [map interruption passes kept_of flat_map].
    exists []. rewrite !app_nil_r, logged_nil. split; [reflexivity|constructor].
  - cbn [map interruption passes flat_map]. unfold kept_of. cbn [flat_map].
    fold (kept_of env image psms).
    rewrite logged_app, recognise_invocation.
    destruct (invocation env image psm) as [text tokens|e];
      cbn [interruption kept_pass app].
    + rewrite blank_strip. destruct (blank text); cbn [negb app].
      * exact (IH texts confs _).
      * match goal with |- context [passes _ _ _ ?t ?c ?w'] =>
          specialize (IH t c w') end.
        destruct (interruption (map (invocation env image) psms)) as [e|];
          [exact IH|].
        destruct IH as (cs & E & F). eexists (_ :: cs). split.
        -- rewrite E. cbn [app map fst snd]. rewrite <- !app_assoc. reflexivity.
        -- constructor; [|exact F]. cbn [snd].
           generalize (average_profile_confidence tokens).
           destruct (filter (fun c => (0 <=? c)%Z) tokens); auto.
    + destruct (is_Exception e) eqn:X.
      * exact (IH texts confs _).
      * split; [reflexivity|exact X].
Qed.

(** What [_extract_text] raises, if anything, is no instance of
    [Exception]. *)
Lemma extract_text_raises (w w1 : World) (e : exn) :
  _extract_text env image w = (Raise e, w1) -> is_Exception e = false.
Proof.
  intro T.
  assert (U : _extract_text env image w
              = match passes env image four_profiles [] [] w with
                | (Raise e, w') => (Raise e, w')
                | (Ok (texts, confs), w') =>
                  match texts with
                  | [] => (Ok ("", 0.0%Q), w')
                  | _ => (Ok (join " " texts, mean confs), w')
                  end
                end) by reflexivity.
  rewrite U in T.
  pose proof (passes_recognized four_profiles [] [] w) as P.
  destruct (interruption (map (invocation env image) four_profiles)) as [e'|].
  - destruct P as [R X].
    destruct (passes env image four_profiles [] [] w) as [[[texts confs]|e''] w'];
      cbn [fst] in R; [discriminate|].
    injection R as ->. now injection T as <- _.
  - destruct P as (cs & E & _). rewrite E in T.
    destruct (_ ++ _)%list; discriminate.
Qed.

End Loop.

(** ** Bounds *)




End TextRecognitionFacts.

Module TextRecognitionClaims.
Import Py Datetime Sys FoodExpiryDetector Shapes Bands TextRecognition Samples
       TextRecognitionFacts.
Local Open Scope string_scope.




End TextRecognitionClaims.

Module DetectorClaims.
Import Py Re Datetime Sys DateExtractor FoodExpiryDetector Shapes Bands Adapter
       Samples SelectorFacts DetectorFacts TextRecognitionFacts.
Local Open Scope string_scope.

Lemma label_env_raises : raises_Exceptions label_env.
Proof.
  repeat split; intros; simpl; auto. destruct (psm =? 6)%Z; exact I.
Defined.

(** ** The facade, case by case *)

Section Facade.
Variable Image : Type.
Variable env : Env Image.
Variable image_path : string.
Variable w : World.

(** A result that is a value of the facade comes from [detect] unchanged,
    or is the report of an exception. *)
Lemma facade_cases :
  (exists r w', detect env image_path w = (Ok r, w') /\
                extract_expiry_date env image_path w = (Ok r, w')) \/
  (exists e w', detect env image_path w = (Raise e, w') /\
                extract_expiry_date env image_path w
                = (if is_Exception e then Ok (Crashed (str_of_exn e) 0.0%Q)
                   else Raise e, w')).
Proof.
  unfold extract_expiry_date.
  destruct (detect env image_path w) as [[r|e] w'].
  - left. eauto.
  - right. exists e, w'. split; [reflexivity|]. now destruct (is_Exception e).
Qed.

Lemma detect_outcome : outcome env image_path w (detect env image_path w).
Proof.
  unfold detect.
  destruct (load_image env image_path) as [img|e] eqn:L;
    [|now apply load_failed].
  destruct (preprocess env img) as [processed|e] eqn:P;
    [|now apply preprocess_failed with img].
  destruct (_extract_text env processed w) as [[[text ocr_conf]|e] w1] eqn:T;
    [|now apply recognition_failed with img processed].
  destruct (extract_potential_dates text) as [[|c cands]|e] eqn:X.
  - now apply no_pattern with img processed.
  - exact (selected Image env image_path w img processed text ocr_conf w1 c cands
             (max_from s_confidence (score (reading w1) c)
                       (map (score (reading w1)) cands))
             L P T X eq_refl).
  - now apply extraction_failed with img processed text ocr_conf.
Qed.

End Facade.


Lemma selected_is_scored (cands : list candidate) (w : World) (best : scored) :
  fst (select_best_expiry cands w) = Some best ->
  exists c, In c cands /\ best = score (reading w) c.
Proof.
  intro H.
  assert (Hne : cands <> []) by (intros ->; discriminate).
  rewrite (select_nonempty cands w Hne) in H. cbn [fst] in H.
  destruct (py_max_first_greatest s_confidence (map (score (reading w)) cands))
    as (i & s & Hi & Hmax & _).
  { destruct cands; [congruence|discriminate]. }
  rewrite Hmax in H. injection H as <-.
  rewrite nth_error_map in Hi.
  destruct (nth_error cands i) as [c|] eqn:E; [|discriminate].
  injection Hi as <-. exists c. split; [|reflexivity].
  exact (nth_error_In cands i E).
Qed.

Lemma substring_length (n : nat) (s : string) :
  String.length (substring 0 n s) = Nat.min n (String.length s).
Proof.
  revert s. induction n as [|n IH]; intros [|c s]; simpl; auto.
Qed.

Lemma append_length (s t : string) :
  String.length (s ++ t) = (String.length s + String.length t)%nat.
Proof. induction s as [|c s IH]; simpl; auto. Qed.

(** C7 (counterexample).  Under the third profile the engine fails with an
    instance of [Exception]: the adapter leaves the profile out, the label
    read under the first profile is dated, and the facade returns a success
    with the OCR confidence 0.425: the exception is neither caught at the
    boundary nor returned as a failure.  And when the user interrupts the
    second profile, what is thrown is no instance of [Exception]: the facade
    does not catch it and raises it to its caller. *)
Lemma C7_counterexample :
  let w := frozen (midnight 2026 1 1) in
  image_to_string mixed_env tt 11 = Raise (OtherException "Tesseract failed") /\
  fst (extract_expiry_date mixed_env "label.jpg" w)
  = Ok (Success "2026-01-12" "12-01-2026" 1.000 11 0.425 "Extracted successfully") /\
  image_to_string interrupted_env tt 7 = Raise (BaseExceptionOnly "KeyboardInterrupt") /\
  fst (extract_expiry_date interrupted_env "label.jpg" w)
  = Raise (BaseExceptionOnly "KeyboardInterrupt").
Proof. intro w. repeat split; vm_compute; reflexivity. Qed.

(** C7 (as amended).  When extraction produced no candidate the facade
    returns the failure [No date pattern matched in text] with the OCR
    confidence and an excerpt of the text: the text itself up to 200
    characters, else its first 200 characters followed by [...].  A file
    that is missing or cannot be decoded is a failure carrying the message
    of the error and the OCR confidence 0.0, and so is every instance of
    [Exception] that a step of the body lets out: the facade returns its
    message with the OCR confidence 0.0.  An instance of [Exception] thrown
    by a recognition profile never gets that far (the adapter leaves the
    profile out), and the extractor raises instances of [Exception] only.
    What is thrown outside [Exception] is not caught: the facade raises it
    to its caller.  With collaborators that raise instances of [Exception]
    only, the facade always returns a value. *)
Theorem C7_failures_are_values (Image : Type) (env : Env Image)
  (image_path : string) (w : World) :
  (forall img processed text ocr_conf w1,
     load_image env image_path = Ok img -> preprocess env img = Ok processed ->
     _extract_text env processed w = (Ok (text, ocr_conf), w1) ->
     extract_potential_dates text = Ok [] ->
     extract_expiry_date env image_path w
     = (Ok (NoPattern "No date pattern matched in text" (excerpt text) ocr_conf),
        w1)) /\
  (forall text,
     (String.length text <= 200 -> excerpt text = text)%nat /\
     (200 < String.length text ->
      excerpt text = prefix 200 text ++ "..." /\
      String.length (excerpt text) = 203)%nat) /\
  (is_file env image_path = false ->
   extract_expiry_date env image_path w
   = (Ok (Crashed ("Image not found: " ++ image_path) 0.0%Q), w)) /\
  (is_file env image_path = true -> imread env image_path = None ->
   extract_expiry_date env image_path w
   = (Ok (Crashed ("Failed to load image: " ++ image_path) 0.0%Q), w)) /\
  (forall e w1,
     detect env image_path w = (Raise e, w1) ->
     extract_expiry_date env image_path w
     = (if is_Exception e then Ok (Crashed (str_of_exn e) 0.0%Q) else Raise e,
        w1)) /\
  (forall processed w0 e w1,
     _extract_text env processed w0 = (Raise e, w1) -> is_Exception e = false) /\
  (forall text e,
     extract_potential_dates text = Raise e -> is_Exception e = true) /\
  (raises_Exceptions env ->
   exists r w1, extract_expiry_date env image_path w = (Ok r, w1)).
Proof.
  split; [|split; [|split; [|split; [|split; [|split; [|split]]]]]].
  - intros img processed text ocr_conf w1 L P T X.
    unfold extract_expiry_date, detect. now rewrite L, P, T, X.
  - intro text. unfold excerpt. split; intro H.
    + apply Nat.ltb_ge in H. now rewrite H.
    + assert (B : (200 <? String.length text)%nat = true) by now apply Nat.ltb_lt.
      rewrite B. split; [reflexivity|].
      unfold prefix. rewrite append_length, substring_length.
      rewrite Nat.min_l by lia. reflexivity.
  - intro F. unfold extract_expiry_date, detect, load_image. now rewrite F.
  - intros F R. unfold extract_expiry_date, detect, load_image. now rewrite F, R.
  - intros e w1 D. unfold extract_expiry_date. rewrite D.
    destruct (is_Exception e); reflexivity.
  - intros processed w0 e w1 T.
    exact (extract_text_raises Image env processed w0 w1 e T).
  - intros text e X. generalize (benign_extract text). now rewrite X.
  - intro Henv.
    destruct (facade_cases Image env image_path w)
      as [(r & w1 & _ & F)|(e & w1 & D & F)]; [eauto|].
    assert (E : is_Exception e = true).
    { pose proof (detect_outcome Image env image_path w) as O. rewrite D in O.
      destruct Henv as (Hp & Hs & Hd).
      inversion O as [e' L|img e' L P|img processed e' w' L P T
                      |img processed text ocr_conf w' e' L P T X| |]; subst.
      - unfold load_image in L. destruct (negb _); [now injection L as <-|].
        destruct (imread env image_path); [discriminate|now injection L as <-].
      - generalize (Hp img). now rewrite P.
      - rewrite (extract_text_kept Image env processed (conj Hp (conj Hs Hd)) w)
          in T. discriminate.
      - generalize (benign_extract text). now rewrite X. }
    rewrite E in F. eauto.
Qed.

Lemma C7_failures_are_values_witness :
  let w := frozen (midnight 2026 1 1) in
  (exists ocr_conf w1,
     extract_expiry_date Tracker.plain_env "label.jpg" w
     = (Ok (NoPattern "No date pattern matched in text"
              "Store in a cool, dry place Store in a cool, dry place Store in a cool, dry place Store in a cool, dry place"
              ocr_conf), w1) /\ (ocr_conf == 0.85)%Q) /\
  (exists text ocr_conf w1,
     extract_expiry_date wordy_env "label.jpg" w
     = (Ok (NoPattern "No date pattern matched in text"
              (prefix 200 text ++ "...") ocr_conf), w1) /\
     String.length text = 243%nat /\
     String.length (prefix 200 text ++ "...") = 203%nat /\
     (ocr_conf == 0.8)%Q) /\
  extract_expiry_date no_file_env "nowhere.jpg" w
  = (Ok (Crashed "Image not found: nowhere.jpg" 0.0%Q), w) /\
  fst (extract_expiry_date month_env "label.jpg" w)
  = Ok (Crashed "'<' not supported between instances of 'str' and 'int'" 0.0%Q) /\
  fst (extract_expiry_date interrupted_env "label.jpg" w)
  = Raise (BaseExceptionOnly "KeyboardInterrupt") /\
  raises_Exceptions label_env /\
  exists r w1, extract_expiry_date label_env "label.jpg" w = (Ok r, w1).
Proof.
  intro w.
  split; [|split; [|split; [|split; [|split; [|split]]]]].
  - pose (t := _extract_text Tracker.plain_env tt w).
    assert (T : _extract_text Tracker.plain_env tt w
                = (Ok (fst (match fst t with Ok p => p | Raise _ => ("", 0) end),
                       snd (match fst t with Ok p => p | Raise _ => ("", 0) end)),
                   snd t))
      by (vm_compute; reflexivity).
    eexists. eexists. split.
    + exact (proj1 (C7_failures_are_values unit Tracker.plain_env "label.jpg" w)
               tt tt _ _ _ eq_refl eq_refl T eq_refl).
    + reflexivity.
  - pose (t := _extract_text wordy_env tt w).
    assert (T : _extract_text wordy_env tt w
                = (Ok (fst (match fst t with Ok p => p | Raise _ => ("", 0) end),
                       snd (match fst t with Ok p => p | Raise _ => ("", 0) end)),
                   snd t))
      by (vm_compute; reflexivity).
    pose proof (C7_failures_are_values unit wordy_env "label.jpg" w) as (H1 & H2 & _).
    specialize (H1 tt tt _ _ _ eq_refl eq_refl T eq_refl).
    match type of H1 with context [excerpt ?x] =>
      destruct (H2 x) as (_ & H3);
      assert (Len : String.length x = 243%nat) by reflexivity
    end.
    destruct H3 as (H3 & H4); [rewrite Len; lia|].
    rewrite H3 in H1, H4.
    eexists. eexists. eexists. split; [exact H1|].
    split; [exact Len|]. split; [exact H4|]. reflexivity.
  - exact (proj1 (proj2 (proj2 (C7_failures_are_values unit no_file_env "nowhere.jpg" w)))
                 eq_refl).
  - pose proof (C7_failures_are_values unit month_env "label.jpg" w)
      as (_ & _ & _ & _ & H5 & _).
    assert (D : detect month_env "label.jpg" w
                = (Raise (TypeError "'<' not supported between instances of 'str' and 'int'"),
                   snd (detect month_env "label.jpg" w)))
      by (vm_compute; reflexivity).
    rewrite (H5 _ _ D). reflexivity.
  - pose proof (C7_failures_are_values unit interrupted_env "label.jpg" w)
      as (_ & _ & _ & _ & H5 & _).
    assert (D : detect interrupted_env "label.jpg" w
                = (Raise (BaseExceptionOnly "KeyboardInterrupt"),
                   snd (detect interrupted_env "label.jpg" w)))
      by (vm_compute; reflexivity).
    rewrite (H5 _ _ D). reflexivity.
  - exact label_env_raises.
  - exact (proj2 (proj2 (proj2 (proj2 (proj2 (proj2 (proj2
             (C7_failures_are_values unit label_env "label.jpg" w)))))))
             label_env_raises).
Defined.

(** C9.  [select_best_expiry] returns [None] exactly when the list of
    candidates is empty; and the facade never returns the failure [Found
    dates but none valid as future expiry]. *)
Theorem C9_some_candidate_is_selected :
  (forall cands w, fst (select_best_expiry cands w) = None <-> cands = []) /\
  (forall (Image : Type) (env : Env Image) image_path w r w',
     extract_expiry_date env image_path w = (Ok r, w') ->
     forall error candidates ocr_confidence,
       r <> NoneValid error candidates ocr_confidence).
Proof.
  split; [exact select_none|].
  intros Image env image_path w r w' F error cs ocr.
  destruct (facade_cases Image env image_path w)
    as [(r0 & w0 & D & F0)|(e & w0 & D & F0)]; rewrite F0 in F.
  - injection F as <- <-.
    pose proof (detect_outcome Image env image_path w) as O. rewrite D in O.
    inversion O; discriminate.
  - destruct (is_Exception e); [|discriminate].
    injection F as <- <-. discriminate.
Qed.

Lemma C9_some_candidate_is_selected_witness :
  fst (select_best_expiry [] across_midnight) = None /\
  forall error candidates ocr_confidence,
    Success "2026-01-12" "12-01-2026" 1.000 9 0.900 "Extracted successfully"
    <> NoneValid error candidates ocr_confidence.
Proof.
  split; [exact (proj2 (proj1 C9_some_candidate_is_selected [] across_midnight) eq_refl)|].
  assert (E : extract_expiry_date label_env "label.jpg" across_midnight
              = (Ok (Success "2026-01-12" "12-01-2026" 1.000 9 0.900
                       "Extracted successfully"),
                 snd (extract_expiry_date label_env "label.jpg" across_midnight)))
    by (vm_compute; reflexivity).
  exact (proj2 C9_some_candidate_is_selected unit label_env "label.jpg"
               across_midnight _ _ E).
Defined.

(** C6 (counterexample).  The label is read one microsecond before midnight
    and the result packaged one microsecond after it: the candidate selected
    was scored 10 days ahead, the result says 9; and the same list of
    candidates, selected again one reading of the clock later, gives another
    scored candidate. *)
Lemma C6_counterexample :
  exists cands best conf ocr w',
    extract_potential_dates "EXP 12-01-2026" = Ok cands /\
    fst (select_best_expiry cands across_midnight) = Some best /\
    days_until best = 10%Z /\
    extract_expiry_date label_env "label.jpg" across_midnight
    = (Ok (Success "2026-01-12" (s_raw best) conf 9 ocr "Extracted successfully"),
       w') /\
    fst (select_best_expiry cands (snd (Sys.now across_midnight))) <> Some best.
Proof.
  exists [{| date := midnight 2026 1 12; raw := "12-01-2026"; confidence := 0.85 |};
          {| date := midnight 2026 1 12; raw := "EXP 12-01-2026"; confidence := 0.85 |}].
  eexists. exists 1.000%Q, 0.900%Q. eexists.
  split; [vm_compute; reflexivity|].
  split; [vm_compute; reflexivity|].
  split; [reflexivity|].
  split; [vm_compute; reflexivity|].
  vm_compute. discriminate.
Qed.

(** C6 (as amended).  [select_best_expiry] takes the candidates only and
    reads the system clock itself; what it returns depends on the world only
    through that reading, so two calls with the same candidates that see the
    same reading return the same scored candidate.  A success of the facade
    comes from one run: the text recognised on the image, the candidates
    extracted from that text, the candidate selected among them at the
    first reading of the clock, whose date, text and confidence the success
    carries.  Its days until expiry are counted from a second reading of
    the clock: they are the days of the selected candidate counted again
    from the next reading, and equal the days computed during selection when
    the two readings are the same. *)
Theorem C6_scores_follow_the_clock :
  (forall cands w w',
     reading w = reading w' ->
     fst (select_best_expiry cands w) = fst (select_best_expiry cands w')) /\
  (forall (Image : Type) (env : Env Image) image_path w
          date raw_text confidence days ocr note w',
     extract_expiry_date env image_path w
     = (Ok (Success date raw_text confidence days ocr note), w') ->
     exists img processed text ocr_conf w1 cands best,
       load_image env image_path = Ok img /\
       preprocess env img = Ok processed /\
       _extract_text env processed w = (Ok (text, ocr_conf), w1) /\
       extract_potential_dates text = Ok cands /\
       reading w1 = reading w /\
       select_best_expiry cands w1 = (Some best, snd (Sys.now w1)) /\
       date = strftime_ymd (s_date best) /\
       raw_text = s_raw best /\
       confidence = round3 (s_confidence best) /\
       days_until best = days_between (s_date best) (clock w (reads w)) /\
       days = days_between (s_date best) (clock w (S (reads w))) /\
       (clock w (S (reads w)) = clock w (reads w) -> days = days_until best)).
Proof.
  split.
  - intros cands w w' R. destruct cands as [|c cands]; [reflexivity|].
    rewrite !select_nonempty by discriminate. cbn [fst]. now rewrite R.
  - intros Image env image_path w date raw_text confidence days ocr note w' F.
    destruct (facade_cases Image env image_path w)
      as [(r0 & w0 & D & F0)|(e & w0 & D & F0)]; rewrite F0 in F;
      [|destruct (is_Exception e); discriminate].
    injection F as -> <-.
    pose proof (detect_outcome Image env image_path w) as O. rewrite D in O.
    inversion O as [| | | | |img processed text ocr_conf w1 c cands best L P T X S];
      subst.
    destruct (extract_text_clock Image env processed w) as [C1 C2].
    rewrite T in C1, C2. cbn [snd] in C1, C2.
    assert (R : reading w1 = reading w) by (unfold reading; now rewrite C1, C2).
    destruct (selected_is_scored _ _ _ S) as (c0 & _ & ->).
    exists img, processed, text, ocr_conf, w1, (c :: cands), (score (reading w1) c0).
    split; [exact L|]. split; [exact P|]. split; [exact T|]. split; [exact X|].
    split; [exact R|].
    split.
    { rewrite select_nonempty by discriminate.
      rewrite select_nonempty in S by discriminate. cbn [fst] in S. now rewrite S. }
    split; [reflexivity|]. split; [reflexivity|]. split; [reflexivity|].
    rewrite C1, C2. unfold score at 1 2 3 4. cbn [days_until s_date].
    split; [now rewrite R|]. split; [reflexivity|].
    intros ->. now rewrite R.
Qed.

Lemma C6_scores_follow_the_clock_witness :
  let w := frozen (midnight 2026 1 1) in
  reading w = reading (snd (Sys.now w)) /\
  fst (select_best_expiry [in_days_10] w)
  = fst (select_best_expiry [in_days_10] (snd (Sys.now w))) /\
  extract_expiry_date label_env "label.jpg" w
  = (Ok (Success "2026-01-12" "12-01-2026" 1.000 11 0.900 "Extracted successfully"),
     snd (extract_expiry_date label_env "label.jpg" w)) /\
  exists text ocr_conf w1 cands best,
    _extract_text label_env tt w = (Ok (text, ocr_conf), w1) /\
    text = "EXP 12-01-2026" /\
    extract_potential_dates text = Ok cands /\
    select_best_expiry cands w1 = (Some best, snd (Sys.now w1)) /\
    s_raw best = "12-01-2026" /\
    strftime_ymd (s_date best) = "2026-01-12" /\
    days_until best = 11%Z.
Proof.
  intro w. split; [reflexivity|].
  split.
  { exact (proj1 C6_scores_follow_the_clock [in_days_10] w (snd (Sys.now w)) eq_refl). }
  assert (E : extract_expiry_date label_env "label.jpg" w
              = (Ok (Success "2026-01-12" "12-01-2026" 1.000 11 0.900
                       "Extracted successfully"),
                 snd (extract_expiry_date label_env "label.jpg" w)))
    by (vm_compute; reflexivity).
  split; [exact E|].
  destruct (proj2 C6_scores_follow_the_clock unit label_env "label.jpg" w
              _ _ _ _ _ _ _ E)
    as (img & processed & text & ocr_conf & w1 & cands & best
        & _ & P & T & X & _ & S & Hd & Hr & _ & _ & _ & Same).
  injection P as <-. destruct img.
  exists text, ocr_conf, w1, cands, best.
  split; [exact T|].
  split.
  { assert (T' : fst (_extract_text label_env tt w)
                 = Ok ("EXP 12-01-2026", snd (match fst (_extract_text label_env tt w)
                                              with Ok p => p | Raise _ => ("", 0) end)))
      by (vm_compute; reflexivity).
    rewrite T in T'. cbn [fst] in T'. now injection T' as ->. }
  split; [exact X|]. split; [exact S|].
  split; [symmetry; exact Hr|]. split; [symmetry; exact Hd|].
  symmetry. apply Same. reflexivity.
Defined.

End DetectorClaims.

(* ================================================================== *)
(** * Matches are stretches of the text *)
(* ================================================================== *)

Module SpanFacts.
Import Py Re Spans.

Lemma ahead_refl (s : cursor) : ahead [] s s.
Proof. split; reflexivity. Qed.

Lemma ahead_trans (l1 l2 : list ascii) (s s1 s2 : cursor) :
  ahead l1 s s1 -> ahead l2 s1 s2 -> ahead (l1 ++ l2) s s2.
Proof.
  intros (A1 & B1) (A2 & B2). split.
  - now rewrite A1, A2, app_assoc.
  - now rewrite B2, B1, rev_app_distr, app_assoc.
Qed.

Lemma ahead_advance (s : cursor) (c : ascii) (t : list ascii) :
  after s = c :: t -> ahead [c] s (advance s).
Proof. intro E. unfold ahead, advance. rewrite E. simpl. auto. Qed.

Lemma ahead_content (l : list ascii) (s s' : cursor) :
  ahead l s s' -> content s' = content s.
Proof.
  intros (A & B). unfold content.
  now rewrite A, B, rev_app_distr, rev_involutive, <- app_assoc.
Qed.

Lemma ahead_passed (l : list ascii) (s s' : cursor) :
  ahead l s s' -> passed s s' = string_of_list_ascii l.
Proof.
  intros (_ & B). unfold passed. rewrite B, length_app, length_rev.
  replace (List.length l + List.length (before s) - List.length (before s))%nat
    with (List.length (rev l) + 0)%nat by (rewrite length_rev; lia).
  rewrite firstn_app_2. simpl. now rewrite app_nil_r, rev_involutive.
Qed.

Lemma steps_one_char (p : ascii -> bool) (d : bool) :
  (d = true -> forall c, p c = true -> is_decimal c = true) ->
  steps d (one_char p).
Proof.
  intros Hd k s s'' H. unfold one_char in H.
  destruct (after s) as [|c t] eqn:E; [discriminate|].
  destruct (p c) eqn:P; [|discriminate].
  exists [c], (advance s). split; [now apply ahead_advance with t|].
  split; [assumption|]. intro D. simpl. now rewrite (Hd D c P).
Qed.

Lemma steps_rep_loop (body : (cursor -> option cursor) -> cursor -> option cursor)
  (d : bool) (lo : nat) (hi : option nat) (k : cursor -> option cursor) :
  steps d body ->
  forall fuel n s s'',
    rep_loop body lo hi k fuel n s = Some s'' ->
    exists l s', ahead l s s' /\ k s' = Some s'' /\
                 ((n < lo)%nat -> d = true -> existsb is_decimal l = true).
Proof.
  intro Hb.
  assert (Hleave : forall n s s'',
            enough lo n k s = Some s'' ->
            exists l s', ahead l s s' /\ k s' = Some s'' /\
                         ((n < lo)%nat -> d = true -> existsb is_decimal l = true)).
  { intros n s s'' H. unfold enough in H.
    destruct (lo <=? n)%nat eqn:E; [|discriminate].
    apply Nat.leb_le in E.
    exists [], s. split; [apply ahead_refl|]. split; [assumption|]. lia. }
  induction fuel as [|fuel IH]; intros n s s'' H; simpl in H; [now apply Hleave|].
  destruct (below hi n); [|now apply Hleave].
  destruct (body (rep_loop body lo hi k fuel (S n)) s) as [s1|] eqn:B;
    [|now apply Hleave].
  injection H as <-.
  destruct (Hb _ _ _ B) as (l1 & s1' & A1 & R & D1).
  destruct (IH _ _ _ R) as (l2 & s2 & A2 & K & _).
  exists (l1 ++ l2)%list, s2. split; [now apply ahead_trans with s1'|].
  split; [assumption|]. intros _ D. rewrite existsb_app, (D1 D). reflexivity.
Qed.

Lemma steps_rmatch (r : regex) : steps (needs_digit r) (rmatch r).
Proof.
  induction r as [|c| | |items| |r1 IH1 r2 IH2|r1 IH1 r2 IH2|lo hi r IH|i r IH].
  - intros k s s'' H. simpl in H. exists [], s. split; [apply ahead_refl|]. now split.
  - apply (steps_one_char (lit_matches c) false). discriminate.
  - apply (steps_one_char is_decimal true). auto.
  - apply (steps_one_char char_isspace false). discriminate.
  - apply (steps_one_char (set_matches items) false). discriminate.
  - intros k s s'' H. simpl in H. destruct (at_boundary s); [|discriminate].
    exists [], s. split; [apply ahead_refl|]. now split.
  - intros k s s'' H. simpl in H.
    destruct (IH1 _ _ _ H) as (l1 & s1 & A1 & R & D1).
    destruct (IH2 _ _ _ R) as (l2 & s2 & A2 & K & D2).
    exists (l1 ++ l2)%list, s2. split; [now apply ahead_trans with s1|].
    split; [assumption|]. intro D. rewrite existsb_app.
    apply orb_true_iff in D as [D|D]; [rewrite (D1 D)|rewrite (D2 D)];
      auto using orb_true_r.
  - intros k s s'' H. simpl in H.
    destruct (rmatch r1 k s) as [s1|] eqn:E.
    + injection H as <-. destruct (IH1 _ _ _ E) as (l & s' & A & K & D).
      exists l, s'. split; [exact A|]. split; [exact K|]. intro N.
      apply andb_true_iff in N as (N & _). auto.
    + destruct (IH2 _ _ _ H) as (l & s' & A & K & D).
      exists l, s'. split; [exact A|]. split; [exact K|]. intro N.
      apply andb_true_iff in N as (_ & N). auto.
  - intros k s s'' H. cbn [rmatch] in H.
    destruct (steps_rep_loop (rmatch r) (needs_digit r) lo hi k IH _ _ _ _ H)
      as (l & s' & A & K & D).
    exists l, s'. split; [exact A|]. split; [exact K|]. intro N.
    apply andb_true_iff in N as (N1 & N2). apply Nat.leb_le in N1.
    apply D; [lia|assumption].
  - intros k s s'' H. simpl in H.
    destruct (IH _ _ _ H) as (l & s' & A & K & D).
    exists l, (close_group i s s'). split; [exact A|]. now split.
Qed.


Lemma match_here_spans (r : regex) (s : cursor) (m : rematch) :
  match_here r s = Some m -> spans r s m.
Proof.
  unfold match_here.
  set (s0 := {| before := before s; after := after s; captured := [] |}).
  destruct (rmatch r (fun s' => Some s') s0) as [s'|] eqn:E; [|discriminate].
  intro H. injection H as <-.
  destruct (steps_rmatch r _ _ _ E) as (l & s1 & A & K & D).
  injection K as ->.
  assert (A' : ahead l s s') by exact A.
  exists l, s'. split; [exact A'|]. cbn [group0 m_start m_end].
  split; [now apply ahead_passed|]. split; [reflexivity|]. split; [|exact D].
  destruct A' as (_ & B). rewrite B, length_app, length_rev. lia.
Qed.

Lemma scan_spans (r : regex) (fuel : nat) :
  forall s m, scan fuel r s = Some m ->
              exists l0 s1, ahead l0 s s1 /\ spans r s1 m.
Proof.
  induction fuel as [|fuel IH]; intros s m H; simpl in H.
  - destruct (match_here r s) as [m'|] eqn:E; [|discriminate].
    injection H as <-. exists [], s. split; [apply ahead_refl|].
    now apply match_here_spans.
  - destruct (match_here r s) as [m'|] eqn:E.
    + injection H as <-. exists [], s. split; [apply ahead_refl|].
      now apply match_here_spans.
    + destruct (after s) as [|c t] eqn:A; [discriminate|].
      destruct (IH _ _ H) as (l0 & s1 & A1 & S).
      exists ([c] ++ l0)%list, s1. split; [|exact S].
      apply ahead_trans with (advance s); [now apply ahead_advance with t|exact A1].
Qed.

Lemma spans_lies_in (r : regex) (l0 : list ascii) (s s1 : cursor) (m : rematch) :
  ahead l0 s s1 -> spans r s1 m -> lies_in r (content s) m.
Proof.
  intros A0 (l & s' & A & G & S & E & D).
  exists (rev (before s1)), l, (after s').
  rewrite <- (ahead_content l0 s s1 A0). unfold content.
  destruct A as (A & _). rewrite A, length_rev. repeat split; auto.
  now rewrite S.
Qed.

Lemma seek_content (n : nat) : forall s, content (seek n s) = content s.
Proof.
  induction n as [|n IH]; intro s; simpl; [reflexivity|].
  rewrite IH. destruct (after s) as [|c t] eqn:E.
  - unfold advance. now rewrite E.
  - exact (ahead_content [c] s (advance s) (ahead_advance s c t E)).
Qed.

Lemma finditer_from_lies_in (r : regex) (fuel : nat) :
  forall s m, In m (finditer_from fuel r s) -> lies_in r (content s) m.
Proof.
  induction fuel as [|fuel IH]; intros s m H; simpl in H; [contradiction|].
  destruct (scan (List.length (after s)) r s) as [m1|] eqn:E; [|contradiction].
  destruct H as [<-|H].
  - destruct (scan_spans r _ _ _ E) as (l0 & s1 & A0 & S).
    now apply spans_lies_in with l0 s1.
  - destruct (_ <=? _)%nat; [|contradiction].
    apply IH in H. now rewrite seek_content in H.
Qed.

Lemma string_of_list_app (l l' : list ascii) :
  string_of_list_ascii (l ++ l') =
  (string_of_list_ascii l ++ string_of_list_ascii l')%string.
Proof. induction l as [|c l IH]; simpl; [reflexivity|]. now rewrite IH. Qed.

Lemma string_of_list_length (l : list ascii) :
  String.length (string_of_list_ascii l) = List.length l.
Proof. induction l as [|c l IH]; simpl; auto. Qed.

(** Every match [re.finditer] returns is a stretch of the text, at the
    offset the match gives as its start; it holds a decimal digit when the
    pattern needs one. *)
Lemma finditer_occurs (r : regex) (text : string) (m : rematch) :
  In m (finditer r text) ->
  occurs_at (m_start m) (group0 m) text /\
  m_end m = (m_start m + String.length (group0 m))%nat /\
  (needs_digit r = true -> has_digit (group0 m) = true).
Proof.
  intro H. apply finditer_from_lies_in in H.
  destruct H as (pre & l & post & C & S & E & G & D).
  unfold content, start_of in C. simpl in C.
  split; [|split].
  - exists (string_of_list_ascii pre), (string_of_list_ascii post).
    rewrite G, <- !string_of_list_app, <- C, string_of_list_ascii_of_string.
    split; [reflexivity|]. now rewrite string_of_list_length.
  - now rewrite G, string_of_list_length.
  - intro N. unfold has_digit. rewrite G, list_ascii_of_string_of_list_ascii. auto.
Qed.

Lemma search_spans (r : regex) (text : string) (m : rematch) :
  search r text = Some m -> lies_in r (list_ascii_of_string text) m.
Proof.
  unfold search. intro H.
  destruct (scan_spans r _ _ _ H) as (l0 & s1 & A0 & S).
  exact (spans_lies_in r l0 (start_of text) s1 m A0 S).
Qed.

(** A text without a decimal digit has no match of a pattern that needs
    one. *)
Lemma lies_in_digit (r : regex) (subject : list ascii) (m : rematch) :
  needs_digit r = true -> lies_in r subject m ->
  existsb is_decimal subject = true.
Proof.
  intros N (pre & l & post & C & _ & _ & _ & D). rewrite C, !existsb_app, (D N).
  now rewrite orb_true_r.
Qed.

Lemma finditer_no_digit (r : regex) (text : string) :
  needs_digit r = true -> has_digit text = false -> finditer r text = [].
Proof.
  intros N H. destruct (finditer r text) as [|m ms] eqn:E; [reflexivity|].
  assert (Hin : In m (finditer r text)) by (rewrite E; now left).
  apply finditer_from_lies_in in Hin.
  apply (lies_in_digit r _ m N) in Hin.
  unfold content, start_of in Hin. simpl in Hin. unfold has_digit in H. congruence.
Qed.

Lemma search_no_digit (r : regex) (text : string) :
  needs_digit r = true -> has_digit text = false -> search r text = None.
Proof.
  intros N H. destruct (search r text) as [m|] eqn:E; [|reflexivity].
  apply search_spans in E. apply (lies_in_digit r _ m N) in E.
  unfold has_digit in H. congruence.
Qed.

End SpanFacts.

(* ================================================================== *)
(** * The extractor on arbitrary text *)
(* ================================================================== *)

Module ExtractorFacts.
Import Py Re Datetime Sys DateExtractor Shapes Spans SpanFacts ParseFacts.
Local Open Scope string_scope.

Lemma patterns_need_digit : forallb needs_digit DATE_PATTERNS = true.
Proof. vm_compute. reflexivity. Qed.

Lemma all_matches_no_digit (text : string) :
  has_digit text = false -> all_matches text = [].
Proof.
  intro H. unfold all_matches.
  pose proof patterns_need_digit as N. rewrite forallb_forall in N.
  induction DATE_PATTERNS as [|p ps IH]; [reflexivity|]. simpl.
  rewrite (finditer_no_digit p text (N p (or_introl eq_refl)) H).
  apply IH. intros q Hq. apply N. now right.
Qed.

Lemma parse_loop_no_digit (text : string) (patterns : list regex) :
  forallb needs_digit patterns = true -> has_digit text = false ->
  parse_loop patterns text = Ok None.
Proof.
  intros N H. induction patterns as [|p ps IH]; [reflexivity|].
  simpl in N. apply andb_true_iff in N as (Np & Nps).
  simpl. unfold parse_with. rewrite (search_no_digit p text Np H). simpl.
  now apply IH.
Qed.

(** X1.  A text without a decimal digit holds no date: [parse_date] returns
    [None] and [extract_potential_dates] the empty list, without raising. *)
Theorem digitless_text_has_no_date (text : string) :
  has_digit text = false ->
  parse_date text = Ok None /\ extract_potential_dates text = Ok [].
Proof.
  intro H. split.
  - exact (parse_loop_no_digit text DATE_PATTERNS patterns_need_digit H).
  - rewrite extract_all_matches, (all_matches_no_digit text H). reflexivity.
Qed.

Lemma digitless_text_has_no_date_witness :
  has_digit "Store in a cool, dry place" = false /\
  extract_potential_dates "Store in a cool, dry place" = Ok [].
Proof.
  split; [reflexivity|].
  exact (proj2 (digitless_text_has_no_date "Store in a cool, dry place" eq_refl)).
Defined.

Lemma all_matches_occur (text : string) (m : rematch) :
  In m (all_matches text) ->
  occurs_at (m_start m) (group0 m) text /\ has_digit (group0 m) = true.
Proof.
  unfold all_matches. intro H. apply in_flat_map in H as (p & Hp & Hm).
  pose proof patterns_need_digit as N. rewrite forallb_forall in N.
  destruct (finditer_occurs p text m Hm) as (O & _ & D). auto.
Qed.

(** X2.  Every candidate of [extract_potential_dates] quotes the text: its
    [raw] stands in the text as it is, holds a decimal digit, and is what
    [parse_date] read the candidate's date from. *)
Theorem candidates_quote_the_text (text : string) (cands : list candidate)
  (c : candidate) :
  extract_potential_dates text = Ok cands -> In c cands ->
  (exists n, occurs_at n (raw c) text) /\
  has_digit (raw c) = true /\
  parse_date (raw c) = Ok (Some (date c)).
Proof.
  intros H Hin.
  destruct (extract_candidate text cands c H Hin) as (P & _ & m & Hm & R).
  destruct (all_matches_occur text m Hm) as (O & D).
  rewrite R. split; [eauto|]. split; [exact D|]. now rewrite <- R.
Qed.

Lemma candidates_quote_the_text_witness :
  extract_potential_dates "EXP 13-05-2026"
  = Ok [{| date := midnight 2026 5 13; raw := "13-05-2026"; confidence := 0.85%Q |};
        {| date := midnight 2026 5 13; raw := "EXP 13-05-2026";
           confidence := 0.85%Q |}] /\
  (exists n, occurs_at n "13-05-2026" "EXP 13-05-2026") /\
  parse_date "13-05-2026" = Ok (Some (midnight 2026 5 13)).
Proof.
  assert (E : extract_potential_dates "EXP 13-05-2026"
    = Ok [{| date := midnight 2026 5 13; raw := "13-05-2026"; confidence := 0.85%Q |};
          {| date := midnight 2026 5 13; raw := "EXP 13-05-2026";
             confidence := 0.85%Q |}])
    by (vm_compute; reflexivity).
  split; [exact E|].
  destruct (candidates_quote_the_text "EXP 13-05-2026" _
              {| date := midnight 2026 5 13; raw := "13-05-2026";
                 confidence := 0.85%Q |} E (or_introl eq_refl)) as (O & _ & P).
  split; [exact O|exact P].
Defined.

End ExtractorFacts.

(* ================================================================== *)
(** * The selector on the candidates of the extractor *)
(* ================================================================== *)

Module RankingFacts.
Import Py Datetime Sys DateExtractor Shapes Bands Ranking SelectorFacts.

Lemma band_below_3 (now : datetime) (c : candidate) : (band now c < 3)%nat.
Proof.
  unfold band. destruct (_ && _); [lia|]. destruct (_ && _); lia.
Qed.

(** The confidence given to a candidate of base confidence 0.85 depends on
    its band only. *)
Lemma score_by_band (now : datetime) (c : candidate) :
  confidence c = 0.85%Q ->
  s_confidence (score now c) = band_confidence (band now c).
Proof.
  intro H. unfold score, band. cbn [s_confidence]. rewrite H.
  destruct (_ && _); [reflexivity|]. destruct (_ && _); reflexivity.
Qed.

Lemma band_confidence_order (a b : nat) :
  (a < 3)%nat -> (b < 3)%nat ->
  ((band_confidence a < band_confidence b)%Q <-> (b < a)%nat) /\
  ((band_confidence a <= band_confidence b)%Q <-> (b <= a)%nat).
Proof.
  intros Ha Hb.
  destruct a as [|[|[|a]]]; [| | |lia]; destruct b as [|[|[|b]]]; try lia;
    unfold band_confidence; split; split; intro H; try lia; try lra;
    try (exfalso; revert H; unfold Qlt, Qle; simpl; lia);
    unfold Qlt, Qle; simpl; lia.
Qed.

Lemma find_first {A : Type} (p : A -> bool) (l : list A) (x : A) :
  find p l = Some x ->
  exists j, nth_error l j = Some x /\ p x = true /\
            forall k y, (k < j)%nat -> nth_error l k = Some y -> p y = false.
Proof.
  induction l as [|a l IH]; simpl; [discriminate|].
  destruct (p a) eqn:P.
  - intro H. injection H as <-. exists 0%nat. repeat split; auto. lia.
  - intro H. destruct (IH H) as (j & N & Px & E).
    exists (S j). repeat split; auto.
    intros [|k] y Hk Hy; simpl in Hy; [now injection Hy as <-|].
    apply (E k); [lia|assumption].
Qed.

(** [nearest] returns the first candidate of the lowest band present. *)
Lemma nearest_first_lowest (now : datetime) (cands : list candidate) :
  cands <> [] ->
  exists j c,
    nth_error cands j = Some c /\ nearest now cands = Some c /\
    (forall k c', nth_error cands k = Some c' -> (band now c <= band now c')%nat) /\
    (forall k c', (k < j)%nat -> nth_error cands k = Some c' ->
                  (band now c < band now c')%nat).
Proof.
  intro Hne. unfold nearest, first_in_band.
  assert (None_all : forall b, find (fun c => Nat.eqb (band now c) b) cands = None ->
            forall k c', nth_error cands k = Some c' -> band now c' <> b).
  { intros b F k c' N E. apply nth_error_In in N.
    pose proof (find_none _ _ F c' N) as X. simpl in X.
    apply Nat.eqb_neq in X. contradiction. }
  assert (Some_first : forall b c,
            find (fun c => Nat.eqb (band now c) b) cands = Some c ->
            exists j, nth_error cands j = Some c /\ band now c = b /\
              forall k c', (k < j)%nat -> nth_error cands k = Some c' ->
                           band now c' <> b).
  { intros b c F. destruct (find_first _ _ _ F) as (j & N & P & E).
    exists j. split; [exact N|]. split; [now apply Nat.eqb_eq|].
    intros k c' Hk Hc. apply Nat.eqb_neq. now apply (E k). }
  destruct (find (fun c => Nat.eqb (band now c) 0) cands) as [c0|] eqn:F0.
  { destruct (Some_first _ _ F0) as (j & N & B & E).
    exists j, c0. rewrite B. repeat split; auto; [lia|].
    intros k c' Hk Hc. pose proof (E k c' Hk Hc). lia. }
  destruct (find (fun c => Nat.eqb (band now c) 1) cands) as [c1|] eqn:F1.
  { destruct (Some_first _ _ F1) as (j & N & B & E).
    exists j, c1. rewrite B. repeat split; auto.
    - intros k c' Hc. pose proof (None_all _ F0 k c' Hc). lia.
    - intros k c' Hk Hc. pose proof (None_all _ F0 k c' Hc).
      pose proof (E k c' Hk Hc). lia. }
  destruct (find (fun c => Nat.eqb (band now c) 2) cands) as [c2|] eqn:F2.
  { destruct (Some_first _ _ F2) as (j & N & B & E).
    exists j, c2. rewrite B. repeat split; auto.
    - intros k c' Hc. pose proof (None_all _ F0 k c' Hc).
      pose proof (None_all _ F1 k c' Hc). lia.
    - intros k c' Hk Hc. pose proof (None_all _ F0 k c' Hc).
      pose proof (None_all _ F1 k c' Hc). pose proof (E k c' Hk Hc).
      pose proof (band_below_3 now c'). lia. }
  destruct cands as [|c cands]; [congruence|].
  pose proof (None_all _ F0 0%nat c eq_refl).
  pose proof (None_all _ F1 0%nat c eq_refl).
  pose proof (None_all _ F2 0%nat c eq_refl).
  pose proof (band_below_3 now c). lia.
Qed.

End RankingFacts.

Module SelectorExtras.
Import Py Datetime Sys DateExtractor Shapes Bands Ranking SelectorFacts
       RankingFacts.

(** X3.  On candidates that all have the base confidence 0.85, as those of
    [extract_potential_dates] have, [select_best_expiry] returns the first
    candidate that is 1 to 540 days ahead of the clock; if there is none,
    the first that is up to 1825 days ahead; if there is none either, the
    first candidate of the list. *)
Theorem select_best_expiry_prefers_the_nearest_band (cands : list candidate)
  (w : World) :
  (forall c, In c cands -> confidence c = 0.85%Q) ->
  fst (select_best_expiry cands w)
  = option_map (score (reading w)) (nearest (reading w) cands).
Proof.
  intro Hc. destruct cands as [|c0 cands0] eqn:Ec; [reflexivity|]. rewrite <- Ec in *.
  assert (Hne : cands <> []) by (rewrite Ec; discriminate).
  clear Ec. set (now := reading w).
  rewrite (select_nonempty cands w Hne). cbn [fst]. fold now.
  destruct (py_max_first_greatest s_confidence (map (score now) cands))
    as (i & s & Hi & Hmax & Hall & Hbefore).
  { destruct cands; [congruence|discriminate]. }
  rewrite nth_error_map in Hi.
  destruct (nth_error cands i) as [ci|] eqn:Ei; [|discriminate].
  injection Hi as <-.
  destruct (nearest_first_lowest now cands Hne) as (j & cj & Ej & Hn & Lall & Lbefore).
  rewrite Hmax, Hn. cbn [option_map].
  assert (K : forall c, In c cands ->
            s_confidence (score now c) = band_confidence (band now c)).
  { intros c Hin. apply score_by_band. now apply Hc. }
  assert (Ini : In ci cands) by exact (nth_error_In _ _ Ei).
  assert (Inj : In cj cands) by exact (nth_error_In _ _ Ej).
  destruct (band_confidence_order (band now cj) (band now ci)
              (band_below_3 now cj) (band_below_3 now ci)) as (O1 & O2).
  destruct (band_confidence_order (band now ci) (band now cj)
              (band_below_3 now ci) (band_below_3 now cj)) as (O3 & O4).
  destruct (Nat.lt_trichotomy i j) as [Lt|[Eq|Gt]].
  - pose proof (Lbefore i ci Lt Ei) as B.
    assert (X : (s_confidence (score now cj) <= s_confidence (score now ci))%Q).
    { apply (Hall j). now rewrite nth_error_map, Ej. }
    rewrite (K ci Ini), (K cj Inj) in X. apply O2 in X. lia.
  - subst j. rewrite Ei in Ej. now injection Ej as <-.
  - assert (X : (s_confidence (score now cj) < s_confidence (score now ci))%Q).
    { apply (Hbefore j _ Gt). now rewrite nth_error_map, Ej. }
    rewrite (K ci Ini), (K cj Inj) in X. apply O1 in X.
    pose proof (Lall i ci Ei). lia.
Qed.

Lemma select_best_expiry_prefers_the_nearest_band_witness :
  (forall c, In c [in_days_2000; in_days_400; in_days_10] ->
             confidence c = 0.85%Q) /\
  fst (select_best_expiry [in_days_2000; in_days_400; in_days_10]
         (frozen (midnight 2026 1 1)))
  = Some (score (midnight 2026 1 1) in_days_400).
Proof.
  assert (H : forall c, In c [in_days_2000; in_days_400; in_days_10] ->
                        confidence c = 0.85%Q).
  { intros c [<-|[<-|[<-|[]]]]; reflexivity. }
  split; [exact H|].
  exact (select_best_expiry_prefers_the_nearest_band
           [in_days_2000; in_days_400; in_days_10] (frozen (midnight 2026 1 1)) H).
Defined.

End SelectorExtras.

(* ================================================================== *)
(** * The patterns with month names *)
(* ================================================================== *)

Module MonthFacts.
Import Py Re Datetime Sys DateExtractor Shapes MonthNames CharFacts MatchFacts
       ParseFacts NumericFacts SpellingFacts.
Local Open Scope string_scope.

Section Substitution.
Variable f : ascii -> ascii.
Hypothesis f_digits : digit_subst f.

Lemma decimal_subst (g : string) :
  string_forallb is_decimal g = true ->
  string_forallb is_decimal (string_map f g) = true.
Proof.
  induction g as [|c g IH]; cbn [string_forallb string_map]; [reflexivity|].
  intro H. apply andb_true_iff in H as (H1 & H2).
  generalize (f_digits c). rewrite H1. intros ->. now apply IH.
Qed.

Lemma int_subst (g : string) :
  g <> "" -> string_forallb is_decimal g = true ->
  exists a, int (string_map f g) = Ok a.
Proof.
  intros N H. apply decimal_subst in H. destruct g as [|c g]; [congruence|].
  unfold int. cbn [string_map] in *. rewrite H. eauto.
Qed.

Lemma resolve_month_second (g : list string) :
  month_second g = true ->
  resolve_groups (map (string_map f) g)
  = Raise (TypeError "'<' not supported between instances of 'str' and 'int'").
Proof.
  destruct g as [|g1 [|g2 [|g3 [|g4 g]]]]; try discriminate.
  unfold month_second. intro H.
  apply andb_true_iff in H as (H & M). apply andb_true_iff in H as (D & N).
  apply negb_true_iff in D.
  cbn [map]. rewrite (string_map_no_digit f g2 f_digits N).
  unfold resolve_groups, fields. cbn [List.length Nat.eqb negb nth]. rewrite D.
  cbn [negb]. destruct (MONTH_MAP_get (prefix 3 (lower g2))) as [m|]; [|discriminate].
  apply negb_true_iff in M. rewrite M. reflexivity.
Qed.

Lemma resolve_month_first (g : list string) :
  month_first g = true ->
  resolve_groups (map (string_map f) g)
  = Raise (ValueError "not enough values to unpack (expected 3, got 2)").
Proof.
  destruct g as [|g1 [|g2 [|g3 [|g4 g]]]]; try discriminate.
  unfold month_first. intro H.
  repeat (apply andb_true_iff in H as (H & ?)).
  repeat match goal with H : negb _ = true |- _ => apply negb_true_iff in H end.
  repeat match goal with H : String.eqb _ _ = false |- _ => apply String.eqb_neq in H end.
  cbn [map]. rewrite (string_map_no_digit f g1 f_digits) by assumption.
  destruct (int_subst g2) as (b & Ib); try assumption.
  destruct (int_subst g3) as (c & Ic); try assumption.
  unfold resolve_groups, fields, unpack3. cbn [List.length Nat.eqb negb nth filter].
  rewrite (int_isdigit _ _ Ib), (int_isdigit _ _ Ic), H.
  cbn [negb mapM]. rewrite Ib, Ic. reflexivity.
Qed.

Lemma parse_groups_first (found : list (option (list string))) (g : list string)
  (e : exn) :
  first_found found = Some g ->
  resolve_groups (map (string_map f) g) = Raise e ->
  parse_groups (map (option_map (map (string_map f))) found) = Raise e.
Proof.
  intros F R. induction found as [|[g'|] found IH]; cbn in *; try discriminate.
  - injection F as ->. now rewrite R.
  - now apply IH.
Qed.

Lemma first_match_raises (p : list string -> bool) (e : exn) (text : string) :
  (forall g, p g = true -> resolve_groups (map (string_map f) g) = Raise e) ->
  first_match_reads p text = true ->
  extract_potential_dates (string_map f text) = Raise e.
Proof.
  intros Hp. unfold first_match_reads.
  rewrite extract_all_matches, (all_matches_subst f f_digits).
  destruct (all_matches text) as [|m ms]; [discriminate|].
  destruct (first_found (searches (group0 m))) as [g|] eqn:F; [|discriminate].
  intro H. cbn [map foldM]. unfold consider at 1. cbn [subst_match group0].
  unfold parse_date. rewrite parse_loop_groups.
  change (map _ DATE_PATTERNS) with (searches (string_map f (group0 m))).
  rewrite (searches_subst f f_digits), (parse_groups_first _ g e F (Hp g H)).
  reflexivity.
Qed.

End Substitution.

Lemma day_month_year_checked :
  forallb (first_match_reads month_second) day_month_year_templates = true.
Proof. vm_compute. reflexivity. Qed.

Lemma month_day_year_checked :
  forallb (first_match_reads month_first) month_day_year_templates = true.
Proof. vm_compute. reflexivity. Qed.

Lemma month_names_no_digit (mon : string) :
  In mon month_names -> no_digit mon = true.
Proof. apply (proj1 (forallb_forall no_digit month_names)). reflexivity. Qed.

Lemma spell2_subst (sd sy : string) (d y : Z) :
  int sd = Ok d -> int sy = Ok y -> digit_subst (spell2 sd sy).
Proof.
  intros H1 H2. apply assign_digits, forallb_chars. rewrite forallb_app.
  now rewrite (int_decimal _ _ H1), (int_decimal _ _ H2).
Qed.

(** The text of a day, a month and a year is its template with the digits
    written in. *)
Lemma spell2_templates (sd mon sy : string) (d y : Z) :
  int sd = Ok d -> (String.length sd <= 2)%nat ->
  int sy = Ok y -> String.length sy = 4%nat ->
  In mon month_names ->
  exists t1 t2,
    In t1 day_month_year_templates /\ In t2 month_day_year_templates /\
    string_map (spell2 sd sy) t1 = day_month_year sd mon sy /\
    string_map (spell2 sd sy) t2 = month_day_year mon sd sy.
Proof.
  intros Id Ld Iy Ly Hm.
  pose proof (spell2_subst sd sy d y Id Iy) as Hf.
  pose proof (string_map_no_digit _ mon Hf (month_names_no_digit mon Hm)) as M.
  pose proof (int_not_empty _ _ Id) as Nd.
  destruct sd as [|c1 [|c2 [|c3 sd]]]; cbn [String.length] in Ld, Nd; try lia;
    destruct sy as [|a1 [|a2 [|a3 [|a4 [|a5 sy]]]]]; try discriminate Ly.
  - exists (day_month_year "1" mon "2345"), (month_day_year mon "1" "2345").
    split; [apply in_flat_map; exists mon; split; [exact Hm|now left]|].
    split; [apply in_flat_map; exists mon; split; [exact Hm|now left]|].
    unfold day_month_year, month_day_year.
    rewrite !string_map_app, M. split; reflexivity.
  - exists (day_month_year "12" mon "3456"), (month_day_year mon "12" "3456").
    split; [apply in_flat_map; exists mon; split; [exact Hm|right; now left]|].
    split; [apply in_flat_map; exists mon; split; [exact Hm|right; now left]|].
    unfold day_month_year, month_day_year.
    rewrite !string_map_app, M. split; reflexivity.
Qed.

(** X8.  No date written with the name of its month is ever extracted.
    For a day of one or two digits, a month named as the patterns name it
    or in full, and a year of four digits, [extract_potential_dates] raises
    [TypeError] on the text with the day first, as in 5 Jan 2026, and
    [ValueError] on the text with the month first, as in Jan 5, 2026,
    whatever the digits. *)
Theorem month_name_dates_raise (sd mon sy : string) (d y : Z) :
  In mon month_names ->
  int sd = Ok d -> (String.length sd <= 2)%nat ->
  int sy = Ok y -> String.length sy = 4%nat ->
  extract_potential_dates (day_month_year sd mon sy)
  = Raise (TypeError "'<' not supported between instances of 'str' and 'int'") /\
  extract_potential_dates (month_day_year mon sd sy)
  = Raise (ValueError "not enough values to unpack (expected 3, got 2)").
Proof.
  intros Hm Id Ld Iy Ly.
  pose proof (spell2_subst sd sy d y Id Iy) as Hf.
  destruct (spell2_templates sd mon sy d y Id Ld Iy Ly Hm)
    as (t1 & t2 & In1 & In2 & <- & <-).
  split.
  - apply (first_match_raises _ Hf month_second);
      [intros g; apply resolve_month_second; exact Hf|].
    exact (proj1 (forallb_forall _ _) day_month_year_checked t1 In1).
  - apply (first_match_raises _ Hf month_first);
      [intros g; apply resolve_month_first; exact Hf|].
    exact (proj1 (forallb_forall _ _) month_day_year_checked t2 In2).
Qed.

Lemma month_name_dates_raise_witness :
  In "Jan" month_names /\ int "5" = Ok 5%Z /\ int "2026" = Ok 2026%Z /\
  extract_potential_dates "5 Jan 2026"
  = Raise (TypeError "'<' not supported between instances of 'str' and 'int'") /\
  extract_potential_dates "Jan 5, 2026"
  = Raise (ValueError "not enough values to unpack (expected 3, got 2)").
Proof.
  assert (Hm : In "Jan" month_names) by (left; reflexivity).
  assert (L1 : (1 <= 2)%nat) by lia.
  split; [exact Hm|]. split; [reflexivity|]. split; [reflexivity|].
  exact (month_name_dates_raise "5" "Jan" "2026" 5 2026 Hm eq_refl L1 eq_refl eq_refl).
Defined.

End MonthFacts.

(* ================================================================== *)
(** * What a result of the facade says about the label *)
(* ================================================================== *)

Module DetectorExtras.
Import Py Re Datetime Sys DateExtractor FoodExpiryDetector Shapes Bands Adapter
       Spans Ranking Tracker ParseFacts SelectorFacts DetectorFacts DetectorClaims
       SpanFacts ExtractorFacts RankingFacts.
Local Open Scope string_scope.

(** Where the fields of a success come from. *)
Lemma success_anatomy (Image : Type) (env : Env Image) (image_path : string)
  (w w' : World) (d raw_text : string) (conf : Q) (days : Z) (oc : Q)
  (note : string) :
  extract_expiry_date env image_path w
  = (Ok (Success d raw_text conf days oc note), w') ->
  exists img processed text ocr_conf w1 cands c,
    load_image env image_path = Ok img /\
    preprocess env img = Ok processed /\
    _extract_text env processed w = (Ok (text, ocr_conf), w1) /\
    extract_potential_dates text = Ok cands /\ In c cands /\
    fst (select_best_expiry cands w1) = Some (score (reading w) c) /\
    d = strftime_ymd (date c) /\ raw_text = raw c /\
    conf = round3 (s_confidence (score (reading w) c)) /\
    days = days_between (date c) (clock w (S (reads w))) /\
    oc = round3 ocr_conf /\ note = "Extracted successfully" /\
    clock w' = clock w /\ reads w' = S (S (reads w)).
Proof.
  intro F.
  destruct (facade_cases Image env image_path w)
    as [(r0 & w0 & D & F0)|(e & w0 & D & F0)]; rewrite F0 in F;
    [|destruct (is_Exception e); discriminate].
  injection F as -> <-.
  pose proof (detect_outcome Image env image_path w) as O. rewrite D in O.
  inversion O as [| | | | |img processed text ocr_conf w1 c cands best L P T X S];
    subst.
  destruct (extract_text_clock Image env processed w) as [C1 C2].
  rewrite T in C1, C2. cbn [snd] in C1, C2.
  assert (R : reading w1 = reading w) by (unfold reading; now rewrite C1, C2).
  destruct (selected_is_scored _ _ _ S) as (c0 & Hin & ->).
  rewrite R in *.
  exists img, processed, text, ocr_conf, w1, (c :: cands), c0.
  rewrite C1, C2. cbn [score s_date s_raw]. repeat split; auto.
Qed.

(** With collaborators that raise instances of [Exception] only, the
    facade returns a value. *)
Lemma facade_answers (Image : Type) (env : Env Image) (image_path : string)
  (w : World) :
  raises_Exceptions env ->
  exists r w1, extract_expiry_date env image_path w = (Ok r, w1).
Proof.
  intro Henv.
  destruct (facade_cases Image env image_path w)
    as [(r & w1 & _ & F)|(e & w1 & D & F)]; [eauto|].
  assert (E : is_Exception e = true).
  { pose proof (detect_outcome Image env image_path w) as O. rewrite D in O.
    inversion O as [e' L|img e' L P|img processed e' w' L P T
                    |img processed text ocr_conf w' e' L P T X| |]; subst.
    - unfold load_image in L. destruct (negb _); [now injection L as <-|].
      destruct (imread env image_path); [discriminate|now injection L as <-].
    - generalize (proj1 Henv img). now rewrite P.
    - rewrite (extract_text_kept Image env processed Henv w) in T. discriminate.
    - generalize (benign_extract text). now rewrite X. }
  rewrite E in F. eauto.
Qed.

(** X4.  A success of [extract_expiry_date] quotes the label: its
    [raw_text] stands as it is in the text the engine recognised, and its
    [date] is the day, in the form YYYY-MM-DD, that [parse_date] reads from
    [raw_text]: a date of the calendar in the years 2020 to 2035. *)
Theorem success_quotes_the_label (Image : Type) (env : Env Image)
  (image_path : string) (w w' : World) (d raw_text : string) (conf : Q)
  (days : Z) (oc : Q) (note : string) :
  extract_expiry_date env image_path w
  = (Ok (Success d raw_text conf days oc note), w') ->
  exists img processed text ocr_conf w1 dt,
    load_image env image_path = Ok img /\
    preprocess env img = Ok processed /\
    _extract_text env processed w = (Ok (text, ocr_conf), w1) /\
    (exists n, occurs_at n raw_text text) /\
    parse_date raw_text = Ok (Some dt) /\ plausible_date dt /\
    d = strftime_ymd dt /\ String.length d = 10%nat.
Proof.
  intro F.
  destruct (success_anatomy Image env image_path w w' d raw_text conf days oc note F)
    as (img & processed & text & ocr_conf & w1 & cands & c & L & P & T & X & Hin
        & _ & Hd & Hr & _).
  destruct (extract_candidate text cands c X Hin) as (Pd & _ & m & Hm & R).
  assert (O : exists k, occurs_at k (raw c) text).
  { destruct (all_matches_occur text m Hm) as (O & _). rewrite R. eauto. }
  exists img, processed, text, ocr_conf, w1, (date c).
  rewrite Hr, Hd.
  split; [exact L|]. split; [exact P|]. split; [exact T|]. split; [exact O|].
  split; [exact Pd|]. split; [exact (parse_date_returns _ _ Pd)|].
  split; reflexivity.
Qed.

Lemma success_quotes_the_label_witness :
  exists img processed text ocr_conf w1 dt,
    load_image label_env "label.jpg" = Ok img /\
    preprocess label_env img = Ok processed /\
    _extract_text label_env processed (frozen (midnight 2026 1 1))
    = (Ok (text, ocr_conf), w1) /\
    (exists n, occurs_at n "12-01-2026" text) /\
    parse_date "12-01-2026" = Ok (Some dt) /\ plausible_date dt /\
    "2026-01-12" = strftime_ymd dt /\ String.length "2026-01-12" = 10%nat.
Proof.
  assert (E : extract_expiry_date label_env "label.jpg" (frozen (midnight 2026 1 1))
              = (Ok (Success "2026-01-12" "12-01-2026" 1.000 11 0.900
                       "Extracted successfully"),
                 snd (extract_expiry_date label_env "label.jpg"
                        (frozen (midnight 2026 1 1)))))
    by (vm_compute; reflexivity).
  exact (success_quotes_the_label unit label_env "label.jpg" _ _ _ _ _ _ _ _ E).
Defined.

(** X5.  The confidence of a success is one of three values, decided by how
    far the date found lies from the first reading of the clock: 1.0 for 1
    to 540 days ahead, 0.765 for 541 to 1825 days ahead, 0.255 for a date
    that is past, of the same day, or further ahead. *)
Theorem success_confidence_is_one_of_three (Image : Type) (env : Env Image)
  (image_path : string) (w w' : World) (d raw_text : string) (conf : Q)
  (days : Z) (oc : Q) (note : string) :
  extract_expiry_date env image_path w
  = (Ok (Success d raw_text conf days oc note), w') ->
  exists dt,
    parse_date raw_text = Ok (Some dt) /\ d = strftime_ymd dt /\
    let n := days_between dt (reading w) in
    ((1 <= n <= 540)%Z /\ conf = 1.000%Q) \/
    ((541 <= n <= 1825)%Z /\ conf = 0.765%Q) \/
    ((n <= 0 \/ 1825 < n)%Z /\ conf = 0.255%Q).
Proof.
  intro F.
  destruct (success_anatomy Image env image_path w w' d raw_text conf days oc note F)
    as (img & processed & text & ocr_conf & w1 & cands & c & L & P & T & X & Hin
        & _ & Hd & Hr & Hc & _).
  destruct (extract_candidate text cands c X Hin) as (Pd & C85 & _).
  exists (date c). rewrite Hr. split; [exact Pd|]. split; [exact Hd|].
  cbn zeta. rewrite Hc, (score_by_band (reading w) c C85). unfold band.
  destruct (1 <=? days_between (date c) (reading w))%Z eqn:A;
    destruct (days_between (date c) (reading w) <=? 540)%Z eqn:B;
    destruct (days_between (date c) (reading w) <=? 1825)%Z eqn:C;
    cbn [andb band_confidence];
    rewrite ?Z.leb_le, ?Z.leb_gt in A, B, C;
    first [left; split; [lia|reflexivity]
          |right; left; split; [lia|reflexivity]
          |right; right; split; [lia|reflexivity]].
Qed.

Lemma success_confidence_is_one_of_three_witness :
  exists dt,
    parse_date "12-01-2026" = Ok (Some dt) /\ "2026-01-12" = strftime_ymd dt /\
    let n := days_between dt (reading (frozen (midnight 2026 1 1))) in
    ((1 <= n <= 540)%Z /\ 1.000%Q = 1.000%Q) \/
    ((541 <= n <= 1825)%Z /\ 1.000%Q = 0.765%Q) \/
    ((n <= 0 \/ 1825 < n)%Z /\ 1.000%Q = 0.255%Q).
Proof.
  assert (E : extract_expiry_date label_env "label.jpg" (frozen (midnight 2026 1 1))
              = (Ok (Success "2026-01-12" "12-01-2026" 1.000 11 0.900
                       "Extracted successfully"),
                 snd (extract_expiry_date label_env "label.jpg"
                        (frozen (midnight 2026 1 1)))))
    by (vm_compute; reflexivity).
  exact (success_confidence_is_one_of_three unit label_env "label.jpg"
           _ _ _ _ _ _ _ _ E).
Defined.

Lemma days_between_antitone (dt a b : datetime) :
  (instant a <= instant b)%Z -> (days_between dt b <= days_between dt a)%Z.
Proof.
  intro H. unfold days_between. apply Z.div_le_mono; [reflexivity|lia].
Qed.

Lemma days_between_within_a_day (dt a b : datetime) :
  (instant b - instant a < us_per_day)%Z ->
  (days_between dt a - 1 <= days_between dt b)%Z.
Proof.
  intro H. unfold days_between.
  assert (U : (0 < us_per_day)%Z) by reflexivity.
  replace ((instant dt - instant a) / us_per_day - 1)%Z
    with ((instant dt - instant a - 1 * us_per_day) / us_per_day)%Z
    by (rewrite <- Z.add_opp_r, <- Z.mul_opp_l, Z.div_add by lia; lia).
  apply Z.div_le_mono; [exact U|lia].
Qed.

(** X6.  The days a success reports are counted from the second reading of
    the clock, while the confidence was decided on the days counted from
    the first.  When the clock did not go back between the two readings the
    days reported are at most the days counted at selection; when less than
    a day passed they are at most one day fewer. *)
Theorem days_reported_lag_behind_selection (Image : Type) (env : Env Image)
  (image_path : string) (w w' : World) (d raw_text : string) (conf : Q)
  (days : Z) (oc : Q) (note : string) :
  extract_expiry_date env image_path w
  = (Ok (Success d raw_text conf days oc note), w') ->
  exists dt,
    parse_date raw_text = Ok (Some dt) /\ d = strftime_ymd dt /\
    days = days_between dt (clock w (S (reads w))) /\
    ((instant (clock w (reads w)) <= instant (clock w (S (reads w))))%Z ->
     (days <= days_between dt (reading w))%Z) /\
    ((instant (clock w (S (reads w))) - instant (clock w (reads w))
      < us_per_day)%Z ->
     (days_between dt (reading w) - 1 <= days)%Z).
Proof.
  intro F.
  destruct (success_anatomy Image env image_path w w' d raw_text conf days oc note F)
    as (img & processed & text & ocr_conf & w1 & cands & c & L & P & T & X & Hin
        & _ & Hd & Hr & _ & Hdays & _).
  destruct (extract_candidate text cands c X Hin) as (Pd & _ & _).
  exists (date c). rewrite Hr, Hdays.
  split; [exact Pd|]. split; [exact Hd|]. split; [reflexivity|]. split.
  - apply days_between_antitone.
  - apply days_between_within_a_day.
Qed.

Lemma days_reported_lag_behind_selection_witness :
  exists dt,
    parse_date "12-01-2026" = Ok (Some dt) /\ "2026-01-12" = strftime_ymd dt /\
    9%Z = days_between dt (clock across_midnight 1) /\
    ((instant (clock across_midnight 0) <= instant (clock across_midnight 1))%Z ->
     (9 <= days_between dt (reading across_midnight))%Z) /\
    ((instant (clock across_midnight 1) - instant (clock across_midnight 0)
      < us_per_day)%Z ->
     (days_between dt (reading across_midnight) - 1 <= 9)%Z).
Proof.
  assert (E : extract_expiry_date label_env "label.jpg" across_midnight
              = (Ok (Success "2026-01-12" "12-01-2026" 1.000 9 0.900
                       "Extracted successfully"),
                 snd (extract_expiry_date label_env "label.jpg" across_midnight)))
    by (vm_compute; reflexivity).
  exact (days_reported_lag_behind_selection unit label_env "label.jpg"
           _ _ _ _ _ _ _ _ E).
Defined.

Lemma join_no_digit (l : list string) :
  (forall t, In t l -> has_digit t = false) -> has_digit (join " " l) = false.
Proof.
  assert (A : forall s t, has_digit (s ++ t) = has_digit s || has_digit t).
  { intros s t. unfold has_digit.
    induction s as [|c s IH]; simpl; [reflexivity|].
    now rewrite IH, orb_assoc. }
  induction l as [|s l IH]; intro H; [reflexivity|].
  destruct l as [|s' l]; [apply H; now left|].
  change (join " " (s :: s' :: l)) with (s ++ " " ++ join " " (s' :: l)).
  rewrite !A, (H s (or_introl eq_refl)), IH; [reflexivity|].
  intros t Ht. apply H. now right.
Qed.

(** X7.  When the image loads and none of the texts the OCR engine returns
    holds a decimal digit, [extract_expiry_date] returns the failure [No
    date pattern matched in text] with the excerpt of the text recognised:
    no result is made up from a label without digits. *)
Theorem label_without_digits_has_no_pattern (Image : Type) (env : Env Image)
  (image_path : string) (w : World) (img processed : Image) :
  raises_Exceptions env ->
  load_image env image_path = Ok img -> preprocess env img = Ok processed ->
  (forall psm text, image_to_string env processed psm = Ok text ->
                    has_digit text = false) ->
  exists text ocr_conf w1,
    _extract_text env processed w = (Ok (text, ocr_conf), w1) /\
    extract_expiry_date env image_path w
    = (Ok (NoPattern "No date pattern matched in text" (excerpt text) ocr_conf),
       w1).
Proof.
  intros Henv L P Hd.
  pose proof (extract_text_kept Image env processed Henv w) as T.
  destruct (aggregate (kept env processed profiles)) as [text ocr_conf] eqn:A.
  exists text, ocr_conf, (log_calls (flat_map (calls_of env processed) profiles) w).
  split; [exact T|].
  assert (D : has_digit text = false).
  { unfold aggregate in A.
    destruct (kept env processed profiles) as [|p k] eqn:K;
      [injection A as <- _; reflexivity|].
    assert (Et : text = join " " (map fst (p :: k))) by congruence.
    rewrite Et. apply join_no_digit. intros t Ht.
    apply in_map_iff in Ht as ((t0 & q) & <- & Hin). rewrite <- K in Hin.
    unfold kept in Hin. apply in_flat_map in Hin as (psm & _ & Hk).
    unfold kept_profile in Hk.
    destruct (image_to_string env processed psm) as [text0|] eqn:S; [|contradiction].
    destruct (image_to_data_conf env processed psm); [|contradiction].
    destruct (strip_nonempty text0); [|contradiction].
    destruct Hk as [Hk|[]]. injection Hk as <- _. exact (Hd psm text0 S). }
  unfold extract_expiry_date, detect. rewrite L, P, T.
  now rewrite extract_all_matches, (all_matches_no_digit text D).
Qed.

Lemma plain_env_raises : raises_Exceptions plain_env.
Proof. repeat split; intros; exact I. Qed.

Lemma label_without_digits_has_no_pattern_witness :
  raises_Exceptions plain_env /\
  (forall (psm : Z) text,
     image_to_string plain_env tt psm = Ok text -> has_digit text = false) /\
  exists text ocr_conf w1,
    _extract_text plain_env tt (frozen (midnight 2026 1 1))
    = (Ok (text, ocr_conf), w1) /\
    extract_expiry_date plain_env "label.jpg" (frozen (midnight 2026 1 1))
    = (Ok (NoPattern "No date pattern matched in text" (excerpt text) ocr_conf),
       w1).
Proof.
  assert (D : forall (psm : Z) text,
            image_to_string plain_env tt psm = Ok text -> has_digit text = false)
    by (intros psm text [= <-]; reflexivity).
  split; [exact plain_env_raises|]. split; [exact D|].
  exact (label_without_digits_has_no_pattern Datatypes.unit plain_env
           "label.jpg" (frozen (midnight 2026 1 1)) tt tt plain_env_raises
           eq_refl eq_refl D).
Defined.

End DetectorExtras.

(* ================================================================== *)
(** * Writing and reading dates *)
(* ================================================================== *)

Module IsoFacts.
Import Py Datetime Shapes Iso.
Local Open Scope Z_scope.

Lemma digit_char_value (z : Z) :
  is_decimal (digit_char z) = true /\
  Z.of_N (code (digit_char z) - 48) = z mod 10 /\
  Ascii.eqb (digit_char z) "Z" = false.
Proof.
  unfold digit_char.
  assert (H : 0 <= z mod 10 < 10) by (apply Z.mod_pos_bound; lia).
  set (k := z mod 10) in *. clearbody k.
  assert (C : k = 0 \/ k = 1 \/ k = 2 \/ k = 3 \/ k = 4 \/ k = 5 \/ k = 6
              \/ k = 7 \/ k = 8 \/ k = 9) by lia.
  repeat (destruct C as [->|C]; [repeat split; reflexivity|]).
  subst k. repeat split; reflexivity.
Qed.

Lemma read_digit (n : nat) (acc z : Z) (s : string) :
  read_digits (S n) acc (String (digit_char z) s)
  = read_digits n (10 * acc + z mod 10) s.
Proof.
  cbn [read_digits]. destruct (digit_char_value z) as (D & V & _).
  now rewrite D, V.
Qed.

Lemma read_pad2 (z : Z) (s : string) :
  0 <= z < 100 -> read_digits 2 0 (pad2 z ++ s) = Some (z, s).
Proof.
  intro H. unfold pad2. cbn [append]. rewrite !read_digit. cbn [read_digits].
  do 2 f_equal. Z.to_euclidean_division_equations. lia.
Qed.

Lemma read_pad4 (z : Z) (s : string) :
  0 <= z < 10000 -> read_digits 4 0 (pad4 z ++ s) = Some (z, s).
Proof.
  intro H. unfold pad4, pad2. cbn [append]. rewrite !read_digit.
  cbn [read_digits]. do 2 f_equal. Z.to_euclidean_division_equations. lia.
Qed.

Lemma read_pad6 (z : Z) (s : string) :
  0 <= z < 1000000 -> read_digits 6 0 (pad6 z ++ s) = Some (z, s).
Proof.
  intro H. unfold pad6, pad4, pad2. cbn [append]. rewrite !read_digit.
  cbn [read_digits]. do 2 f_equal. Z.to_euclidean_division_equations. lia.
Qed.


Lemma read_date_written (y m d : Z) (s : string) :
  valid_date y m d = true ->
  read_date (pad4 y ++ "-" ++ pad2 m ++ "-" ++ pad2 d ++ s) = Some (y, m, d, s).
Proof.
  intro V. destruct (ShapeFacts.valid_date_bounds y m d V) as (Hy & Hm & Hd).
  unfold read_date.
  rewrite read_pad4 by lia. cbn [append read_char]. rewrite Ascii.eqb_refl.
  rewrite read_pad2 by lia. cbn [append read_char]. rewrite Ascii.eqb_refl.
  now rewrite read_pad2 by lia.
Qed.

(** A date alone reads back as a naive midnight. *)
Lemma read_iso_date (y m d : Z) :
  valid_date y m d = true ->
  read_iso (Datetime.strftime_ymd (midnight y m d)) = Some (naive (midnight y m d)).
Proof.
  intro V. unfold read_iso, Datetime.strftime_ymd. cbn [year month day midnight].
  replace (pad2 d) with (pad2 d ++ "")%string
    by (unfold pad2; reflexivity).
  rewrite (read_date_written y m d "" V).
  unfold valid_datetime. cbn [year month day hour minute second microsecond].
  now rewrite V.
Qed.

Lemma read_time_written (hh mm ss us : Z) (s : string) :
  0 <= hh < 24 -> 0 <= mm < 60 -> 0 <= ss < 60 -> 0 <= us < 1000000 ->
  read_char "." s = None ->
  read_time ("T" ++ pad2 hh ++ ":" ++ pad2 mm ++ ":" ++ pad2 ss ++ fraction us ++ s)
  = Some (hh, mm, ss, us, s).
Proof.
  intros Hh Hm Hs Hu Hdot. unfold read_time.
  cbn [append read_char]. rewrite Ascii.eqb_refl.
  rewrite read_pad2 by lia. cbn [append read_char]. rewrite Ascii.eqb_refl.
  rewrite read_pad2 by lia. cbn [append read_char]. rewrite Ascii.eqb_refl.
  rewrite read_pad2 by lia.
  unfold fraction. destruct (us =? 0) eqn:E.
  - apply Z.eqb_eq in E. subst us. cbn [append]. now rewrite Hdot.
  - cbn [append read_char]. rewrite Ascii.eqb_refl. now rewrite read_pad6 by lia.
Qed.

Lemma read_offset_written (off : Z) :
  whole_minutes off = true ->
  read_offset (format_offset off) = Some (Some off) /\
  read_char "." (format_offset off) = None.
Proof.
  unfold whole_minutes. intro H. apply andb_true_iff in H as (M & B).
  apply Z.eqb_eq in M. apply Z.ltb_lt in B.
  unfold format_offset.
  assert (S0 : (Z.abs off mod 3600000000) mod 60000000 = 0)
    by (Z.to_euclidean_division_equations; lia).
  rewrite S0. cbn [Z.eqb].
  assert (Hh : 0 <= Z.abs off / 3600000000 < 24)
    by (Z.to_euclidean_division_equations; lia).
  assert (Hm : 0 <= Z.abs off mod 3600000000 / 60000000 < 60)
    by (Z.to_euclidean_division_equations; lia).
  assert (V : Z.abs off / 3600000000 * 3600000000
              + Z.abs off mod 3600000000 / 60000000 * 60000000 = Z.abs off)
    by (Z.to_euclidean_division_equations; lia).
  destruct (off <? 0) eqn:Neg; cbn [append read_offset read_char Ascii.eqb Bool.eqb orb andb];
    (split; [|reflexivity]);
    rewrite read_pad2 by lia; cbn [append read_char]; rewrite Ascii.eqb_refl;
    replace (pad2 (Z.abs off mod 3600000000 / 60000000) ++ "")%string
      with (pad2 (Z.abs off mod 3600000000 / 60000000) ++ "")%string by reflexivity;
    rewrite read_pad2 by lia;
    destruct Hh as (_ & Hh); destruct Hm as (_ & Hm);
    apply Z.ltb_lt in Hh, Hm; rewrite Hh, Hm; cbn [andb]; rewrite V;
    do 2 f_equal; [apply Z.ltb_lt in Neg|apply Z.ltb_ge in Neg]; lia.
Qed.

(** [fromisoformat] reads back what [isoformat] wrote. *)
Lemma read_iso_written (s : stamp) :
  writable s = true -> read_iso (isoformat s) = Some s.
Proof.
  destruct s as [[y m d hh mm ss us] off]. unfold writable, valid_datetime.
  cbn [wall utcoffset year month day hour minute second microsecond].
  intro H. apply andb_true_iff in H as (V & O).
  pose proof V as V'.
  assert (Vd : valid_date y m d = true)
    by (destruct (valid_date y m d); [reflexivity|discriminate V']).
  rewrite Vd in V. cbn [andb] in V.
  repeat (apply andb_true_iff in V as [V ?]).
  repeat match goal with
         | H : (_ <=? _) = true |- _ => apply Z.leb_le in H
         | H : (_ <? _) = true |- _ => apply Z.ltb_lt in H
         end.
  unfold read_iso, isoformat.
  cbn [wall utcoffset year month day hour minute second microsecond].
  rewrite (read_date_written y m d _ Vd).
  set (o := match off with Some off0 => format_offset off0 | None => ""%string end).
  assert (Ho : read_offset o = Some off /\ read_char "." o = None).
  { subst o. destruct off as [off|]; [now apply read_offset_written|now split]. }
  destruct Ho as (Ho1 & Ho2).
  rewrite (read_time_written hh mm ss us o) by (try lia; assumption).
  rewrite Ho1. cbn [append].
  unfold valid_datetime. cbn [year month day hour minute second microsecond].
  now rewrite V'.
Qed.


(** ** No Z in what [isoformat] writes *)

Lemma replace_Z_plain (s : string) : no_Z s = true -> replace_Z s = s.
Proof.
  unfold no_Z. induction s as [|c s IH]; cbn [string_forallb replace_Z];
    [reflexivity|].
  intro H. apply andb_true_iff in H as (H1 & H2). apply negb_true_iff in H1.
  now rewrite H1, IH.
Qed.

Lemma no_Z_app (s t : string) : no_Z (s ++ t) = no_Z s && no_Z t.
Proof. apply SpellingFacts.forallb_app. Qed.

Lemma no_Z_pad2 (z : Z) : no_Z (pad2 z) = true.
Proof.
  unfold no_Z, pad2. cbn [string_forallb].
  now rewrite !(proj2 (proj2 (digit_char_value _))).
Qed.

Lemma no_Z_pad4 (z : Z) : no_Z (pad4 z) = true.
Proof.
  unfold no_Z, pad4, pad2. cbn [string_forallb].
  now rewrite !(proj2 (proj2 (digit_char_value _))).
Qed.

Lemma no_Z_pad6 (z : Z) : no_Z (pad6 z) = true.
Proof.
  unfold no_Z, pad6, pad4, pad2. cbn [string_forallb].
  now rewrite !(proj2 (proj2 (digit_char_value _))).
Qed.

Lemma no_Z_offset (off : Z) : no_Z (format_offset off) = true.
Proof.
  unfold format_offset.
  repeat match goal with |- context [if ?b then _ else _] => destruct b end;
    rewrite ?no_Z_app, ?no_Z_pad2, ?no_Z_pad6; reflexivity.
Qed.

Lemma no_Z_isoformat (s : stamp) : no_Z (isoformat s) = true.
Proof.
  unfold isoformat, fraction.
  destruct (utcoffset s) as [off|]; destruct (microsecond (wall s) =? 0);
    rewrite ?no_Z_app, ?no_Z_pad2, ?no_Z_pad4, ?no_Z_pad6, ?no_Z_offset;
    reflexivity.
Qed.

Lemma isoformat_not_empty (s : stamp) : isoformat s <> ""%string.
Proof. unfold isoformat, pad4. discriminate. Qed.

Lemma append_assoc (s t u : string) : ((s ++ t) ++ u = s ++ t ++ u)%string.
Proof. induction s as [|c s IH]; cbn [append]; [reflexivity|]. now rewrite IH. Qed.

Lemma replace_Z_app (s t : string) :
  replace_Z (s ++ t) = (replace_Z s ++ replace_Z t)%string.
Proof.
  induction s as [|c s IH]; cbn [append replace_Z]; [reflexivity|].
  rewrite IH. destruct (Ascii.eqb c "Z"); reflexivity.
Qed.

(** An aware value of UTC is written as the naive one followed by
    [+00:00]. *)
Lemma isoformat_utc (dt : datetime) :
  isoformat (aware dt) = (isoformat (naive dt) ++ "+00:00")%string.
Proof.
  unfold isoformat. cbn [wall utcoffset aware naive].
  change (format_offset 0) with "+00:00"%string.
  now rewrite !append_assoc.
Qed.

(** ** [strip] *)

Lemma lstrip_headed (l : list ascii) : headed (lstrip_chars l).
Proof.
  induction l as [|c l IH]; cbn [lstrip_chars]; [exact I|].
  destruct (char_isspace c) eqn:E; [exact IH|exact E].
Qed.

Lemma lstrip_of_headed (l : list ascii) : headed l -> lstrip_chars l = l.
Proof. destruct l as [|c l]; cbn; [reflexivity|]. now intros ->. Qed.

Lemma lstrip_suffix (l : list ascii) :
  exists sp, l = (sp ++ lstrip_chars l)%list.
Proof.
  induction l as [|c l (sp & IH)]; [now exists []|]. cbn [lstrip_chars].
  destruct (char_isspace c).
  - exists (c :: sp). cbn. now rewrite <- IH.
  - now exists [].
Qed.

Lemma headed_prefix (t sp : list ascii) :
  t <> [] -> headed (t ++ sp) -> headed t.
Proof. destruct t; [congruence|auto]. Qed.

(** What [strip] returns starts and ends without whitespace: stripping it
    again changes nothing. *)
Lemma strip_strip (s : string) : strip (strip s) = strip s.
Proof.
  unfold strip. rewrite list_ascii_of_string_of_list_ascii.
  set (a := lstrip_chars (list_ascii_of_string s)).
  set (t := lstrip_chars (rev a)).
  assert (Ha : headed a) by apply lstrip_headed.
  assert (Ht : headed t) by apply lstrip_headed.
  assert (Hb : headed (rev t)).
  { destruct (lstrip_suffix (rev a)) as (sp & E). fold t in E.
    assert (Ea : a = (rev t ++ rev sp)%list)
      by (rewrite <- rev_app_distr, <- E; now rewrite rev_involutive).
    destruct t as [|c t']; [exact I|].
    apply (headed_prefix (rev (c :: t')) (rev sp)).
    - intro N. apply (f_equal (@List.length ascii)) in N.
      rewrite length_rev in N. discriminate.
    - now rewrite <- Ea. }
  rewrite (lstrip_of_headed (rev t) Hb), rev_involutive.
  now rewrite (lstrip_of_headed t Ht).
Qed.

(** ** Naive and aware values do not mix *)

Lemma lt_naive_aware (now : datetime) (e : stamp) :
  utcoffset e = None ->
  lt e (aware now)
  = Raise (TypeError "can't compare offset-naive and offset-aware datetimes").
Proof. unfold lt. now intros ->. Qed.


End IsoFacts.

(* ================================================================== *)
(** * The database *)
(* ================================================================== *)

Module DatabaseFacts.
Import Py Datetime Sys Shapes Bands Iso Database IsoFacts.
Local Open Scope Z_scope.

Lemma normalize_name_ok (name : string) :
  strip name <> ""%string -> _normalize_name name = Ok (strip name).
Proof.
  unfold _normalize_name. destruct (strip name); [congruence|reflexivity].
Qed.

Lemma ids_below_next (t : Tables) (r : Row) :
  In r (food_items t) -> r_id r < next_id t.
Proof.
  unfold next_id. generalize (sequence t). intros q Hin.
  induction (food_items t) as [|x l IH]; [contradiction|].
  cbn [fold_right]. destruct Hin as [->|Hin]; [lia|].
  specialize (IH Hin). lia.
Qed.

Lemma find_last {A : Type} (p : A -> bool) (l : list A) (x : A) :
  (forall y, In y l -> p y = false) -> p x = true ->
  find p (l ++ [x]) = Some x.
Proof.
  intros Hl Hx. induction l as [|y l IH]; cbn [app find].
  - now rewrite Hx.
  - rewrite (Hl y (or_introl eq_refl)). apply IH. intros z Hz. apply Hl. now right.
Qed.

Lemma find_append {A : Type} (p : A -> bool) (l l' : list A) :
  find p (l ++ l')
  = match find p l with
    | Some x => Some x
    | None => find p l'
    end.
Proof.
  induction l as [|y l IH]; cbn [app find]; [reflexivity|].
  now destruct (p y).
Qed.

Section Reading.
Variable other : string -> result stamp.

Lemma parse_iso_written (e : stamp) :
  writable e = true -> parse_iso other (Some (isoformat e)) = Ok (Some e).
Proof.
  intro W. unfold parse_iso.
  destruct (isoformat e) as [|c s] eqn:E; [now apply isoformat_not_empty in E|].
  rewrite <- E, (replace_Z_plain _ (no_Z_isoformat e)).
  unfold fromisoformat. now rewrite (read_iso_written e W).
Qed.


Lemma add_then_get (food : FoodItem) (db : FoodDatabase) (w : World)
  (t : Tables) (e : stamp) :
  connection db = Some t ->
  strip (name food) <> ""%string ->
  expiry_date food = Some e -> writable e = true ->
  (forall p, purchase_date food = Some p -> writable p = true) ->
  valid_datetime (reading w) = true ->
  exists item_id db',
    add_food_item food db w
    = (Ok (item_id, with_name food (strip (name food))), db', snd (Sys.now w)) /\
    (forall r, In r (food_items t) -> r_id r < item_id) /\
    get_item_by_id other item_id db'
    = Ok (Some (stored food item_id (aware (reading w)))).
Proof.
  intros C N E We Wp Wn.
  unfold add_food_item. rewrite C, (normalize_name_ok _ N).
  unfold Sys.now, insert_food_item. cbn [expiry_date with_name]. rewrite E.
  eexists. eexists. split; [reflexivity|]. split; [apply ids_below_next|].
  unfold get_item_by_id. cbn [connection food_items].
  rewrite find_last; cbn [r_id].
  - unfold _row_to_fooditem, with_name.
    cbn [r_id r_name r_category r_purchase_date r_expiry_date r_quantity r_unit
         r_location r_status r_ocr_confidence r_image_path r_notes r_created_at
         r_updated_at name category purchase_date quantity unit location status
         ocr_confidence image_path notes].
    assert (Hp : parse_iso other (option_map isoformat (purchase_date food))
                 = Ok (purchase_date food)).
    { destruct (purchase_date food) as [p|] eqn:P; [|reflexivity].
      cbn [option_map]. apply parse_iso_written. now apply Wp. }
    assert (Hn : writable (aware (clock w (reads w))) = true).
    { unfold writable. cbn [wall utcoffset aware]. fold (reading w).
      rewrite Wn. reflexivity. }
    rewrite Hp, (parse_iso_written e We), (parse_iso_written _ Hn).
    cbn [bind]. unfold stored. now rewrite E.
  - intros r Hr. apply Z.eqb_neq. pose proof (ids_below_next t r Hr). lia.
  - apply Z.eqb_refl.
Qed.

(** X9.  An item added is read back, and the others stay as they were.
    When the database is open, the name is not blank, the expiry date is
    set, and the dates are ones [isoformat] writes within [read_iso] (the
    clock's reading included), [add_food_item] returns an id above every id
    of the table; [get_item_by_id] of that id returns the item as given,
    with the id, the name stripped and the time of insertion in
    [created_at] and [updated_at]; and [get_item_by_id] of any other id
    returns what it returned before. *)
Theorem added_item_reads_back (food : FoodItem) (db : FoodDatabase) (w : World)
  (t : Tables) (e : stamp) :
  connection db = Some t ->
  strip (name food) <> ""%string ->
  expiry_date food = Some e -> writable e = true ->
  (forall p, purchase_date food = Some p -> writable p = true) ->
  valid_datetime (reading w) = true ->
  exists item_id db',
    add_food_item food db w
    = (Ok (item_id, with_name food (strip (name food))), db', snd (Sys.now w)) /\
    (forall r, In r (food_items t) -> r_id r < item_id) /\
    get_item_by_id other item_id db'
    = Ok (Some (stored food item_id (aware (reading w)))) /\
    (forall i, i <> item_id ->
       get_item_by_id other i db' = get_item_by_id other i db).
Proof.
  intros C N E We Wp Wn.
  destruct (add_then_get food db w t e C N E We Wp Wn)
    as (item_id & db' & Add & Above & Get).
  exists item_id, db'. split; [exact Add|]. split; [exact Above|].
  split; [exact Get|].
  intros i Hi. revert Add. unfold add_food_item.
  rewrite C, (normalize_name_ok _ N).
  unfold Sys.now, insert_food_item. cbn [expiry_date with_name]. rewrite E.
  intros [= <- <-]. unfold get_item_by_id. rewrite C. cbn [connection food_items].
  rewrite find_append. destruct (find _ (food_items t)); [reflexivity|].
  cbn [find r_id]. apply Z.eqb_neq in Hi. rewrite Z.eqb_sym in Hi.
  now rewrite Hi.
Qed.

Lemma row_reads (r : Row) :
  well_written r -> exists item, _row_to_fooditem other r = Ok item.
Proof.
  intros ((e & Ee & We) & (c & Ec & Wc) & (u & Eu & Wu) & Hp).
  unfold _row_to_fooditem.
  assert (P : exists p, parse_iso other (r_purchase_date r) = Ok p).
  { destruct (r_purchase_date r) as [s|] eqn:E; [|now exists None].
    destruct (Hp s eq_refl) as (p & -> & Wp).
    exists (Some p). now apply parse_iso_written. }
  destruct P as (p & ->).
  rewrite Ee, Ec, Eu, !parse_iso_written by assumption.
  cbn [bind]. eauto.
Qed.

Lemma rows_read (l : list Row) :
  Forall well_written l ->
  exists items, mapM (_row_to_fooditem other) l = Ok items /\
                List.length items = List.length l.
Proof.
  induction 1 as [|r l Hr Hl (items & IH & Len)]; [now exists []|].
  destruct (row_reads r Hr) as (item & E).
  exists (item :: items). cbn [mapM]. rewrite E, IH. cbn [bind List.length].
  now rewrite Len.
Qed.

Lemma insert_by_expiry_in (r x : Row) (l : list Row) :
  In x (insert_by_expiry r l) <-> x = r \/ In x l.
Proof.
  induction l as [|y l IH]; cbn [insert_by_expiry].
  - cbn. intuition.
  - destruct (String.ltb _ _); cbn [In]; [intuition|]. rewrite IH. intuition.
Qed.

Lemma insert_by_expiry_length (r : Row) (l : list Row) :
  List.length (insert_by_expiry r l) = S (List.length l).
Proof.
  induction l as [|y l IH]; cbn [insert_by_expiry]; [reflexivity|].
  destruct (String.ltb _ _); cbn [List.length]; [reflexivity|]. now rewrite IH.
Qed.

Lemma order_by_expiry_spec (l : list Row) :
  (forall x, In x (order_by_expiry l) <-> In x l) /\
  List.length (order_by_expiry l) = List.length l.
Proof.
  unfold order_by_expiry.
  assert (G : forall acc,
            (forall x, In x (fold_left (fun sorted r => insert_by_expiry r sorted)
                               l acc) <-> In x acc \/ In x l) /\
            List.length (fold_left (fun sorted r => insert_by_expiry r sorted) l acc)
            = (List.length acc + List.length l)%nat).
  { induction l as [|r l IH]; intro acc; cbn [fold_left In List.length].
    - split; [intuition|lia].
    - destruct (IH (insert_by_expiry r acc)) as (I1 & I2). split.
      + intro x. rewrite I1, insert_by_expiry_in. intuition.
      + rewrite I2, insert_by_expiry_length. lia. }
  destruct (G []) as (G1 & G2). split.
  - intro x. rewrite G1. cbn. intuition.
  - exact G2.
Qed.

(** X19.  What [add_food_item] wrote can always be read.  Rows whose dates
    were written by [isoformat] stay so when an item with such dates is
    added; and from a table of such rows [get_all_items] returns, without
    raising, as many items as there are rows of the status asked for, and
    [get_item_by_id] returns for every id. *)
Theorem written_rows_are_read (t : Tables) (food food' : FoodItem) (w w' : World)
  (db' : FoodDatabase) (item_id : Z) (status : string) :
  Forall well_written (food_items t) ->
  (storable food -> valid_datetime (reading w) = true ->
   add_food_item food {| connection := Some t |} w = (Ok (item_id, food'), db', w') ->
   exists t', db' = {| connection := Some t' |} /\
              Forall well_written (food_items t')) /\
  (exists items,
     get_all_items other status {| connection := Some t |} = Ok items /\
     List.length items
     = List.length (filter (fun r => String.eqb (r_status r) status)
                           (food_items t))) /\
  (forall i, exists found,
     get_item_by_id other i {| connection := Some t |} = Ok found).
Proof.
  intro Wt. split; [|split].
  - intros (Se & Sp) Wn. unfold add_food_item. cbn [connection].
    destruct (_normalize_name (name food)) as [cleaned|e];
      [|destruct (is_ValueError e); discriminate].
    unfold Sys.now, insert_food_item. cbn [expiry_date with_name purchase_date].
    destruct (expiry_date food) as [e|] eqn:E; [|discriminate].
    intros [= _ _ <- _]. eexists. split; [reflexivity|]. cbn [food_items].
    apply Forall_app. split; [exact Wt|]. constructor; [|constructor].
    assert (Hn : writable (aware (clock w (reads w))) = true).
    { unfold writable. cbn [wall utcoffset aware]. fold (reading w).
      now rewrite Wn. }
    unfold well_written.
    cbn [r_expiry_date r_created_at r_updated_at r_purchase_date].
    split; [exists e; split; [reflexivity|now apply Se]|].
    split; [eexists; split; [reflexivity|exact Hn]|].
    split; [eexists; split; [reflexivity|exact Hn]|].
    intros s Hs. destruct (purchase_date food) as [p|] eqn:P; [|discriminate].
    injection Hs as <-. exists p. split; [reflexivity|now apply Sp].
  - unfold get_all_items. cbn [connection].
    set (rows := filter (fun r => String.eqb (r_status r) status) (food_items t)).
    destruct (order_by_expiry_spec rows) as (In_o & Len_o).
    destruct (rows_read (order_by_expiry rows)) as (items & E & Len).
    { apply Forall_forall. intros r Hr. apply In_o in Hr.
      unfold rows in Hr. apply filter_In in Hr as (Hr & _).
      rewrite Forall_forall in Wt. now apply Wt. }
    exists items. split; [exact E|]. now rewrite Len, Len_o.
  - intro i. unfold get_item_by_id. cbn [connection].
    destruct (find _ (food_items t)) as [row|] eqn:F; [|eauto].
    apply find_some in F as (Hin & _).
    rewrite Forall_forall in Wt.
    destruct (row_reads row (Wt row Hin)) as (item & ->). cbn [bind]. eauto.
Qed.

(** X17.  A time written with the letter Z is read as UTC, as the comment
    of [parse_iso] says: the text of a naive value followed by [Z] is read
    back as that value made aware, at offset zero. *)
Theorem Z_suffix_reads_as_utc (dt : datetime) :
  valid_datetime dt = true ->
  parse_iso other (Some (isoformat (naive dt) ++ "Z")%string)
  = Ok (Some (aware dt)).
Proof.
  intro V.
  assert (W : writable (aware dt) = true)
    by (unfold writable; cbn [wall utcoffset aware]; now rewrite V).
  rewrite <- (parse_iso_written (aware dt) W). unfold parse_iso.
  destruct (isoformat (naive dt) ++ "Z")%string as [|c s] eqn:E.
  { unfold isoformat, pad4 in E. discriminate. }
  destruct (isoformat (aware dt)) as [|c' s'] eqn:E';
    [now apply isoformat_not_empty in E'|].
  rewrite <- E, <- E', replace_Z_app.
  rewrite !(replace_Z_plain _ (no_Z_isoformat _)).
  now rewrite isoformat_utc.
Qed.

End Reading.

Lemma Z_suffix_reads_as_utc_witness :
  valid_datetime (midnight 2026 1 6) = true /\
  parse_iso invalid_isoformat (Some "2026-01-06T00:00:00Z"%string)
  = Ok (Some (aware (midnight 2026 1 6))).
Proof.
  split; [reflexivity|].
  exact (Z_suffix_reads_as_utc invalid_isoformat (midnight 2026 1 6) eq_refl).
Defined.

Lemma written_rows_are_read_witness :
  Forall well_written [] /\
  (exists items,
     get_all_items invalid_isoformat "active" empty_database = Ok items /\
     List.length items = 0%nat) /\
  exists t',
    {| connection := Some {| food_items := [sample_row]; sequence := 1 |} |}
    = {| connection := Some t' |} /\
    Forall well_written (food_items t').
Proof.
  assert (S : storable sample_item).
  { split; [intros e [= <-]; reflexivity|discriminate]. }
  destruct (written_rows_are_read invalid_isoformat
              {| food_items := []; sequence := 0 |} sample_item
              (with_name sample_item "Test Milk") (frozen (midnight 2026 1 1))
              (snd (Sys.now (frozen (midnight 2026 1 1))))
              {| connection := Some {| food_items := [sample_row];
                                       sequence := 1 |} |}
              1 "active"%string (Forall_nil _)) as (A & B & _).
  split; [constructor|]. split; [exact B|].
  exact (A S eq_refl eq_refl).
Defined.

Lemma added_item_reads_back_witness :
  exists item_id db',
    add_food_item sample_item empty_database (frozen (midnight 2026 1 1))
    = (Ok (item_id, with_name sample_item "Test Milk"), db',
       snd (Sys.now (frozen (midnight 2026 1 1)))) /\
    (forall r, In r [] -> r_id r < item_id) /\
    get_item_by_id invalid_isoformat item_id db'
    = Ok (Some (stored sample_item item_id (aware (midnight 2026 1 1)))) /\
    (forall i, i <> item_id ->
       get_item_by_id invalid_isoformat i db'
       = get_item_by_id invalid_isoformat i empty_database).
Proof.
  assert (N : strip (name sample_item) <> ""%string) by discriminate.
  assert (Wp : forall p, purchase_date sample_item = Some p -> writable p = true)
    by discriminate.
  exact (added_item_reads_back invalid_isoformat sample_item empty_database
           (frozen (midnight 2026 1 1)) _ _ eq_refl N eq_refl eq_refl Wp eq_refl).
Defined.


Lemma failed_add_cases (food : FoodItem) (db db' : FoodDatabase)
  (w w' : World) (e : exn) :
  add_food_item food db w = (Raise e, db', w') ->
  db' = db /\ is_Exception e = true /\ is_ValueError e = false.
Proof.
  unfold add_food_item.
  destruct (connection db) as [t|]; [|now intros [= <- <- _]].
  unfold _normalize_name.
  destruct (strip (name food)) as [|c s]; [now intros [= <- <- _]|].
  unfold Sys.now. destruct (insert_food_item _ _ t) as [m|[i t']];
    [|discriminate].
  now intros [= <- <- _].
Qed.

Lemma add_succeeds_when (food food' : FoodItem) (db db' : FoodDatabase)
  (w w' : World) (item_id : Z) :
  add_food_item food db w = (Ok (item_id, food'), db', w') ->
  exists t e, connection db = Some t /\ strip (name food) <> ""%string /\
              expiry_date food = Some e.
Proof.
  unfold add_food_item. destruct (connection db) as [t|]; [|discriminate].
  unfold _normalize_name. destruct (strip (name food)) as [|c s]; [discriminate|].
  unfold Sys.now, insert_food_item. cbn [expiry_date with_name].
  destruct (expiry_date food) as [e|]; [|discriminate].
  intros _. exists t, e. repeat split. discriminate.
Qed.

(** X10.  A failed [add_food_item] changes nothing and raises a
    [DatabaseError], never a [ValueError]: on a closed database; for a name
    that is blank, before the clock is read; for an item without expiry
    date, which the table refuses. *)
Theorem failed_add_changes_nothing (food : FoodItem) (db db' : FoodDatabase)
  (w w' : World) (e : exn) :
  add_food_item food db w = (Raise e, db', w') ->
  db' = db /\ is_Exception e = true /\ is_ValueError e = false /\
  ((connection db = None /\ e = DatabaseError "No active connection" /\ w' = w) \/
   (strip (name food) = ""%string /\
    e = failed_to_add (name food) "Food name cannot be empty" /\ w' = w) \/
   (strip (name food) <> ""%string /\ expiry_date food = None /\
    e = failed_to_add (strip (name food))
          "NOT NULL constraint failed: food_items.expiry_date" /\
    w' = snd (Sys.now w))).
Proof.
  unfold add_food_item.
  destruct (connection db) as [t|] eqn:C.
  - unfold _normalize_name.
    destruct (strip (name food)) as [|c s] eqn:N.
    + cbn [is_ValueError str_of_exn]. intro H. injection H as <- <- <-.
      repeat split. right. left. auto.
    + unfold Sys.now, insert_food_item. cbn [expiry_date with_name name].
      destruct (expiry_date food) as [x|] eqn:E; [discriminate|].
      intro H. injection H as <- <- <-.
      repeat split. right. right. repeat split; auto. discriminate.
  - intro H. injection H as <- <- <-. repeat split. left. auto.
Qed.

Lemma failed_add_changes_nothing_witness :
  add_food_item (with_name sample_item "   ") empty_database
    (frozen (midnight 2026 1 1))
  = (Raise (failed_to_add "   " "Food name cannot be empty"), empty_database,
     frozen (midnight 2026 1 1)) /\
  is_ValueError (failed_to_add "   " "Food name cannot be empty") = false.
Proof.
  split; [reflexivity|].
  exact (proj1 (proj2 (proj2
           (failed_add_changes_nothing (with_name sample_item "   ")
              empty_database empty_database (frozen (midnight 2026 1 1))
              (frozen (midnight 2026 1 1))
              (failed_to_add "   " "Food name cannot be empty") eq_refl)))).
Defined.

End DatabaseFacts.

(* ================================================================== *)
(** * The application: adding items and viewing the inventory *)
(* ================================================================== *)

Module TrackerFacts.
Import Py Datetime Sys DateExtractor FoodExpiryDetector Shapes Bands Adapter
       Iso Database Tracker ParseFacts DetectorExtras IsoFacts DatabaseFacts.
Local Open Scope string_scope.

Section App.
Variable Image : Type.
Variable env : Env Image.
Variable other : string -> result stamp.
Variable add_alert : Z -> string -> Z -> State -> result bool * State.

Lemma log_alert_raises (item_id : Z) (alert_type : string) (days : Z)
  (st st' : State) (e : exn) :
  log_alert add_alert item_id alert_type days st = (Raise e, st') ->
  is_Exception e = false.
Proof.
  unfold log_alert.
  destruct (add_alert item_id alert_type days st) as [[b|e0] st0]; [discriminate|].
  destruct (is_Exception e0) eqn:E; [discriminate|]. now intros [= <- _].
Qed.

Lemma log_alerts_raises (item_id days : Z) (thresholds : list (string * Z)) :
  forall st st' e,
    log_alerts add_alert item_id days thresholds st = (Raise e, st') ->
    is_Exception e = false.
Proof.
  induction thresholds as [|[n d] ths IH]; intros st st' e; cbn [log_alerts];
    [discriminate|].
  destruct (days <=? d)%Z; [|apply IH].
  destruct (log_alert add_alert item_id n days st) as [[b|e0] st0] eqn:L.
  - apply IH.
  - intros [= <- _]. exact (log_alert_raises _ _ _ _ _ _ L).
Qed.

Lemma log_alerts_due (item_id days : Z) (st : State) :
  log_alerts add_alert item_id days ALERT_THRESHOLDS st
  = log_each add_alert item_id days (due days) st.
Proof.
  unfold ALERT_THRESHOLDS, due. cbn [log_alerts].
  destruct (days <=? 1)%Z eqn:A; destruct (days <=? 3)%Z eqn:B;
    destruct (days <=? 7)%Z eqn:C;
    rewrite ?Z.leb_le, ?Z.leb_gt in A, B, C; try lia; cbn [log_each].
  - destruct (log_alert add_alert item_id "critical" days st) as [[b|e] st1];
      [|reflexivity].
    destruct (log_alert add_alert item_id "warning" days st1) as [[b'|e] st2];
      [|reflexivity].
    now destruct (log_alert add_alert item_id "info" days st2) as [[b''|e] st3].
  - destruct (log_alert add_alert item_id "warning" days st) as [[b'|e] st2];
      [|reflexivity].
    now destruct (log_alert add_alert item_id "info" days st2) as [[b''|e] st3].
  - now destruct (log_alert add_alert item_id "info" days st) as [[b''|e] st3].
  - reflexivity.
Qed.

(** The date of a success is one [fromisoformat] reads, as a naive
    midnight. *)
Lemma success_date_reads (dt : datetime) :
  plausible_date dt ->
  fromisoformat other (Datetime.strftime_ymd dt) = Ok (naive dt).
Proof.
  intros (V & _ & E). unfold fromisoformat. rewrite E at 1.
  rewrite (read_iso_date _ _ _ V). now rewrite <- E.
Qed.


Lemma ValueError_is_Exception (e : exn) :
  is_ValueError e = true -> is_Exception e = true.
Proof. now destruct e. Qed.

Lemma add_from_image_raise (image_path : string) (name : option string)
  (category : string) (quantity : Q) (unit location : string)
  (db db' : FoodDatabase) (w w' : World) (e : exn) :
  add_from_image env other add_alert image_path name category quantity unit
    location (db, w) = (Raise e, (db', w')) ->
  is_Exception e = true -> db' = db.
Proof.
  unfold add_from_image.
  destruct (extract_expiry_date env image_path w) as [[r|e0] w0];
    [|now intros [= _ <- _]].
  destruct r as [err raw oc|err cs oc|d raw conf days oc note|err oc];
    try discriminate.
  destruct (fromisoformat other d) as [ex|e0]; [|now intros [= _ <- _]].
  unfold now_utc, Sys.now.
  destruct (add_food_item _ db _) as [[[[item_id food]|e0] db1] w1] eqn:A.
  - destruct (0 <=? days)%Z; [|discriminate].
    destruct (log_alerts add_alert item_id days ALERT_THRESHOLDS (db1, w1))
      as [[u|e0] st] eqn:L; [discriminate|].
    intros [= <- _] E. rewrite (log_alerts_raises _ _ _ _ _ _ L) in E. discriminate.
  - intros [= _ <- _] _.
    now destruct (failed_add_cases _ _ _ _ _ _ A) as (-> & _).
Qed.

Lemma add_from_image_failure (image_path : string) (name : option string)
  (category : string) (quantity : Q) (unit location : string)
  (db db' : FoodDatabase) (w w' : World) (r : AddResult) :
  add_from_image env other add_alert image_path name category quantity unit
    location (db, w) = (Ok r, (db', w')) ->
  (forall item_id added d days conf,
     r <> AddedFromImage item_id added d days conf) ->
  db' = db.
Proof.
  unfold add_from_image.
  destruct (extract_expiry_date env image_path w) as [[r0|e0] w0];
    [|discriminate].
  destruct r0 as [err raw oc|err cs oc|d raw conf days oc note|err oc];
    try (now intros [= _ <- _]).
  destruct (fromisoformat other d) as [ex|e0]; [|discriminate].
  unfold now_utc, Sys.now.
  destruct (add_food_item _ db _) as [[[[item_id food]|e0] db1] w1];
    [|discriminate].
  destruct (if (0 <=? days)%Z then _ else _) as [[u|e0] st]; [|discriminate].
  intros [= <- _] N. now destruct (N item_id (Database.name food) d days conf).
Qed.

(** X11.  [add_food_from_image] touches the database only to add the item.
    For a path that is not a file it returns [Image not found] with the
    database and the world as they were, the engine not called; and
    whenever it returns a failure, whatever went wrong, the database is
    as it was. *)
Theorem failed_image_add_keeps_database (image_path : string)
  (name : option string) (category : string) (quantity : Q)
  (unit location : string) (db : FoodDatabase) (w : World) :
  (is_file env image_path = false ->
   add_food_from_image env other add_alert image_path name category quantity
     unit location (db, w)
   = (Ok (Failed ("Image not found: " ++ image_path)), (db, w))) /\
  (forall r db' w',
     add_food_from_image env other add_alert image_path name category quantity
       unit location (db, w) = (Ok r, (db', w')) ->
     (forall item_id added d days conf,
        r <> AddedFromImage item_id added d days conf) ->
     db' = db).
Proof.
  split.
  - intro F. unfold add_food_from_image. now rewrite F.
  - intros r db' w'. unfold add_food_from_image.
    destruct (negb (is_file env image_path)); [now intros [= _ <- _]|].
    destruct (add_from_image _ _ _ _ _ _ _ _ _ (db, w)) as [[r0|e] [db1 w1]] eqn:A.
    + intros [= <- <- _]. now apply (add_from_image_failure _ _ _ _ _ _ _ _ _ _ _ A).
    + destruct (is_ValueError e) eqn:V.
      * intros [= _ <- _] _.
        exact (add_from_image_raise _ _ _ _ _ _ _ _ _ _ _ A
                 (ValueError_is_Exception e V)).
      * destruct (is_Exception e) eqn:X; [|discriminate].
        intros [= _ <- _] _.
        exact (add_from_image_raise _ _ _ _ _ _ _ _ _ _ _ A X).
Qed.


Lemma plausible_writable (dt : datetime) :
  plausible_date dt -> writable (naive dt) = true.
Proof.
  intros (V & _ & E). rewrite E. unfold writable, valid_datetime.
  cbn [wall naive utcoffset year month day hour minute second microsecond midnight].
  now rewrite V.
Qed.

(** X12.  An item added from an image is in the database as the label
    gave it.  When [add_food_from_image] reports an item added (the clock
    showing real times), the item can be read back under the id reported,
    before any alert is logged: its expiry date is the naive midnight of the
    date reported, which is the date [parse_date] reads from the quoted text
    of the label; its name is the name given, or [Unknown Food], stripped;
    its notes quote the label; the alerts due for the days reported are
    logged afterwards, none for days below zero. *)
Theorem image_item_is_stored (image_path : string) (name : option string)
  (category : string) (quantity : Q) (unit location : string)
  (db : FoodDatabase) (w : World) (st' : State)
  (item_id : Z) (added d : string) (days : Z) (conf : Q) :
  (forall n, valid_datetime (clock w n) = true) ->
  add_food_from_image env other add_alert image_path name category quantity
    unit location (db, w)
  = (Ok (AddedFromImage item_id added d days conf), st') ->
  exists raw dt db1 w1,
    parse_date raw = Ok (Some dt) /\ d = Datetime.strftime_ymd dt /\
    added = strip (name_or_unknown name) /\
    get_item_by_id other item_id db1
    = Ok (Some (stored (image_item image_path name category quantity unit
                          location raw conf (naive dt)
                          (aware (clock w (2 + reads w))))
                       item_id (aware (clock w (3 + reads w))))) /\
    clock w1 = clock w /\ reads w1 = (4 + reads w)%nat /\
    st' = (if (0 <=? days)%Z
           then snd (log_each add_alert item_id days (due days) (db1, w1))
           else (db1, w1)).
Proof.
  intros Hclock. unfold add_food_from_image.
  destruct (negb (is_file env image_path)); [discriminate|].
  destruct (add_from_image _ _ _ _ _ _ _ _ _ (db, w)) as [[r0|e] st0] eqn:A;
    [|destruct (is_ValueError e); [discriminate|];
      destruct (is_Exception e); discriminate].
  intros [= -> ->]. revert A. unfold add_from_image.
  destruct (extract_expiry_date env image_path w) as [[r0|e0] w0] eqn:X;
    [|discriminate].
  destruct r0 as [err raw oc|err cs oc|d0 raw conf0 days0 oc note|err oc];
    try discriminate.
  destruct (success_anatomy Image env image_path w w0 d0 raw conf0 days0 oc note X)
    as (img & processed & text & ocr_conf & w1 & cands & c & _ & _ & _ & Xc & Hin
        & _ & Hd & Hr & _ & _ & _ & _ & C0 & R0).
  destruct (extract_candidate text cands c Xc Hin) as (Pd & _ & _).
  pose proof (parse_date_returns _ _ Pd) as Pl.
  subst raw. rewrite Hd, (success_date_reads (date c) Pl).
  unfold now_utc, Sys.now.
  set (food := image_item image_path name category quantity unit location
                 (DateExtractor.raw c) conf0 (naive (date c))
                 (aware (clock w0 (reads w0)))).
  set (w2 := {| clock := clock w0; reads := S (reads w0); ocr_log := ocr_log w0 |}).
  destruct (add_food_item food db w2) as [[[[id1 food1]|e0] db1] w3] eqn:Add;
    [|discriminate].
  destruct (add_succeeds_when _ _ _ _ _ _ _ Add) as (t & e & Hc & Hn & He).
  assert (He' : e = naive (date c)) by (cbn in He; congruence). subst e.
  destruct (add_then_get other food db w2 t (naive (date c)) Hc Hn He
              (plausible_writable _ Pl)) as (id2 & db2 & Add2 & _ & Get).
  { intros p Hp. cbn in Hp. injection Hp as <-.
    unfold writable. cbn [wall aware utcoffset]. rewrite C0, Hclock. reflexivity. }
  { unfold reading, w2. cbn [clock reads]. rewrite C0. apply Hclock. }
  rewrite Add in Add2. injection Add2 as -> -> -> ->.
  intro H.
  assert (Hst : st' = (if (0 <=? days0)%Z
                       then snd (log_alerts add_alert id2 days0 ALERT_THRESHOLDS
                                   (db2, snd (Sys.now w2)))
                       else (db2, snd (Sys.now w2))) /\
                AddedFromImage item_id added d days conf
                = AddedFromImage id2 (strip (Database.name food))
                    (Datetime.strftime_ymd (date c)) days0 conf0).
  { destruct (0 <=? days0)%Z.
    - destruct (log_alerts _ _ _ _ _) as [[u|e0] st]; [|discriminate].
      injection H as <- <- <- <- <- <-. now split.
    - injection H as <- <- <- <- <- <-. now split. }
  destruct Hst as (Hst & Hres). injection Hres as -> -> -> -> ->.
  exists (DateExtractor.raw c), (date c), db2, (snd (Sys.now w2)).
  split; [exact Pd|]. split; [reflexivity|].
  split; [unfold food; cbn [Database.name image_item]; apply strip_strip|].
  split.
  { rewrite Get. unfold reading, w2, food. cbn [clock reads].
    rewrite C0, R0. reflexivity. }
  unfold w2. cbn [Sys.now snd clock reads]. split; [exact C0|].
  split; [now rewrite R0|].
  now rewrite Hst, log_alerts_due.
Qed.


(** X13.  A name of blanks wastes the label.  When the engine has found a
    date but the name given consists of whitespace, [add_food_from_image]
    fails on the name only after the recognition, with the message of the
    database, and adds nothing. *)
Theorem blank_name_wastes_the_label (image_path : string) (name : option string)
  (category : string) (quantity : Q) (unit location : string)
  (db : FoodDatabase) (t : Tables) (w w1 : World)
  (d raw : string) (conf : Q) (days : Z) (oc : Q) (note : string) :
  is_file env image_path = true ->
  extract_expiry_date env image_path w
  = (Ok (Success d raw conf days oc note), w1) ->
  connection db = Some t ->
  strip (name_or_unknown name) = "" ->
  add_food_from_image env other add_alert image_path name category quantity
    unit location (db, w)
  = (Ok (Failed "Error: Failed to add food item '': Food name cannot be empty"),
     (db, snd (Sys.now w1))).
Proof.
  intros F X C B. unfold add_food_from_image, add_from_image. rewrite F, X.
  cbn [negb].
  destruct (success_anatomy Image env image_path w w1 d raw conf days oc note X)
    as (img & processed & text & ocr_conf & w0 & cands & c & _ & _ & _ & Xc & Hin
        & _ & Hd & _).
  destruct (extract_candidate text cands c Xc Hin) as (Pd & _ & _).
  rewrite Hd, (success_date_reads (date c) (parse_date_returns _ _ Pd)).
  unfold now_utc, Sys.now, add_food_item. rewrite C.
  cbn [Database.name image_item]. rewrite B.
  reflexivity.
Qed.

(** X14.  A date without time zone cannot be added by hand.  When the name
    is not blank and the expiry string is one [fromisoformat] reads as a
    naive value (a date alone, as the command line asks for, is one),
    [add_food_manual] fails on comparing it with the clock, whatever the
    date, and adds nothing. *)
Theorem manual_naive_date_is_refused (name category expiry_date_str : string)
  (quantity : Q) (unit location : string) (db : FoodDatabase) (w : World) :
  strip name <> "" ->
  (forall e, read_iso (strip expiry_date_str) = Some e -> utcoffset e = None ->
     add_food_manual other add_alert name category expiry_date_str quantity
       unit location (db, w)
     = (Ok (Failed
              "Error: can't compare offset-naive and offset-aware datetimes"),
        (db, snd (Sys.now w)))) /\
  (forall y m d, valid_date y m d = true ->
     strip expiry_date_str = Datetime.strftime_ymd (midnight y m d) ->
     add_food_manual other add_alert name category expiry_date_str quantity
       unit location (db, w)
     = (Ok (Failed
              "Error: can't compare offset-naive and offset-aware datetimes"),
        (db, snd (Sys.now w)))).
Proof.
  intro N.
  assert (G : forall e, read_iso (strip expiry_date_str) = Some e ->
                        utcoffset e = None ->
     add_food_manual other add_alert name category expiry_date_str quantity
       unit location (db, w)
     = (Ok (Failed
              "Error: can't compare offset-naive and offset-aware datetimes"),
        (db, snd (Sys.now w)))).
  { intros e R U. unfold add_food_manual, add_manual.
    destruct (strip name) as [|c s]; [congruence|].
    unfold fromisoformat. rewrite R. unfold now_utc, Sys.now.
    rewrite (lt_naive_aware _ e U). reflexivity. }
  split; [exact G|].
  intros y m d V E. apply (G (naive (midnight y m d))); [|reflexivity].
  rewrite E. now apply read_iso_date.
Qed.

(** X15.  What is added by hand has a time zone, and even a past date is
    added, with all three alerts.  When [add_food_manual] reports an item
    added, the expiry string was read as an aware value; the days reported
    are the whole days from the fourth reading of the clock to it; and the
    alerts due for these days are logged, from the most urgent on: all
    three for a date that is past. *)
Theorem manual_item_is_aware (name category expiry_date_str : string)
  (quantity : Q) (unit location : string) (db : FoodDatabase) (w : World)
  (st' : State) (item_id : Z) (added : string) (days : Z) :
  add_food_manual other add_alert name category expiry_date_str quantity unit
    location (db, w)
  = (Ok (AddedManually item_id added days), st') ->
  exists e off db1 w1,
    fromisoformat other (strip expiry_date_str) = Ok e /\
    utcoffset e = Some off /\
    added = strip name /\
    days = ((instant (wall e) - off - instant (clock w (3 + reads w)))
            / us_per_day)%Z /\
    clock w1 = clock w /\ reads w1 = (4 + reads w)%nat /\
    st' = snd (log_each add_alert item_id days (due days) (db1, w1)) /\
    (days < 0 -> due days = ["critical"; "warning"; "info"])%Z.
Proof.
  unfold add_food_manual.
  destruct (add_manual _ _ _ _ _ _ _ _ (db, w)) as [[r0|e0] st0] eqn:A;
    [|destruct (is_ValueError e0); [discriminate|];
      destruct (is_Exception e0); discriminate].
  intros [= -> ->]. revert A. unfold add_manual.
  destruct (strip name) as [|c s] eqn:N; [discriminate|]. rewrite <- N.
  destruct (fromisoformat other (strip expiry_date_str)) as [e|e0]; [|discriminate].
  unfold now_utc, Sys.now. unfold lt, days_from. cbn [utcoffset aware wall].
  destruct (utcoffset e) as [off|] eqn:U; [|discriminate].
  destruct (add_food_item _ db _) as [[[[id1 food1]|e0] db1] w3] eqn:Add;
    [|discriminate].
  assert (W3 : clock w3 = clock w /\ reads w3 = (3 + reads w)%nat).
  { revert Add. unfold add_food_item.
    destruct (connection db); [|discriminate].
    destruct (_normalize_name _); [|destruct (is_ValueError _); discriminate].
    unfold Sys.now. destruct (insert_food_item _ _ _) as [m|[i t']]; [discriminate|].
    intros [= _ _ _ <-]. cbn [clock reads]. auto. }
  destruct W3 as (C3 & R3).
  destruct (log_alerts add_alert id1 _ ALERT_THRESHOLDS _) as [[u|e0] st] eqn:L;
    [|discriminate].
  intros [= <- <- <- <-].
  exists e, off, db1,
    {| clock := clock w3; reads := S (reads w3); ocr_log := ocr_log w3 |}.
  split; [reflexivity|]. split; [exact U|]. split; [reflexivity|].
  split; [now rewrite C3, R3, Z.sub_0_r|].
  cbn [clock reads]. split; [exact C3|]. split; [now rewrite R3|]. split.
  - now rewrite <- log_alerts_due, L.
  - intro H. unfold due.
    match goal with |- context [(?x <=? 1)%Z] =>
      assert (B : (x <=? 1)%Z = true) by (apply Z.leb_le; lia); now rewrite B
    end.
Qed.

Lemma entries_raise (now : datetime) (items : list FoodItem) :
  (exists item e, In item items /\ expiry_date item = Some e /\
                  utcoffset e = None) ->
  mapM (entry_of (aware now)) items
  = Raise (TypeError "can't subtract offset-naive and offset-aware datetimes").
Proof.
  induction items as [|x items IH]; intros (item & e & Hin & He & U);
    [contradiction|].
  cbn [mapM]. unfold entry_of at 1.
  destruct (expiry_date x) as [ex|] eqn:Ex.
  - unfold days_from. cbn [utcoffset aware].
    destruct (utcoffset ex) as [off|] eqn:Ux; [|reflexivity].
    cbn [bind]. destruct Hin as [->|Hin]; [congruence|].
    rewrite IH by eauto. reflexivity.
  - cbn [bind]. destruct Hin as [->|Hin]; [congruence|].
    rewrite IH by eauto. reflexivity.
Qed.

(** X16.  One naive expiry date stops the inventory.  When the items of the
    status asked for include one whose expiry date has no time zone, as the
    items added from images have, [view_inventory] raises [TypeError] on
    subtracting the clock's reading from it and returns no entry at all. *)
Theorem naive_expiry_stops_the_inventory (status : string) (db : FoodDatabase)
  (w : World) (items : list FoodItem) :
  get_all_items other status db = Ok items ->
  (exists item e, In item items /\ expiry_date item = Some e /\
                  utcoffset e = None) ->
  view_inventory other status (db, w)
  = (Raise (TypeError "can't subtract offset-naive and offset-aware datetimes"),
     (db, snd (Sys.now w))).
Proof.
  intros G H. unfold view_inventory. rewrite G. unfold now_utc, Sys.now.
  now rewrite (entries_raise _ items H).
Qed.

Lemma log_alerts_answer (item_id days : Z) (thresholds : list (string * Z)) :
  (forall id ty d st e st',
     add_alert id ty d st = (Raise e, st') -> is_Exception e = true) ->
  forall st, exists st',
    log_alerts add_alert item_id days thresholds st = (Ok tt, st').
Proof.
  intro Ha. induction thresholds as [|[n d] ths IH]; intro st; cbn [log_alerts];
    [eauto|].
  destruct (days <=? d)%Z; [|apply IH].
  unfold log_alert.
  destruct (add_alert item_id n days st) as [[b|e] st0] eqn:A; [apply IH|].
  rewrite (Ha _ _ _ _ _ _ A). apply IH.
Qed.

(** X18.  [add_food_from_image] always answers.  When OpenCV, pytesseract
    and [add_alert] raise instances of [Exception] only, it returns a dict,
    a success or a failure, whatever the image, the name and the state of
    the database. *)
Theorem image_add_always_answers (image_path : string) (name : option string)
  (category : string) (quantity : Q) (unit location : string)
  (db : FoodDatabase) (w : World) :
  raises_Exceptions env ->
  (forall id ty d st e st',
     add_alert id ty d st = (Raise e, st') -> is_Exception e = true) ->
  exists r st',
    add_food_from_image env other add_alert image_path name category quantity
      unit location (db, w) = (Ok r, st').
Proof.
  intros Henv Ha. unfold add_food_from_image.
  destruct (negb (is_file env image_path)); [eauto|].
  unfold add_from_image.
  destruct (facade_answers Image env image_path w Henv) as (r & w1 & F).
  rewrite F.
  destruct r as [err raw oc|err cs oc|d raw conf days oc note|err oc]; eauto.
  destruct (success_anatomy Image env image_path w w1 d raw conf days oc note F)
    as (img & processed & text & ocr_conf & w0 & cands & c & _ & _ & _ & Xc & Hin
        & _ & Hd & _).
  destruct (extract_candidate text cands c Xc Hin) as (Pd & _ & _).
  rewrite Hd, (success_date_reads (date c) (parse_date_returns _ _ Pd)).
  unfold now_utc, Sys.now.
  destruct (add_food_item _ db _) as [[[[item_id food]|e] db1] w3] eqn:Add.
  - destruct (0 <=? days)%Z; [|eauto].
    destruct (log_alerts_answer item_id days ALERT_THRESHOLDS Ha (db1, w3))
      as (st' & ->). eauto.
  - destruct (failed_add_cases _ _ _ _ _ _ Add) as (_ & E & V).
    rewrite V, E. eauto.
Qed.

End App.

(** ** The theorems at work: a label, an empty database, a stopped clock *)

Lemma failed_image_add_keeps_database_witness :
  fst (add_food_from_image plain_env invalid_isoformat missing_add_alert
         "label.jpg" None "dairy" 1.0 "units" "Refrigerator"
         (empty_database, frozen (midnight 2026 1 1)))
  = Ok (OcrFailed "OCR failed: No date pattern matched in text"
          "No date pattern matched in text") /\
  fst (snd (add_food_from_image plain_env invalid_isoformat missing_add_alert
              "label.jpg" None "dairy" 1.0 "units" "Refrigerator"
              (empty_database, frozen (midnight 2026 1 1))))
  = empty_database.
Proof.
  assert (E : add_food_from_image plain_env invalid_isoformat missing_add_alert
                "label.jpg" None "dairy" 1.0 "units" "Refrigerator"
                (empty_database, frozen (midnight 2026 1 1))
              = (Ok (OcrFailed "OCR failed: No date pattern matched in text"
                       "No date pattern matched in text"),
                 (empty_database,
                  snd (snd (add_food_from_image plain_env invalid_isoformat
                              missing_add_alert "label.jpg" None "dairy" 1.0
                              "units" "Refrigerator"
                              (empty_database, frozen (midnight 2026 1 1)))))))
    by (vm_compute; reflexivity).
  split; [now rewrite E|].
  assert (N : forall item_id added d days conf,
            OcrFailed "OCR failed: No date pattern matched in text"
              "No date pattern matched in text"
            <> AddedFromImage item_id added d days conf) by discriminate.
  rewrite E. cbn [fst snd].
  exact (proj2 (failed_image_add_keeps_database Datatypes.unit plain_env
                  invalid_isoformat missing_add_alert "label.jpg" None "dairy"
                  1.0 "units" "Refrigerator" empty_database
                  (frozen (midnight 2026 1 1))) _ _ _ E N).
Defined.


Lemma image_item_is_stored_witness :
  (forall n, valid_datetime (clock (frozen (midnight 2026 1 1)) n) = true) /\
  exists raw dt db1 w1,
    parse_date raw = Ok (Some dt) /\ "2026-01-12" = Datetime.strftime_ymd dt /\
    "Unknown Food" = strip (name_or_unknown None) /\
    get_item_by_id invalid_isoformat 1 db1
    = Ok (Some (stored (image_item "label.jpg" None "dairy" 1.0 "units"
                          "Refrigerator" raw 1.000 (naive dt)
                          (aware (midnight 2026 1 1)))
                       1 (aware (midnight 2026 1 1)))) /\
    clock w1 = clock (frozen (midnight 2026 1 1)) /\ reads w1 = 4%nat /\
    snd (add_food_from_image label_env invalid_isoformat missing_add_alert
           "label.jpg" None "dairy" 1.0 "units" "Refrigerator"
           (empty_database, frozen (midnight 2026 1 1)))
    = (if (0 <=? 11)%Z
       then snd (log_each missing_add_alert 1 11 (due 11) (db1, w1))
       else (db1, w1)).
Proof.
  assert (H : forall n, valid_datetime (clock (frozen (midnight 2026 1 1)) n)
                        = true) by (intro n; reflexivity).
  split; [exact H|].
  assert (E : add_food_from_image label_env invalid_isoformat missing_add_alert
                "label.jpg" None "dairy" 1.0 "units" "Refrigerator"
                (empty_database, frozen (midnight 2026 1 1))
              = (Ok (AddedFromImage 1 "Unknown Food" "2026-01-12" 11 1.000),
                 snd (add_food_from_image label_env invalid_isoformat
                        missing_add_alert "label.jpg" None "dairy" 1.0 "units"
                        "Refrigerator"
                        (empty_database, frozen (midnight 2026 1 1)))))
    by (vm_compute; reflexivity).
  exact (image_item_is_stored Datatypes.unit label_env invalid_isoformat
           missing_add_alert "label.jpg" None "dairy" 1.0 "units" "Refrigerator"
           empty_database (frozen (midnight 2026 1 1)) _ 1 "Unknown Food"
           "2026-01-12" 11 1.000 H E).
Defined.

Lemma blank_name_wastes_the_label_witness :
  strip (name_or_unknown (Some "   ")) = "" /\
  fst (add_food_from_image label_env invalid_isoformat missing_add_alert
         "label.jpg" (Some "   ") "dairy" 1.0 "units" "Refrigerator"
         (empty_database, frozen (midnight 2026 1 1)))
  = Ok (Failed "Error: Failed to add food item '': Food name cannot be empty").
Proof.
  split; [reflexivity|].
  assert (E : extract_expiry_date label_env "label.jpg" (frozen (midnight 2026 1 1))
              = (Ok (Success "2026-01-12" "12-01-2026" 1.000 11 0.900
                       "Extracted successfully"),
                 snd (extract_expiry_date label_env "label.jpg"
                        (frozen (midnight 2026 1 1)))))
    by (vm_compute; reflexivity).
  now rewrite (blank_name_wastes_the_label Datatypes.unit label_env
                 invalid_isoformat missing_add_alert "label.jpg" (Some "   ")
                 "dairy" 1.0 "units" "Refrigerator" empty_database _
                 (frozen (midnight 2026 1 1)) _ _ _ _ _ _ _
                 eq_refl E eq_refl eq_refl).
Defined.

Lemma manual_naive_date_is_refused_witness :
  strip "Banana" <> "" /\
  add_food_manual invalid_isoformat missing_add_alert "Banana" "fruits"
    "2026-02-05" 1.0 "units" "Refrigerator"
    (empty_database, frozen (midnight 2026 1 1))
  = (Ok (Failed "Error: can't compare offset-naive and offset-aware datetimes"),
     (empty_database, snd (Sys.now (frozen (midnight 2026 1 1))))).
Proof.
  assert (N : strip "Banana" <> "") by discriminate.
  split; [exact N|].
  exact (proj2 (manual_naive_date_is_refused invalid_isoformat missing_add_alert
                  "Banana" "fruits" "2026-02-05" 1.0 "units" "Refrigerator"
                  empty_database (frozen (midnight 2026 1 1)) N)
               2026%Z 2%Z 5%Z eq_refl eq_refl).
Defined.

Lemma manual_item_is_aware_witness :
  exists e off db1 w1,
    fromisoformat invalid_isoformat (strip "2025-12-25T00:00:00+00:00") = Ok e /\
    utcoffset e = Some off /\
    "Banana" = strip "Banana" /\
    (-7)%Z = ((instant (wall e) - off
               - instant (clock (frozen (midnight 2026 1 1)) 3)) / us_per_day)%Z /\
    clock w1 = clock (frozen (midnight 2026 1 1)) /\ reads w1 = 4%nat /\
    snd (add_food_manual invalid_isoformat missing_add_alert "Banana" "fruits"
           "2025-12-25T00:00:00+00:00" 1.0 "units" "Refrigerator"
           (empty_database, frozen (midnight 2026 1 1)))
    = snd (log_each missing_add_alert 1 (-7) (due (-7)) (db1, w1)) /\
    ((-7 < 0)%Z -> due (-7) = ["critical"; "warning"; "info"]).
Proof.
  assert (E : add_food_manual invalid_isoformat missing_add_alert "Banana"
                "fruits" "2025-12-25T00:00:00+00:00" 1.0 "units" "Refrigerator"
                (empty_database, frozen (midnight 2026 1 1))
              = (Ok (AddedManually 1 "Banana" (-7)),
                 snd (add_food_manual invalid_isoformat missing_add_alert
                        "Banana" "fruits" "2025-12-25T00:00:00+00:00" 1.0
                        "units" "Refrigerator"
                        (empty_database, frozen (midnight 2026 1 1)))))
    by (vm_compute; reflexivity).
  exact (manual_item_is_aware invalid_isoformat missing_add_alert "Banana"
           "fruits" "2025-12-25T00:00:00+00:00" 1.0 "units" "Refrigerator"
           empty_database (frozen (midnight 2026 1 1)) _ 1 "Banana" (-7) E).
Defined.

(** After the first item was added from an image to an empty database,
    the inventory cannot be viewed. *)
Lemma naive_expiry_stops_the_inventory_witness :
  fst (add_food_from_image label_env invalid_isoformat missing_add_alert
         "label.jpg" None "dairy" 1.0 "units" "Refrigerator"
         (empty_database, frozen (midnight 2026 1 1)))
  = Ok (AddedFromImage 1 "Unknown Food" "2026-01-12" 11 1.000) /\
  fst (view_inventory invalid_isoformat "active"
         (snd (add_food_from_image label_env invalid_isoformat missing_add_alert
                 "label.jpg" None "dairy" 1.0 "units" "Refrigerator"
                 (empty_database, frozen (midnight 2026 1 1)))))
  = Raise (TypeError "can't subtract offset-naive and offset-aware datetimes").
Proof.
  split; [vm_compute; reflexivity|].
  set (st := snd (add_food_from_image label_env invalid_isoformat
                    missing_add_alert "label.jpg" None "dairy" 1.0 "units"
                    "Refrigerator" (empty_database, frozen (midnight 2026 1 1)))).
  set (item := stored (image_item "label.jpg" None "dairy" 1.0 "units"
                         "Refrigerator" "12-01-2026" 1.000
                         (naive (midnight 2026 1 12)) (aware (midnight 2026 1 1)))
                      1 (aware (midnight 2026 1 1))).
  assert (G : get_all_items invalid_isoformat "active" (fst st) = Ok [item])
    by (vm_compute; reflexivity).
  assert (H : exists i e, In i [item] /\ expiry_date i = Some e /\
                          utcoffset e = None).
  { exists item, (naive (midnight 2026 1 12)). repeat split. now left. }
  rewrite (surjective_pairing st).
  now rewrite (naive_expiry_stops_the_inventory invalid_isoformat "active"
                 (fst st) (snd st) [item] G H).
Defined.


Lemma image_add_always_answers_witness :
  raises_Exceptions label_env /\
  exists r st',
    add_food_from_image label_env invalid_isoformat missing_add_alert
      "label.jpg" None "dairy" 1.0 "units" "Refrigerator"
      (empty_database, frozen (midnight 2026 1 1)) = (Ok r, st').
Proof.
  assert (Ha : forall (id : Z) (ty : string) (d : Z) (st : State) e st',
            missing_add_alert id ty d st = (Raise e, st') ->
            is_Exception e = true)
    by (intros id ty d st e st' [= <- _]; reflexivity).
  split; [exact DetectorClaims.label_env_raises|].
  exact (image_add_always_answers Datatypes.unit label_env invalid_isoformat
           missing_add_alert "label.jpg" None "dairy" 1.0 "units" "Refrigerator"
           empty_database (frozen (midnight 2026 1 1))
           DetectorClaims.label_env_raises Ha).
Defined.

End TrackerFacts.
